(** * dbus-mqtt: the mirroring engine of [dbus_mqtt.py]

    A shallow embedding of the [DbusMqtt] class: its four tables
    ([_topics], [_values], [_services], [_service_ids]), the publish queue
    (an [OrderedDict]), the handlers for bus and broker events, and the
    service scan.  Python dictionaries keep insertion order, and the code
    iterates over them, so they are association lists here.  Exceptions do
    not roll the object's attributes back, so an operation is a function
    from a state to a state and an outcome. *)

From Stdlib Require Import String Ascii List ZArith Lia Bool Arith DecimalString.
From Stdlib Require Import Sorting Permutation.
Import ListNotations.
Open Scope string_scope.

(* ================================================================== *)
(** ** Python strings *)
(* ================================================================== *)

Module PyStr.

(** [s.startswith(p)] *)
Fixpoint startswith (s p : string) {struct p} : bool :=
  match p with
  | EmptyString => true
  | String c p' =>
      match s with
      | EmptyString => false
      | String d s' => Ascii.eqb c d && startswith s' p'
      end
  end.

(** [s.endswith(suf)]: some tail of [s] is [suf]. *)
Fixpoint endswith (s suf : string) : bool :=
  String.eqb s suf ||
  match s with
  | EmptyString => false
  | String _ s' => endswith s' suf
  end.

(** Puts [c] in front of the first piece of a split. *)
Definition cons_first (c : ascii) (parts : list string) : list string :=
  match parts with
  | [] => [String c EmptyString]
  | h :: t => String c h :: t
  end.

(** [s.split(sep)] for a separator of one character. *)
Fixpoint split (sep : ascii) (s : string) : list string :=
  match s with
  | EmptyString => [EmptyString]
  | String c s' =>
      if Ascii.eqb c sep then EmptyString :: split sep s'
      else cons_first c (split sep s')
  end.

(** [s.split(sep, maxsplit)] for a separator of one character. *)
Fixpoint splitn (sep : ascii) (s : string) (maxsplit : nat) {struct s} : list string :=
  match s with
  | EmptyString => [EmptyString]
  | String c s' =>
      match maxsplit with
      | O => [s]
      | S m =>
          if Ascii.eqb c sep then EmptyString :: splitn sep s' m
          else cons_first c (splitn sep s' maxsplit)
      end
  end.

(** [sep.join(parts)] *)
Fixpoint join (sep : string) (parts : list string) : string :=
  match parts with
  | [] => EmptyString
  | [p] => p
  | p :: rest => p ++ sep ++ join sep rest
  end.

(** ['{}'.format(z)] for a Python [int]. *)
Definition str_of_Z (z : Z) : string := NilZero.string_of_int (Z.to_int z).

(** The character [c] does not occur in [s]. *)
Fixpoint lacks (c : ascii) (s : string) : bool :=
  match s with
  | EmptyString => true
  | String d s' => negb (Ascii.eqb d c) && lacks c s'
  end.

(** Insertion sort: [sorted(keys)] on strings compared by code unit. *)
Fixpoint insert_sorted (k : string) (l : list string) : list string :=
  match l with
  | [] => [k]
  | h :: t => if String.leb k h then k :: l else h :: insert_sorted k t
  end.

Definition sorted (l : list string) : list string :=
  fold_right insert_sorted [] l.

End PyStr.

(* ================================================================== *)
(** ** Python dictionaries, in insertion order *)
(* ================================================================== *)

Module PyDict.
Section Dict.
Context {V : Type}.

Definition t := list (string * V).

(** [d.get(k)] *)
Fixpoint get (d : t) (k : string) : option V :=
  match d with
  | [] => None
  | (k', v) :: rest => if String.eqb k' k then Some v else get rest k
  end.

(** [k in d] *)
Definition has (d : t) (k : string) : bool :=
  match get d k with Some _ => true | None => false end.

(** [d[k] = v]: an existing key keeps its place (also in an
    [OrderedDict]), a new key goes to the end. *)
Fixpoint set (d : t) (k : string) (v : V) : t :=
  match d with
  | [] => [(k, v)]
  | (k', v') :: rest =>
      if String.eqb k' k then (k', v) :: rest else (k', v') :: set rest k v
  end.

(** [del d[k]]; [None] stands for the [KeyError]. *)
Fixpoint del (d : t) (k : string) : option t :=
  match d with
  | [] => None
  | (k', v') :: rest =>
      if String.eqb k' k then Some rest
      else option_map (cons (k', v')) (del rest k)
  end.

(** [del d[k]] where the code has checked [k in d] first. *)
Definition discard (d : t) (k : string) : t :=
  match del d k with
  | Some d' => d'
  | None => d
  end.

Definition keys (d : t) : list string := map fst d.

(** [OrderedDict.popitem(last=False)]; [None] stands for the [KeyError]. *)
Definition popitem_first (d : t) : option ((string * V) * t) :=
  match d with
  | [] => None
  | kv :: rest => Some (kv, rest)
  end.

(** Every key once: what Python guarantees of a dictionary. *)
Definition wf (d : t) : Prop := NoDup (keys d).

End Dict.
Arguments t : clear implicits.
End PyDict.

Definition dict (V : Type) : Type := PyDict.t V.

(* ================================================================== *)
(** ** Exceptions and outcomes *)
(* ================================================================== *)

(** The exceptions the code can meet.  [DBusException] carries the name
    that [e.get_dbus_name()] returns. *)
Inductive exn : Type :=
| DBusException (name : string)
| TypeError
| ValueError
| KeyError (key : string)
| IndexError
| AttributeError
| OverflowError
| XMLSyntaxError
| Exception (msg : string).

Inductive outcome (A : Type) : Type :=
| Ok (a : A)
| Raise (e : exn).
Arguments Ok {A} a.
Arguments Raise {A} e.

(** What a built-in conversion ([int], [json.loads], a subscript) can
    raise: never a bus error. *)
Inductive builtin_error : Type :=
| TypeErr
| ValueErr
| KeyErr (key : string)
| OverflowErr.

Definition exn_of_builtin (e : builtin_error) : exn :=
  match e with
  | TypeErr => TypeError
  | ValueErr => ValueError
  | KeyErr k => KeyError k
  | OverflowErr => OverflowError
  end.

Inductive converted (A : Type) : Type :=
| Converted (a : A)
| Refused (e : builtin_error).
Arguments Converted {A} a.
Arguments Refused {A} e.

Definition outcome_of_converted {A} (c : converted A) : outcome A :=
  match c with
  | Converted a => Ok a
  | Refused e => Raise (exn_of_builtin e)
  end.

(** What a blocking bus call comes back with. *)
Inductive reply (A : Type) : Type :=
| Reply (a : A)
| DBusError (name : string).
Arguments Reply {A} a.
Arguments DBusError {A} name.

Definition outcome_of_reply {A} (r : reply A) : outcome A :=
  match r with
  | Reply a => Ok a
  | DBusError n => Raise (DBusException n)
  end.

(** What [Introspect] at a path comes back with: a bus error, text that
    [etree.fromstring] refuses, or a document.  Of the document the code
    reads the [name] attribute of its [interface] children and of its [node]
    children; each child also holds what [Introspect] answers at the child's
    own path, which is what the code asks for next. *)
#[warnings="-register-all"]
Inductive xml_reply : Type :=
| IntrospectError (name : string)
| IntrospectMalformed
| IntrospectXml (interfaces : list (option string))
                (nodes : list (option string * xml_reply)).

(* ================================================================== *)
(** ** The values on the bus *)
(* ================================================================== *)

(** Bus values and the library functions the code applies to them
    ([json], [ve_utils], the built-in [int]) are taken as given. *)
Class PyValue (value : Type) : Type := {
  (** Python's [None] *)
  py_none : value;
  (** [v is None] *)
  py_is_none : value -> bool;
  (** [json.dumps(dict(value=v))] *)
  json_dumps_value : value -> string;
  (** [json.loads(payload)['value']] *)
  json_loads_value : string -> converted value;
  (** [int(v)] on a value *)
  py_int : value -> converted Z;
  (** [int(s)] on text *)
  py_int_str : string -> converted Z;
  (** [ve_utils.unwrap_dbus_value] *)
  unwrap_dbus_value : value -> value;
  (** [ve_utils.wrap_dbus_value] *)
  wrap_dbus_value : value -> value;
  (** [v.items()] when [isinstance(v, dict)], else [None] *)
  dict_items : value -> option (list (string * value))
}.

(** The bus as one handler sees it. *)
Record bus (value : Type) : Type := {
  (** [call_blocking(service, path, None, 'GetValue', '', [])] *)
  bus_get_value : string -> string -> reply value;
  (** [call_blocking(service, path, None, 'SetValue', 'v', [value])] *)
  bus_set_value : string -> string -> value -> reply value;
  (** [call_blocking(service, '/', None, 'Introspect', '', [])] and below *)
  bus_introspect : string -> xml_reply;
  (** [list_names()] *)
  bus_list_names : list string;
  (** [get_name_owner(service)] *)
  bus_get_name_owner : string -> reply string
}.
Arguments bus_get_value {value} b service path.
Arguments bus_set_value {value} b service path v.
Arguments bus_introspect {value} b service.
Arguments bus_list_names {value} b.
Arguments bus_get_name_owner {value} b service.

(* ================================================================== *)
(** ** Constants *)
(* ================================================================== *)

Definition ServicePrefix : string := "com.victronenergy.".

Definition blocked_items : list (string * string) :=
  [("vebus", "/Interfaces/Mk2/Tunnel"); ("paygo", "/LVD/Threshold")].

(** [(service_type, path) in blocked_items] *)
Definition is_blocked (service_type path : string) : bool :=
  existsb (fun b => String.eqb (fst b) service_type && String.eqb (snd b) path)
          blocked_items.

(** A [device_instance] is an [int] after a scan or a read request and a
    [str] cut out of a registry key after a change signal. *)
Inductive instance : Type :=
| InstInt (z : Z)
| InstStr (s : string).

(** ['{}'.format(device_instance)] *)
Definition format_instance (i : instance) : string :=
  match i with
  | InstInt z => PyStr.str_of_Z z
  | InstStr s => s
  end.

Definition get_service_type (service_name : string) : outcome string :=
  if negb (PyStr.startswith service_name ServicePrefix)
  then Raise (Exception "No victron service")
  else match nth_error (PyStr.split "." service_name) 2 with
       | Some t => Ok t
       | None => Raise IndexError
       end.

Definition get_service_base_name (service_name : string) : outcome string :=
  if negb (PyStr.startswith service_name ServicePrefix)
  then Raise (Exception "No victron service")
  else Ok (PyStr.join "." (firstn 3 (PyStr.split "." service_name))).

Definition get_short_service_name (service : string) (device_instance : instance)
  : outcome string :=
  match get_service_type service with
  | Ok t => Ok (t ++ "/" ++ format_instance device_instance)
  | Raise e => Raise e
  end.

(* ================================================================== *)
(** ** The state of a [DbusMqtt] object *)
(* ================================================================== *)

(** The attributes of [self], and what its collaborators have been asked
    to do: the calls of [_client.publish] and [_client.subscribe] in order,
    the idle callbacks handed to [GLib.idle_add] and not yet retired, and the
    number of calls of [_registrator.register]. *)
Record state (value : Type) : Type := mkState {
  _system_id : string;
  (** Key: D-Bus service + path, value: topic *)
  _topics : dict string;
  (** Key: topic, value: last value seen on D-Bus *)
  _values : dict value;
  (** Key: service_type/device_instance, value: D-Bus service name *)
  _services : dict string;
  (** Key: short D-Bus service name, value: full D-Bus service name *)
  _service_ids : dict string;
  (** topic to pending payload; [None] is a pending unpublish *)
  queue : dict (option string);
  (** the clock reading of the last queue run, in milliseconds *)
  _last_queue_run : Z;
  _connected_to_cloud : bool;
  (** [None], or the registrator with its [client_id] *)
  _registrator : option (option string);
  (** [_socket_watch is not None], kept by the base class *)
  _socket_watch : bool;
  published : list (string * option string);
  subscribed : list string;
  idle_sources : nat;
  register_calls : nat
}.
Arguments mkState {value}.
Arguments _system_id {value} s.
Arguments _topics {value} s.
Arguments _values {value} s.
Arguments _services {value} s.
Arguments _service_ids {value} s.
Arguments queue {value} s.
Arguments _last_queue_run {value} s.
Arguments _connected_to_cloud {value} s.
Arguments _registrator {value} s.
Arguments _socket_watch {value} s.
Arguments published {value} s.
Arguments subscribed {value} s.
Arguments idle_sources {value} s.
Arguments register_calls {value} s.

Section Program.
Context {value : Type} `{PV : PyValue value}.

Abbreviation state := (state value).
Abbreviation bus := (bus value).

(** *** Attribute assignment *)

Definition set_topics (d : dict string) (st : state) : state :=
  mkState (_system_id st) d (_values st) (_services st) (_service_ids st)
    (queue st) (_last_queue_run st) (_connected_to_cloud st) (_registrator st)
    (_socket_watch st) (published st) (subscribed st) (idle_sources st)
    (register_calls st).

Definition set_values (d : dict value) (st : state) : state :=
  mkState (_system_id st) (_topics st) d (_services st) (_service_ids st)
    (queue st) (_last_queue_run st) (_connected_to_cloud st) (_registrator st)
    (_socket_watch st) (published st) (subscribed st) (idle_sources st)
    (register_calls st).

Definition set_services (d : dict string) (st : state) : state :=
  mkState (_system_id st) (_topics st) (_values st) d (_service_ids st)
    (queue st) (_last_queue_run st) (_connected_to_cloud st) (_registrator st)
    (_socket_watch st) (published st) (subscribed st) (idle_sources st)
    (register_calls st).

Definition set_service_ids (d : dict string) (st : state) : state :=
  mkState (_system_id st) (_topics st) (_values st) (_services st) d
    (queue st) (_last_queue_run st) (_connected_to_cloud st) (_registrator st)
    (_socket_watch st) (published st) (subscribed st) (idle_sources st)
    (register_calls st).

Definition set_queue (q : dict (option string)) (st : state) : state :=
  mkState (_system_id st) (_topics st) (_values st) (_services st)
    (_service_ids st) q (_last_queue_run st) (_connected_to_cloud st)
    (_registrator st) (_socket_watch st) (published st) (subscribed st)
    (idle_sources st) (register_calls st).

Definition set_last_queue_run (now : Z) (st : state) : state :=
  mkState (_system_id st) (_topics st) (_values st) (_services st)
    (_service_ids st) (queue st) now (_connected_to_cloud st)
    (_registrator st) (_socket_watch st) (published st) (subscribed st)
    (idle_sources st) (register_calls st).

Definition set_connected_to_cloud (b : bool) (st : state) : state :=
  mkState (_system_id st) (_topics st) (_values st) (_services st)
    (_service_ids st) (queue st) (_last_queue_run st) b
    (_registrator st) (_socket_watch st) (published st) (subscribed st)
    (idle_sources st) (register_calls st).

Definition set_socket_watch (b : bool) (st : state) : state :=
  mkState (_system_id st) (_topics st) (_values st) (_services st)
    (_service_ids st) (queue st) (_last_queue_run st) (_connected_to_cloud st)
    (_registrator st) b (published st) (subscribed st)
    (idle_sources st) (register_calls st).

(** [self._client.publish(topic, payload, retain=True)] *)
Definition client_publish (topic : string) (payload : option string) (st : state)
  : state :=
  mkState (_system_id st) (_topics st) (_values st) (_services st)
    (_service_ids st) (queue st) (_last_queue_run st) (_connected_to_cloud st)
    (_registrator st) (_socket_watch st) (published st ++ [(topic, payload)])
    (subscribed st) (idle_sources st) (register_calls st).

(** [self._client.subscribe(topic, 0)] *)
Definition client_subscribe (topic : string) (st : state) : state :=
  mkState (_system_id st) (_topics st) (_values st) (_services st)
    (_service_ids st) (queue st) (_last_queue_run st) (_connected_to_cloud st)
    (_registrator st) (_socket_watch st) (published st)
    (subscribed st ++ [topic]) (idle_sources st) (register_calls st).

(** [GLib.idle_add(self._service_queue)] *)
Definition idle_add (st : state) : state :=
  mkState (_system_id st) (_topics st) (_values st) (_services st)
    (_service_ids st) (queue st) (_last_queue_run st) (_connected_to_cloud st)
    (_registrator st) (_socket_watch st) (published st) (subscribed st)
    (S (idle_sources st)) (register_calls st).

(** An idle callback that returned [False] is retired. *)
Definition idle_retire (st : state) : state :=
  mkState (_system_id st) (_topics st) (_values st) (_services st)
    (_service_ids st) (queue st) (_last_queue_run st) (_connected_to_cloud st)
    (_registrator st) (_socket_watch st) (published st) (subscribed st)
    (pred (idle_sources st)) (register_calls st).

(** [self._registrator.register()] *)
Definition registrator_register (st : state) : state :=
  mkState (_system_id st) (_topics st) (_values st) (_services st)
    (_service_ids st) (queue st) (_last_queue_run st) (_connected_to_cloud st)
    (_registrator st) (_socket_watch st) (published st) (subscribed st)
    (idle_sources st) (S (register_calls st)).

(** *** Operations: a state goes in, a state and an outcome come out *)

Definition M (A : Type) : Type := state -> state * outcome A.

Definition ret {A} (a : A) : M A := fun st => (st, Ok a).

Definition raise {A} (e : exn) : M A := fun st => (st, Raise e).

Definition bind {A B} (m : M A) (k : A -> M B) : M B :=
  fun st =>
    match m st with
    | (st', Ok a) => k a st'
    | (st', Raise e) => (st', Raise e)
    end.

(** A pure computation that may raise. *)
Definition lift {A} (o : outcome A) : M A := fun st => (st, o).

(** An assignment to an attribute. *)
Definition modify (f : state -> state) : M unit := fun st => (f st, Ok tt).

(** A read of the attributes. *)
Definition gets {A} (f : state -> A) : M A := fun st => (st, Ok (f st)).

(** [try: m  except ...: h], where [h e] is [None] when no clause takes [e]. *)
Definition try_except {A} (m : M A) (h : exn -> option (M A)) : M A :=
  fun st =>
    match m st with
    | (st', Ok a) => (st', Ok a)
    | (st', Raise e) =>
        match h e with
        | Some k => k st'
        | None => (st', Raise e)
        end
    end.

(** [for x in l: body(x)] *)
Definition for_each {X} (body : X -> M unit) : list X -> M unit :=
  fix go (l : list X) : M unit :=
    match l with
    | [] => ret tt
    | x :: rest => bind (body x) (fun _ => go rest)
    end.

Notation "x <- m ;; k" := (bind m (fun x => k))
  (at level 61, m at next level, right associativity).
Notation "m ;;; k" := (bind m (fun _ => k))
  (at level 61, right associativity).

(** *** The publish queue *)

(** [self.queue[topic] = payload] *)
Definition enqueue (topic : string) (payload : option string) (st : state) : state :=
  set_queue (PyDict.set (queue st) topic payload) st.

Definition _publish (topic : string) (v : value) (st : state) : state :=
  if negb (_socket_watch st) then st
  else enqueue topic (Some (json_dumps_value v)) st.

Definition _unpublish (topic : string) (st : state) : state :=
  if negb (_socket_watch st) then st
  else if PyStr.endswith topic "/system/0/Serial" then st
  else enqueue topic None st.

(** [self._values[topic]] *)
Definition values_item (topic : string) : M value :=
  fun st =>
    match PyDict.get (_values st) topic with
    | Some v => (st, Ok v)
    | None => (st, Raise (KeyError topic))
    end.

Definition _publish_all : M unit :=
  fun st =>
    for_each (fun topic => v <- values_item topic ;; modify (_publish topic v))
             (PyStr.sorted (PyDict.keys (_values st))) st.

(** [dict.iterkeys] exists under Python 2 only; under Python 3 the
    attribute lookup raises before the loop starts. *)
Definition _unpublish_all (has_iterkeys : bool) : M unit :=
  fun st =>
    if has_iterkeys
    then for_each (fun topic => modify (_unpublish topic)) (PyDict.keys (_values st)) st
    else (st, Raise AttributeError).

(** The loop of [_service_queue]: [false] when [popitem] found the queue
    empty, [true] after [items] publishes. *)
Fixpoint drain (items : nat) (st : state) : state * bool :=
  match items with
  | O => (st, true)
  | S n =>
      match PyDict.popitem_first (queue st) with
      | None => (st, false)
      | Some ((topic, payload), rest) =>
          drain n (client_publish topic payload (set_queue rest st))
      end
  end.

Definition _service_queue (now : Z) (items : nat) (st : state) : state * bool :=
  drain items (set_last_queue_run now st).

(** [now] is the clock at the test, [now'] the clock inside [_service_queue]. *)
Definition _timer_service_queue (now now' : Z) (st : state) : state :=
  if (0 <? length (queue st))%nat && (1500 <? now - _last_queue_run st)%Z
  then match _service_queue now' 5 st with
       | (st', true) => idle_add st'
       | (st', false) => st'
       end
  else st.

(** Calls of [_service_queue] one after the other, each with its clock
    reading and its [items]. *)
Definition run_queue (calls : list (Z * nat)) (st : state) : state :=
  fold_left (fun s c => fst (_service_queue (fst c) (snd c) s)) calls st.

(** The entries of a queue or of the publish log that are for [topic]. *)
Definition for_topic (topic : string) (l : list (string * option string))
  : list (string * option string) :=
  filter (fun e => String.eqb (fst e) topic) l.

(** *** The mirror table *)

Definition normalize_path (path : string) : string :=
  if negb (PyStr.startswith path "/") then "/" ++ path else path.

Definition make_topic (system_id service_type : string) (device_instance : instance)
    (path : string) : string :=
  "N/" ++ system_id ++ "/" ++ service_type ++ "/"
       ++ format_instance device_instance ++ path.

Definition _add_item (service : string) (device_instance : instance)
    (path : string) (v : value) : M (option string) :=
  fun st =>
    let path := normalize_path path in
    let uid := service ++ path in
    match PyDict.get (_topics st) uid with
    | Some r => (st, Ok (Some r))
    | None =>
        match get_service_type service with
        | Raise e => (st, Raise e)
        | Ok service_type =>
            if is_blocked service_type path then (st, Ok None)
            else
              let topic := make_topic (_system_id st) service_type device_instance path in
              (set_values (PyDict.set (_values st) topic v)
                 (set_topics (PyDict.set (_topics st) uid topic) st),
               Ok (Some topic))
        end
    end.

Definition _get_dbus_value (b : bus) (service path : string) : outcome value :=
  match bus_get_value b service path with
  | Reply raw => Ok (unwrap_dbus_value raw)
  | DBusError n => Raise (DBusException n)
  end.

Definition _set_dbus_value (b : bus) (service path : string) (v : value)
  : outcome value :=
  outcome_of_reply (bus_set_value b service path (wrap_dbus_value v)).

(** *** Requests from the broker *)

Definition _get_uid_by_topic (topic : string) : M (option string * Z * string) :=
  match PyStr.splitn "/" topic 4 with
  | [_; _; service_type; device_instance; path] =>
      di <- lift (outcome_of_converted (py_int_str device_instance)) ;;
      service <- gets (fun st =>
        PyDict.get (_services st) (service_type ++ "/" ++ PyStr.str_of_Z di)) ;;
      ret (service, di, path)
  | _ => raise ValueError
  end.

Definition _handle_write (b : bus) (topic payload : string) : M unit :=
  v <- lift (outcome_of_converted (json_loads_value payload)) ;;
  r <- _get_uid_by_topic topic ;;
  match r with
  | (None, _, _) => raise (Exception "Unknown service")
  | (Some service, _, path) =>
      _ <- lift (_set_dbus_value b service ("/" ++ path) v) ;;
      modify idle_add
  end.

Definition _handle_read (b : bus) (topic : string) : M unit :=
  r <- _get_uid_by_topic topic ;;
  match r with
  | (None, _, _) => raise (Exception "Unknown service")
  | (Some service, device_instance, path) =>
      v <- lift (_get_dbus_value b service ("/" ++ path)) ;;
      t <- _add_item service (InstInt device_instance) path v ;;
      match t with
      | Some t' =>
          if String.eqb t' topic
          then modify (_publish topic v) ;;; modify idle_add
          else ret tt
      | None => ret tt
      end
  end.

(** The request branch of [_on_message], inside its [try]. *)
Definition request (b : bus) (topic payload : string) : M unit :=
  match PyStr.splitn "/" topic 2 with
  | [action; system_id; path] =>
      own <- gets _system_id ;;
      if negb (String.eqb system_id own) then raise (Exception "Unknown system id")
      else
        let topic' := "N/" ++ system_id ++ "/" ++ path in
        if String.eqb action "W" then _handle_write b topic' payload
        else if String.eqb action "R" then _handle_read b topic'
        else ret tt
  | _ => raise ValueError
  end.

Definition _on_message (b : bus) (topic payload : string) : M unit :=
  if PyStr.startswith topic "$SYS/broker/connection/" then
    n <- lift (outcome_of_converted (py_int_str payload)) ;;
    if (n =? 1)%Z then modify (set_connected_to_cloud true)
    else
      c <- gets _connected_to_cloud ;;
      if c then
        modify (set_connected_to_cloud false) ;;;
        r <- gets _registrator ;;
        match r with
        | Some _ => modify registrator_register
        | None => raise AttributeError
        end
      else ret tt
  else try_except (request b topic payload) (fun _ => Some (ret tt)).

Definition _on_connect : M unit :=
  own <- gets _system_id ;;
  modify (client_subscribe ("R/" ++ own ++ "/#")) ;;;
  modify (client_subscribe ("W/" ++ own ++ "/#")) ;;;
  r <- gets _registrator ;;
  match r with
  | Some (Some client_id) =>
      modify (client_subscribe ("$SYS/broker/connection/" ++ client_id ++ "/state"))
  | _ => ret tt
  end ;;;
  _publish_all.

(** *** Scanning a service *)

Definition is_unknown_object_or_method (n : string) : bool :=
  String.eqb n "org.freedesktop.DBus.Error.UnknownObject"
  || String.eqb n "org.freedesktop.DBus.Error.UnknownMethod".

(** The errors the outer handler of [_scan_dbus_service] logs and drops. *)
Definition is_transient (n : string) : bool :=
  (String.eqb n "org.freedesktop.DBus.Error.ServiceUnknown"
   || String.eqb n "org.freedesktop.DBus.Error.Disconnected")
  || String.eqb n "org.freedesktop.DBus.Error.NoReply".

(** [topic = self._add_item(...)] and then
    [if publish and topic is not None: self._publish(topic, v)] *)
Definition add_and_publish (service : string) (device_instance : instance)
    (path : string) (v : value) (publish : bool) : M unit :=
  topic <- _add_item service device_instance path v ;;
  match topic with
  | Some t => if publish then modify (_publish t v) else ret tt
  | None => ret tt
  end.

Definition is_bus_item (iface : option string) : bool :=
  match iface with
  | Some n => String.eqb n "com.victronenergy.BusItem"
  | None => false
  end.

(** [doc] is what [Introspect] answers at [path]. *)
Fixpoint _introspect (b : bus) (service : string) (device_instance : instance)
    (path : string) (publish : bool) (doc : xml_reply) {struct doc} : M unit :=
  match doc with
  | IntrospectError n => raise (DBusException n)
  | IntrospectMalformed => raise XMLSyntaxError
  | IntrospectXml interfaces nodes =>
      match nodes with
      | [] =>
          for_each
            (fun iface =>
               if is_bus_item iface then
                 v <- lift (_get_dbus_value b service path) ;;
                 add_and_publish service device_instance path v publish
               else ret tt)
            interfaces
      | _ =>
          for_each
            (fun child =>
               match child with
               | (Some name, sub) =>
                   let p := if PyStr.endswith path "/" then path ++ name
                            else path ++ "/" ++ name in
                   _introspect b service device_instance p publish sub
               | (None, _) => ret tt
               end)
            nodes
      end
  end.

(** The paths an introspection that starts at [path] with the answer
    [doc] reaches and finds to be items: the nodes without child nodes
    that have the [com.victronenergy.BusItem] interface. *)
Fixpoint bus_items (path : string) (doc : xml_reply) {struct doc} : list string :=
  match doc with
  | IntrospectXml interfaces nodes =>
      match nodes with
      | [] => if existsb is_bus_item interfaces then [path] else []
      | _ =>
          flat_map
            (fun child =>
               match child with
               | (Some name, sub) =>
                   bus_items (if PyStr.endswith path "/" then path ++ name
                              else path ++ "/" ++ name) sub
               | (None, _) => []
               end)
            nodes
      end
  | _ => []
  end.

(** [int(self._get_dbus_value(service, '/DeviceInstance'))] under its
    two [except] clauses. *)
Definition read_device_instance (b : bus) (service : string) : M Z :=
  try_except
    (v <- lift (_get_dbus_value b service "/DeviceInstance") ;;
     lift (outcome_of_converted (py_int v)))
    (fun e =>
       match e with
       | DBusException n =>
           Some (if is_unknown_object_or_method n then ret 0%Z else raise e)
       | TypeError => Some (ret 0%Z)
       | _ => None
       end).

(** [items = self._get_dbus_value(service, '/')] under its [except]
    clause; [None] is the [return] after the introspection. *)
Definition read_items (b : bus) (service : string) (device_instance : Z)
    (publish : bool) : M (option value) :=
  try_except
    (items <- lift (_get_dbus_value b service "/") ;; ret (Some items))
    (fun e =>
       match e with
       | DBusException n =>
           Some (if is_unknown_object_or_method n
                 then _introspect b service (InstInt device_instance) "/" publish
                        (bus_introspect b service) ;;;
                      ret None
                 else raise e)
       | _ => None
       end).

(** The body of the outer [try] of [_scan_dbus_service]. *)
Definition scan_body (b : bus) (service : string) (publish : bool) : M unit :=
  device_instance <- read_device_instance b service ;;
  short_service_name <-
    lift (get_short_service_name service (InstInt device_instance)) ;;
  modify (fun st =>
    set_services (PyDict.set (_services st) short_service_name service) st) ;;;
  items <- read_items b service device_instance publish ;;
  match items with
  | None => ret tt
  | Some items =>
      match dict_items items with
      | Some kvs =>
          for_each
            (fun kv =>
               add_and_publish service (InstInt device_instance) (fst kv)
                 (unwrap_dbus_value (snd kv)) publish)
            kvs
      | None => ret tt
      end
  end.

Definition _scan_dbus_service (b : bus) (service : string) (publish : bool)
  : M unit :=
  try_except (scan_body b service publish)
    (fun e =>
       match e with
       | DBusException n => Some (if is_transient n then ret tt else raise e)
       | _ => None
       end).

(** *** Bus signals *)

(** [del self._topics[uid]] *)
Definition del_topic (uid : string) : M unit :=
  fun st =>
    match PyDict.del (_topics st) uid with
    | Some d => (set_topics d st, Ok tt)
    | None => (st, Raise (KeyError uid))
    end.

(** [del self._values[topic]] *)
Definition del_value (topic : string) : M unit :=
  fun st =>
    match PyDict.del (_values st) topic with
    | Some d => (set_values d st, Ok tt)
    | None => (st, Raise (KeyError topic))
    end.

(** The branch of [_dbus_name_owner_changed] for a service that is gone. *)
Definition service_disappeared (name oldowner : string) : M unit :=
  (fun st =>
     for_each
       (fun item =>
          if PyStr.startswith (fst item) (name ++ "/") then
            modify (_unpublish (snd item)) ;;;
            del_topic (fst item) ;;;
            del_value (snd item)
          else ret tt)
       (_topics st) st) ;;;
  modify (fun st =>
    if PyDict.has (_services st) name
    then set_services (PyDict.discard (_services st) name) st else st) ;;;
  modify (fun st =>
    if PyDict.has (_service_ids st) oldowner
    then set_service_ids (PyDict.discard (_service_ids st) oldowner) st else st).

Definition _dbus_name_owner_changed (b : bus) (name oldowner newowner : string)
  : M unit :=
  if negb (PyStr.startswith name "com.victronenergy.") then ret tt
  else if negb (String.eqb newowner "") then
    _scan_dbus_service b name true ;;;
    modify (fun st =>
      set_service_ids (PyDict.set (_service_ids st) newowner name) st)
  else if negb (String.eqb oldowner "") then service_disappeared name oldowner
  else ret tt.

(** [self._topics[uid]] *)
Definition topics_item (uid : string) : M string :=
  fun st =>
    match PyDict.get (_topics st) uid with
    | Some t => (st, Ok t)
    | None => (st, Raise (KeyError uid))
    end.

(** The end of [_on_dbus_value_changed], once the topic is known. *)
Definition store_change (changes : dict value) (topic : string) : M unit :=
  match PyDict.get changes "Value" with
  | None => ret tt
  | Some raw =>
      if py_is_none raw then ret tt
      else
        let v := unwrap_dbus_value raw in
        modify (fun st => set_values (PyDict.set (_values st) topic v) st) ;;;
        modify (_publish topic v)
  end.

Definition _on_dbus_value_changed (changes : dict value) (path service_id : string)
  : M unit :=
  fun st =>
    match PyDict.get (_service_ids st) service_id with
    | None => (st, Ok tt)
    | Some service =>
        let uid := service ++ path in
        match PyDict.get (_topics st) uid with
        | Some topic => store_change changes topic st
        | None =>
            match find (fun kv => String.eqb (snd kv) service) (_services st) with
            | None => (st, Ok tt)
            | Some (service_short_name, _) =>
                (device_instance <-
                   lift (match nth_error (PyStr.split "/" service_short_name) 1 with
                         | Some d => Ok d
                         | None => Raise IndexError
                         end) ;;
                 _add_item service (InstStr device_instance) path py_none ;;;
                 topic <- topics_item uid ;;
                 store_change changes topic) st
            end
        end
    end.

(** What the end of the handler leaves behind, once the topic is known
    and the signal carries a value. *)
Definition change_stored (topic : string) (v : value) (st st' : state)
  : Prop :=
  PyDict.get (_values st') topic = Some v
  /\ (forall t, t <> topic -> PyDict.get (_values st') t = PyDict.get (_values st) t)
  /\ (if _socket_watch st
      then PyDict.get (queue st') topic = Some (Some (json_dumps_value v))
           /\ forall t, t <> topic ->
                PyDict.get (queue st') t = PyDict.get (queue st) t
      else queue st' = queue st)
  /\ _topics st' = _topics st
  /\ _services st' = _services st
  /\ _service_ids st' = _service_ids st
  /\ published st' = published st.

(** *** Start-up *)

Definition initial_state (system_id : string) (registrator : option (option string))
  : state :=
  mkState system_id [] [] [] [] [] 0%Z false registrator false [] [] 0
    (match registrator with Some _ => 1 | None => 0 end).

(** [DbusMqtt.__init__]: [registrator] is [None] without [init_broker],
    else the registrator's [client_id]. *)
Definition DbusMqtt_init (b : bus) (system_id : string)
    (registrator : option (option string)) : state * outcome unit :=
  for_each
    (fun service =>
       if PyStr.startswith service "com.victronenergy." then
         owner <- lift (outcome_of_reply (bus_get_name_owner b service)) ;;
         modify (fun st =>
           set_service_ids (PyDict.set (_service_ids st) owner service) st) ;;;
         _scan_dbus_service b service false
       else ret tt)
    (bus_list_names b)
    (initial_state system_id registrator).

(** The queue, what the client was asked to do, and the bookkeeping of
    the connection to the broker. *)
Definition connection_view (st : state)
  : dict (option string) * list (string * option string) * list string
    * nat * nat * bool * bool * Z * string * option (option string) :=
  (queue st, published st, subscribed st, idle_sources st, register_calls st,
   _connected_to_cloud st, _socket_watch st, _last_queue_run st, _system_id st,
   _registrator st).

(** *** The event loop *)

(** What the main loop dispatches.  [SocketWatch] is the base class
    setting or clearing [_socket_watch]; [UnpublishAll] is a call of
    [_unpublish_all], which nothing in the module calls. *)
Inductive event : Type :=
| NameOwnerChanged (name oldowner newowner : string)
| PropertiesChanged (changes : dict value) (path service_id : string)
| MqttConnect
| MqttMessage (topic payload : string)
| TimerTick (now now' : Z)
| IdleRun (now : Z)
| SocketWatch (up : bool)
| UnpublishAll (has_iterkeys : bool).

Definition handle (b : bus) (e : event) : M unit :=
  match e with
  | NameOwnerChanged name oldowner newowner =>
      _dbus_name_owner_changed b name oldowner newowner
  | PropertiesChanged changes path service_id =>
      _on_dbus_value_changed changes path service_id
  | MqttConnect => _on_connect
  | MqttMessage topic payload => _on_message b topic payload
  | TimerTick now now' => modify (_timer_service_queue now now')
  | IdleRun now =>
      modify (fun st =>
        match _service_queue now 5 st with
        | (st', true) => st'
        | (st', false) => idle_retire st'
        end)
  | SocketWatch up => modify (set_socket_watch up)
  | UnpublishAll has_iterkeys => _unpublish_all has_iterkeys
  end.

(** A name the bus daemon hands out has no ['/'] in it. *)
Definition valid_bus_name (name : string) : bool := PyStr.lacks "/" name.

Definition event_ok (e : event) : Prop :=
  match e with
  | NameOwnerChanged name _ _ => valid_bus_name name = true
  | _ => True
  end.

(** The events that run the queue. *)
Definition is_queue_run (e : event) : bool :=
  match e with
  | TimerTick _ _ | IdleRun _ => true
  | _ => false
  end.

(** The events that report a change of the owner of a name. *)
Definition is_owner_change (e : event) : bool :=
  match e with
  | NameOwnerChanged _ _ _ => true
  | _ => false
  end.

(** The events that report that a name has no owner any more. *)
Definition is_owner_loss (e : event) : bool :=
  match e with
  | NameOwnerChanged _ _ newowner => String.eqb newowner ""
  | _ => false
  end.

(** The states the object can be in: after [__init__] returned, and after
    any callback, whether it returned or raised (the main loop prints the
    traceback of a callback that raised and goes on). *)
Inductive reachable : state -> Prop :=
| reachable_init : forall b system_id registrator st,
    Forall (fun n => valid_bus_name n = true) (bus_list_names b) ->
    DbusMqtt_init b system_id registrator = (st, Ok tt) ->
    reachable st
| reachable_step : forall b e st,
    reachable st -> event_ok e -> reachable (fst (handle b e st)).

(** *** Runs of broker messages *)

(** The messages [msgs] (topic and payload) handled one after the other;
    a handler that raised leaves its state to the next. *)
Definition run_messages (b : bus) (msgs : list (string * string)) (st : state)
  : state :=
  fold_left (fun s m => fst (_on_message b (fst m) (snd m) s)) msgs st.

(** How often a run of reported connection states goes from connected to
    not connected, given the flag before the run. *)
Fixpoint losses (connected : bool) (ns : list Z) : nat :=
  match ns with
  | [] => 0
  | n :: rest =>
      if (n =? 1)%Z then losses true rest
      else if connected then S (losses false rest)
      else losses false rest
  end.

(** The flag after the run: [true] exactly after a report of [1]. *)
Definition cloud_after (connected : bool) (ns : list Z) : bool :=
  fold_left (fun _ n => (n =? 1)%Z) ns connected.

(** *** The entries under a service *)

(** The test of the loop in [_dbus_name_owner_changed]:
    [path.startswith(name + '/')]. *)
Definition is_under (name : string) (item : string * string) : bool :=
  PyStr.startswith (fst item) (name ++ "/").

(** The entries of the mirror table that the loop takes for [name]'s. *)
Definition under_service (name : string) (st : state) : list (string * string) :=
  filter (is_under name) (_topics st).

(** [uid] is the key of one of the [items] under [name]. *)
Definition uid_under (name : string) (items : list (string * string))
    (uid : string) : bool :=
  existsb (fun item => is_under name item && String.eqb (fst item) uid) items.

(** [topic] is the topic of one of the [items] under [name]. *)
Definition topic_under (name : string) (items : list (string * string))
    (topic : string) : bool :=
  existsb (fun item => is_under name item && String.eqb (snd item) topic) items.

(** *** What holds of every state *)

(** [uid] and [topic] are what [_add_item] makes of a service and a path:
    the service is a bus name under the vendor prefix, the path starts with
    ['/'] and is not blocked for the service's type, and the device instance
    is printed without a ['/']. *)
Definition entry_for (system_id uid topic : string) : Prop :=
  exists service service_type device_instance path,
    valid_bus_name service = true
    /\ get_service_type service = Ok service_type
    /\ PyStr.startswith path "/" = true
    /\ is_blocked service_type path = false
    /\ PyStr.lacks "/" (format_instance device_instance) = true
    /\ uid = service ++ path
    /\ topic = make_topic system_id service_type device_instance path.



Record invariant (st : state) : Prop := {
  inv_topics : forall uid topic,
    In (uid, topic) (_topics st) -> entry_for (_system_id st) uid topic;
  inv_services : forall key service,
    In (key, service) (_services st) ->
    valid_bus_name service = true
    /\ exists d, nth_error (PyStr.split "/" key) 1 = Some d;
  inv_service_ids : forall owner service,
    In (owner, service) (_service_ids st) -> valid_bus_name service = true;
  inv_queue : forall topic,
    In (topic, None) (queue st) ->
    PyStr.endswith topic "/system/0/Serial" = false;
  inv_published : forall topic,
    In (topic, None) (published st) ->
    PyStr.endswith topic "/system/0/Serial" = false;
  inv_topics_wf : PyDict.wf (_topics st);
  inv_values_wf : PyDict.wf (_values st);
  inv_services_wf : PyDict.wf (_services st);
  inv_service_ids_wf : PyDict.wf (_service_ids st);
  inv_queue_wf : PyDict.wf (queue st)
}.

(** [m] keeps [P], whether it returns or raises. *)
Definition preserves {A} (P : state -> Prop) (m : M A) : Prop :=
  forall st, P st -> P (fst (m st)).

End Program.

Arguments M value A : clear implicits.
Arguments reachable {value PV} st.
Arguments run_messages {value PV} b msgs st.
Arguments invariant {value} st.
Arguments event value : clear implicits.

(* ================================================================== *)
(** ** The specification's wording, for comparison *)
(* ================================================================== *)

Module Spec.
Section Wording.
Context {value : Type} `{PV : PyValue value}.

(** "Re-enqueueing the same topic replaces the prior pending payload and
    moves it to the tail." *)
Definition enqueue_to_tail (topic : string) (payload : option string)
    (q : dict (option string)) : dict (option string) :=
  (filter (fun kv => negb (String.eqb (fst kv) topic)) q ++ [(topic, payload)])%list.

(** "An owner swap (both non-empty) is handled as a disappearance of
    [oldowner] followed by an appearance of [newowner]." *)
Definition owner_swap (b : bus value) (name oldowner newowner : string)
  : M value unit :=
  bind (_dbus_name_owner_changed b name oldowner "")
       (fun _ => _dbus_name_owner_changed b name "" newowner).


End Wording.
End Spec.

(* ================================================================== *)
(** ** A small world to run the model in *)
(* ================================================================== *)

Module Demo.

(** A fragment of the values of the bus: [None], integers, text, and a
    flat dictionary of integers (a service's item listing). *)
Inductive value : Type :=
| VNone
| VInt (z : Z)
| VStr (s : string)
| VItems (items : list (string * Z)).

Definition quote : string := String "034"%char EmptyString.

(** [json.dumps] on these values (text without characters to escape). *)
Definition render (v : value) : string :=
  match v with
  | VNone => "null"
  | VInt z => PyStr.str_of_Z z
  | VStr s => quote ++ s ++ quote
  | VItems items =>
      "{" ++ PyStr.join ", "
               (map (fun kz => quote ++ fst kz ++ quote ++ ": "
                                 ++ PyStr.str_of_Z (snd kz)) items)
          ++ "}"
  end.

Definition digit_of (c : ascii) : option Z :=
  let n := nat_of_ascii c in
  if (48 <=? n)%nat && (n <=? 57)%nat then Some (Z.of_nat (n - 48)) else None.

Fixpoint digits (acc : Z) (s : string) : option Z :=
  match s with
  | EmptyString => Some acc
  | String c s' =>
      match digit_of c with
      | Some d => digits (10 * acc + d)%Z s'
      | None => None
      end
  end.

(** The digits of a number and the closing brace after it. *)
Fixpoint number_then_brace (acc : Z) (seen : bool) (s : string) : option Z :=
  match s with
  | EmptyString => None
  | String c s' =>
      match digit_of c with
      | Some d => number_then_brace (10 * acc + d)%Z true s'
      | None =>
          if Ascii.eqb c "}" && seen && String.eqb s' EmptyString
          then Some acc else None
      end
  end.

Fixpoint strip_prefix (p s : string) : option string :=
  match p with
  | EmptyString => Some s
  | String c p' =>
      match s with
      | EmptyString => None
      | String d s' => if Ascii.eqb c d then strip_prefix p' s' else None
      end
  end.

(** [json.loads(payload)['value']] on a payload as [json.dumps] writes it
    for an integer, which is all the examples send. *)
Definition loads_value (payload : string) : converted value :=
  match strip_prefix ("{" ++ quote ++ "value" ++ quote ++ ": ") payload with
  | Some rest =>
      match number_then_brace 0%Z false rest with
      | Some z => Converted (VInt z)
      | None => Refused ValueErr
      end
  | None => Refused ValueErr
  end.

(** [int(s)] on plain decimal digits, which is all the examples use. *)
Definition int_of_digits (s : string) : converted Z :=
  match s with
  | EmptyString => Refused ValueErr
  | _ =>
      match digits 0%Z s with
      | Some z => Converted z
      | None => Refused ValueErr
      end
  end.

#[global] Instance demo_values : PyValue value := {
  py_none := VNone;
  py_is_none v := match v with VNone => true | _ => false end;
  json_dumps_value v := "{" ++ quote ++ "value" ++ quote ++ ": " ++ render v ++ "}";
  json_loads_value := loads_value;
  py_int v :=
    match v with
    | VInt z => Converted z
    | VStr s => int_of_digits s
    | _ => Refused TypeErr
    end;
  py_int_str := int_of_digits;
  unwrap_dbus_value v := v;
  wrap_dbus_value v := v;
  dict_items v :=
    match v with
    | VItems l => Some (map (fun kz => (fst kz, VInt (snd kz))) l)
    | _ => None
    end
}.

(** A bus with two services, each with an item listing at its root and
    no [/DeviceInstance]; any other path reads as [7]. *)
Definition system_service : string := "com.victronenergy.system".
Definition vebus_service : string := "com.victronenergy.vebus.ttyO1".

Definition listing (service : string) : reply value :=
  if String.eqb service system_service
  then Reply (VItems [("Serial", 4711%Z); ("Dc/Battery/Soc", 80%Z)])
  else Reply (VItems [("Mode", 3%Z)]).

Definition bus_with (root : string -> reply value) : bus value := {|
  bus_get_value service path :=
    if String.eqb path "/DeviceInstance"
    then DBusError "org.freedesktop.DBus.Error.UnknownObject"
    else if String.eqb path "/" then root service
    else Reply (VInt 7);
  bus_set_value _ _ v := Reply v;
  bus_introspect _ := IntrospectXml [] [];
  bus_list_names := ["org.freedesktop.DBus"; system_service; vebus_service];
  bus_get_name_owner service :=
    if String.eqb service system_service then Reply ":1.1" else Reply ":1.2"
|}.

Definition listing_bus : bus value := bus_with listing.


Definition started : state value :=
  fst (DbusMqtt_init listing_bus "abc123" None).

(** The object after start-up, with the broker socket up. *)
Definition connected : state value :=
  fst (handle listing_bus (SocketWatch true) started).

(** The object after the broker connected: every topic is pending. *)
Definition pending : state value := fst (handle listing_bus MqttConnect connected).

(** A bus whose one service answers no call at all. *)
Definition mute_bus : bus value := {|
  bus_get_value _ _ := DBusError "org.freedesktop.DBus.Error.NoReply";
  bus_set_value _ _ _ := DBusError "org.freedesktop.DBus.Error.NoReply";
  bus_introspect _ := IntrospectError "org.freedesktop.DBus.Error.NoReply";
  bus_list_names := [vebus_service];
  bus_get_name_owner _ := Reply ":1.2"
|}.

(** The object after start-up on that bus: the owner handle is registered,
    the scan was abandoned before it made a record. *)
Definition mute_started : state value :=
  fst (DbusMqtt_init mute_bus "abc123" None).

(** A bus that refuses every call. *)
Definition denied_bus : bus value := {|
  bus_get_value _ _ := DBusError "org.freedesktop.DBus.Error.AccessDenied";
  bus_set_value _ _ _ := DBusError "org.freedesktop.DBus.Error.AccessDenied";
  bus_introspect _ := IntrospectError "org.freedesktop.DBus.Error.AccessDenied";
  bus_list_names := [];
  bus_get_name_owner _ := DBusError "org.freedesktop.DBus.Error.AccessDenied"
|}.

(** A bus whose services give no item listing at their root and answer
    an introspection with a tree of two items, [/Dc/Soc] and [/Serial]. *)
Definition tree : xml_reply :=
  IntrospectXml [Some "org.freedesktop.DBus.Introspectable"]
    [(Some "Dc",
      IntrospectXml []
        [(Some "Soc", IntrospectXml [Some "com.victronenergy.BusItem"] [])]);
     (Some "Serial", IntrospectXml [Some "com.victronenergy.BusItem"] [])].

Definition tree_bus : bus value := {|
  bus_get_value service path :=
    if String.eqb path "/DeviceInstance" || String.eqb path "/"
    then DBusError "org.freedesktop.DBus.Error.UnknownObject"
    else Reply (VInt 7);
  bus_set_value _ _ v := Reply v;
  bus_introspect _ := tree;
  bus_list_names := [system_service];
  bus_get_name_owner _ := Reply ":1.1"
|}.




(** A bus with two battery services that both lack [/DeviceInstance], so
    that both are [battery/0] and their items share their topics. *)
Definition twin_a : string := "com.victronenergy.battery.a".
Definition twin_b : string := "com.victronenergy.battery.b".

Definition twin_bus : bus value := {|
  bus_get_value service path :=
    if String.eqb path "/DeviceInstance"
    then DBusError "org.freedesktop.DBus.Error.UnknownObject"
    else if String.eqb path "/" then Reply (VItems [("Soc", 50%Z)])
    else Reply (VInt 7);
  bus_set_value _ _ v := Reply v;
  bus_introspect _ := IntrospectXml [] [];
  bus_list_names := [twin_a; twin_b];
  bus_get_name_owner service :=
    if String.eqb service twin_a then Reply ":1.3" else Reply ":1.4"
|}.

Definition twins_started : state value :=
  fst (DbusMqtt_init twin_bus "abc123" None).

(** The object started with [init_broker], its registrator's client id
    being [bridge1]. *)
Definition registered : state value :=
  fst (DbusMqtt_init listing_bus "abc123" (Some (Some "bridge1"))).

Definition state_topic : string := "$SYS/broker/connection/bridge1/state".

Definition serial_topic : string := "N/abc123/system/0/Serial".
Definition soc_topic : string := "N/abc123/system/0/Dc/Battery/Soc".
Definition mode_topic : string := "N/abc123/vebus/0/Mode".

End Demo.

(* ================================================================== *)
(** ** Facts about strings *)
(* ================================================================== *)

Module PyStrFacts.
Import PyStr.

Lemma append_assoc (a b c : string) : (a ++ b) ++ c = a ++ (b ++ c).
Proof. induction a as [|x a IH]; simpl; [reflexivity | now rewrite IH]. Qed.

Lemma append_nil_r (a : string) : a ++ "" = a.
Proof. induction a as [|x a IH]; simpl; [reflexivity | now rewrite IH]. Qed.

Lemma startswith_append (p r : string) : startswith (p ++ r) p = true.
Proof.
  induction p as [|c p IH]; simpl; [reflexivity|].
  now rewrite Ascii.eqb_refl.
Qed.

Lemma startswith_inv (s p : string) :
  startswith s p = true -> exists r, s = p ++ r.
Proof.
  revert s; induction p as [|c p IH]; intros s H; simpl in *.
  - now exists s.
  - destruct s as [|d s]; [discriminate|].
    apply andb_true_iff in H as [Hc Hs].
    apply Ascii.eqb_eq in Hc; subst d.
    destruct (IH _ Hs) as [r ->]. now exists r.
Qed.

Lemma startswith_iff (s p : string) :
  startswith s p = true <-> exists r, s = p ++ r.
Proof.
  split; [apply startswith_inv|]. intros [r ->]. apply startswith_append.
Qed.

Lemma startswith_trans (s p q : string) :
  startswith s p = true -> startswith p q = true -> startswith s q = true.
Proof.
  intros H1 H2. apply startswith_inv in H1 as [r ->], H2 as [r' ->].
  rewrite append_assoc. apply startswith_append.
Qed.

Lemma endswith_refl (s : string) : endswith s s = true.
Proof. destruct s; cbn [endswith]; rewrite String.eqb_refl; reflexivity. Qed.

Lemma endswith_append (p suf : string) : endswith (p ++ suf) suf = true.
Proof.
  induction p as [|c p IH]; cbn [String.append endswith].
  - apply endswith_refl.
  - rewrite IH. apply orb_true_r.
Qed.

Lemma endswith_inv (s suf : string) :
  endswith s suf = true -> exists p, s = p ++ suf.
Proof.
  induction s as [|c s IH]; cbn [endswith]; intros H.
  - rewrite orb_false_r in H. apply String.eqb_eq in H. subst. now exists "".
  - apply orb_true_iff in H as [H|H].
    + apply String.eqb_eq in H. rewrite H. now exists "".
    + destruct (IH H) as [p ->]. now exists (String c p).
Qed.

Lemma normalize_path_startswith (path : string) :
  startswith (normalize_path path) "/" = true.
Proof.
  unfold normalize_path.
  destruct (startswith path "/") eqn:E; simpl; [exact E|reflexivity].
Qed.

Lemma normalize_path_idem (path : string) :
  startswith path "/" = true -> normalize_path path = path.
Proof. unfold normalize_path. now intros ->. Qed.

Lemma lacks_append (c : ascii) (a b : string) :
  lacks c (a ++ b) = lacks c a && lacks c b.
Proof.
  induction a as [|x a IH]; simpl; [reflexivity|].
  rewrite IH. now rewrite andb_assoc.
Qed.

Lemma append_inj_l (a x y : string) : a ++ x = a ++ y -> x = y.
Proof.
  induction a as [|c a IH]; cbn [String.append]; [tauto|].
  intros [= E]. now apply IH.
Qed.

Lemma startswith_slash (p : string) :
  startswith p "/" = true -> exists r, p = String "/" r.
Proof. intros H. apply startswith_inv in H as [r ->]. now exists r. Qed.

Lemma lacks_head (c : ascii) (s : string) : lacks c (String c s) = false.
Proof. cbn [lacks]. now rewrite Ascii.eqb_refl. Qed.

(** A name without ['/'] followed by a path that starts with ['/'] can be
    read back in one way only. *)
Lemma uid_unique (s1 p1 s2 p2 : string) :
  lacks "/" s1 = true -> lacks "/" s2 = true ->
  startswith p1 "/" = true -> startswith p2 "/" = true ->
  s1 ++ p1 = s2 ++ p2 -> s1 = s2 /\ p1 = p2.
Proof.
  intros H1 H2 Hp1 Hp2.
  apply startswith_slash in Hp1 as [r1 ->], Hp2 as [r2 ->].
  revert s2 H1 H2. induction s1 as [|c s1 IH]; intros s2 H1 H2 E.
  - destruct s2 as [|d s2]; cbn [String.append] in E; [now split|].
    injection E as <- _. now rewrite lacks_head in H2.
  - destruct s2 as [|d s2]; cbn [String.append] in E.
    + injection E as -> _. now rewrite lacks_head in H1.
    + injection E as -> E.
      cbn [lacks] in H1, H2.
      apply andb_true_iff in H1 as [_ H1], H2 as [_ H2].
      destruct (IH s2 H1 H2 E) as [-> ?]. now split.
Qed.

End PyStrFacts.

(* ================================================================== *)
(** ** Facts about dictionaries *)
(* ================================================================== *)

Module PyDictFacts.
Import PyDict.
Section Facts.
Context {V : Type}.
Implicit Types (d : dict V) (k : string) (v : V).

Lemma get_set_same d k v : get (set d k v) k = Some v.
Proof.
  induction d as [|[k' v'] d IH]; simpl.
  - now rewrite String.eqb_refl.
  - destruct (String.eqb k' k) eqn:E; simpl; rewrite E; [reflexivity|exact IH].
Qed.

Lemma get_set_other d k k' v : k <> k' -> get (set d k v) k' = get d k'.
Proof.
  intros N. induction d as [|[k0 v0] d IH]; simpl.
  - destruct (String.eqb k k') eqn:E; [apply String.eqb_eq in E; contradiction|reflexivity].
  - destruct (String.eqb k0 k) eqn:E; simpl.
    + apply String.eqb_eq in E. subst k0.
      destruct (String.eqb k k') eqn:E'; [apply String.eqb_eq in E'; contradiction|reflexivity].
    + now rewrite IH.
Qed.

Lemma get_In d k v : get d k = Some v -> In (k, v) d.
Proof.
  induction d as [|[k' v'] d IH]; simpl; [discriminate|].
  destruct (String.eqb k' k) eqn:E.
  - apply String.eqb_eq in E. subst. intros [= ->]. now left.
  - intros H. right. now apply IH.
Qed.

Lemma get_None_not_In d k : get d k = None <-> ~ In k (keys d).
Proof.
  induction d as [|[k' v'] d IH]; simpl.
  - tauto.
  - destruct (String.eqb k' k) eqn:E.
    + apply String.eqb_eq in E. subst. split; [discriminate|]. intros N. exfalso. apply N. now left.
    + apply String.eqb_neq in E. rewrite IH. tauto.
Qed.

Lemma In_keys_get d k : In k (keys d) -> exists v, get d k = Some v.
Proof.
  intros H. destruct (get d k) eqn:E; [eauto|].
  apply get_None_not_In in E. contradiction.
Qed.

Lemma In_get d k v : wf d -> In (k, v) d -> get d k = Some v.
Proof.
  unfold wf. induction d as [|[k' v'] d IH]; simpl; [contradiction|].
  intros W [H|H].
  - injection H as -> ->. now rewrite String.eqb_refl.
  - inversion W as [|? ? N W']; subst.
    destruct (String.eqb k' k) eqn:E.
    + apply String.eqb_eq in E. subst. exfalso. apply N.
      change k with (fst (k, v)). now apply in_map.
    + now apply IH.
Qed.

Lemma has_true d k : has d k = true <-> In k (keys d).
Proof.
  unfold has. destruct (get d k) eqn:E.
  - split; [|reflexivity]. intros _.
    apply get_In in E. change k with (fst (k, v)). now apply in_map.
  - apply get_None_not_In in E. split; [discriminate|contradiction].
Qed.

(** Assigning to a key that is there changes no key and no position. *)
Lemma keys_set_present d k v : In k (keys d) -> keys (set d k v) = keys d.
Proof.
  induction d as [|[k' v'] d IH]; simpl; [contradiction|].
  intros H. destruct (String.eqb k' k) eqn:E; simpl; [reflexivity|].
  f_equal. apply IH. destruct H as [H|H]; [|exact H].
  apply String.eqb_neq in E. contradiction.
Qed.

(** Assigning to a new key puts it last. *)
Lemma set_absent d k v : ~ In k (keys d) -> set d k v = (d ++ [(k, v)])%list.
Proof.
  induction d as [|[k' v'] d IH]; simpl; [reflexivity|].
  intros H. destruct (String.eqb k' k) eqn:E.
  - apply String.eqb_eq in E. subst. exfalso. apply H. now left.
  - f_equal. apply IH. tauto.
Qed.

Lemma In_keys_set d k v k' : In k' (keys (set d k v)) <-> k' = k \/ In k' (keys d).
Proof.
  induction d as [|[k0 v0] d IH]; simpl.
  - intuition.
  - destruct (String.eqb k0 k) eqn:E; simpl.
    + apply String.eqb_eq in E. subst. intuition.
    + rewrite IH. intuition.
Qed.

Lemma In_set d k v k' v' :
  In (k', v') (set d k v) -> (k' = k /\ v' = v) \/ In (k', v') d.
Proof.
  induction d as [|[k0 v0] d IH]; simpl.
  - intros [[= <- <-]|[]]. now left.
  - destruct (String.eqb k0 k) eqn:E; simpl.
    + apply String.eqb_eq in E. subst.
      intros [[= <- <-]|H]; [now left|right; now right].
    + intros [H|H]; [right; now left|].
      destruct (IH H) as [?|?]; [now left|right; now right].
Qed.

Lemma wf_set d k v : wf d -> wf (set d k v).
Proof.
  unfold wf. intros W.
  destruct (in_dec string_dec k (keys d)) as [H|H].
  - now rewrite keys_set_present.
  - rewrite set_absent by exact H. unfold keys. rewrite map_app. simpl.
    apply NoDup_app; [exact W | repeat constructor; intros [] | ].
    intros x Hx [<-|[]]. contradiction.
Qed.

Lemma del_Some_In d k d' : del d k = Some d' -> In k (keys d).
Proof.
  revert d'. induction d as [|[k' v'] d IH]; simpl; intros d'; [discriminate|].
  destruct (String.eqb k' k) eqn:E.
  - apply String.eqb_eq in E. now left.
  - destruct (del d k) eqn:D; [|discriminate]. intros _. right. eapply IH. reflexivity.
Qed.

Lemma del_present d k : In k (keys d) -> exists d', del d k = Some d'.
Proof.
  induction d as [|[k' v'] d IH]; simpl; [contradiction|].
  intros H. destruct (String.eqb k' k) eqn:E; [eauto|].
  destruct H as [H|H]; [apply String.eqb_neq in E; contradiction|].
  destruct (IH H) as [d' ->]. simpl. eauto.
Qed.

(** On a dictionary, [del] takes the key's one entry out and leaves the
    others in their order. *)
Lemma del_filter d k d' :
  wf d -> del d k = Some d' ->
  d' = filter (fun kv => negb (String.eqb (fst kv) k)) d.
Proof.
  unfold wf. revert d'. induction d as [|[k' v'] d IH]; simpl; intros d' W; [discriminate|].
  inversion W as [|? ? N W']; subst.
  destruct (String.eqb k' k) eqn:E; simpl.
  - apply String.eqb_eq in E. subst. intros [= <-].
    symmetry. apply forallb_filter_id. apply forallb_forall.
    intros [k0 v0] H0. simpl. apply negb_true_iff. apply String.eqb_neq.
    intros ->. apply N. change k with (fst (k, v0)). now apply in_map.
  - destruct (del d k) eqn:D; [|discriminate]. simpl. intros [= <-].
    f_equal. now apply IH.
Qed.

Lemma wf_filter d (f : string * V -> bool) : wf d -> wf (filter f d).
Proof.
  unfold wf, keys. induction d as [|kv d IH]; simpl; intros W; [constructor|].
  inversion W as [|? ? N W']; subst.
  destruct (f kv); simpl; [|now apply IH].
  constructor; [|now apply IH].
  intros H. apply N. apply in_map_iff in H as [x [E Hx]].
  apply filter_In in Hx as [Hx _]. rewrite <- E. now apply in_map.
Qed.

Lemma get_filter_other d (f : string * V -> bool) k :
  (forall v, f (k, v) = true) -> get (filter f d) k = get d k.
Proof.
  intros F. induction d as [|[k' v'] d IH]; simpl; [reflexivity|].
  destruct (f (k', v')) eqn:E; simpl.
  - now rewrite IH.
  - destruct (String.eqb k' k) eqn:E'; [|exact IH].
    apply String.eqb_eq in E'. subst. rewrite F in E. discriminate.
Qed.

Lemma get_filter_out d (f : string * V -> bool) k :
  (forall v, f (k, v) = false) -> get (filter f d) k = None.
Proof.
  intros F. apply get_None_not_In. unfold keys. intros H.
  apply in_map_iff in H as [[k' v'] [E Hx]]. simpl in E. subst k'.
  apply filter_In in Hx as [_ Hx]. rewrite F in Hx. discriminate.
Qed.

Lemma del_get_other d d' k k' :
  wf d -> del d k = Some d' -> k' <> k -> get d' k' = get d k'.
Proof.
  intros W D N. rewrite (del_filter d k d' W D).
  apply get_filter_other. intros x. simpl.
  apply negb_true_iff. now apply String.eqb_neq.
Qed.

Lemma del_get_same d d' k : wf d -> del d k = Some d' -> get d' k = None.
Proof.
  intros W D. rewrite (del_filter d k d' W D).
  apply get_filter_out. intros x. simpl.
  apply negb_false_iff. apply String.eqb_refl.
Qed.

Lemma del_wf d d' k : wf d -> del d k = Some d' -> wf d'.
Proof.
  intros W D. rewrite (del_filter d k d' W D). now apply wf_filter.
Qed.

Lemma del_keeps_key d d' k k' :
  wf d -> del d k = Some d' -> k' <> k -> In k' (keys d) -> In k' (keys d').
Proof.
  intros W D N H. apply In_keys_get in H as [x G].
  rewrite <- (del_get_other d d' k k' W D N) in G.
  apply get_In in G. change k' with (fst (k', x)). now apply in_map.
Qed.

Lemma discard_wf d k : wf d -> wf (discard d k).
Proof.
  intros W. unfold discard. destruct (del d k) as [d'|] eqn:D; [|exact W].
  now apply del_wf with d k.
Qed.

Lemma discard_get_same d k : wf d -> get (discard d k) k = None.
Proof.
  intros W. unfold discard. destruct (del d k) as [d'|] eqn:D.
  - now apply del_get_same with d.
  - destruct (get d k) eqn:G; [|reflexivity].
    apply get_In in G.
    destruct (del_present d k) as [d' D'];
      [change k with (fst (k, v)); now apply in_map|congruence].
Qed.

Lemma In_del d d' k (e : string * V) : del d k = Some d' -> In e d' -> In e d.
Proof.
  revert d'. induction d as [|[k' v'] d IH]; simpl; intros d'; [discriminate|].
  destruct (String.eqb k' k).
  - intros [= <-] H. now right.
  - destruct (del d k) as [d0|]; [|discriminate]. simpl.
    intros [= <-] [H|H]; [now left|right; now apply (IH d0)].
Qed.

Lemma In_discard d k (e : string * V) : In e (discard d k) -> In e d.
Proof.
  unfold discard. destruct (del d k) eqn:E; [|tauto].
  now apply In_del with (k := k).
Qed.

End Facts.
End PyDictFacts.

(* ================================================================== *)
(** ** The publish queue *)
(* ================================================================== *)

Section QueueFacts.
Context {value : Type} `{PV : PyValue value}.
Implicit Types (st : state value) (topic : string) (payload : option string).

Lemma firstn_plus {A} (n k : nat) (l : list A) :
  firstn (n + k) l = (firstn n l ++ firstn k (skipn n l))%list.
Proof.
  revert l. induction n as [|n IH]; intros l; simpl; [reflexivity|].
  destruct l as [|x l]; simpl; [now rewrite firstn_nil|now rewrite IH].
Qed.

Lemma filter_none {A} (f : A -> bool) (l : list A) :
  (forall x, In x l -> f x = false) -> filter f l = [].
Proof.
  induction l as [|x l IH]; simpl; intros H; [reflexivity|].
  rewrite (H x) by now left. apply IH. intros y Hy. apply H. now right.
Qed.

Lemma drain_published items st :
  published (fst (drain items st)) = (published st ++ firstn items (queue st))%list.
Proof.
  revert st. induction items as [|n IH]; intros st; simpl.
  - now rewrite app_nil_r.
  - destruct (queue st) as [|[t p] rest] eqn:Q; simpl.
    + now rewrite app_nil_r.
    + rewrite IH. simpl. now rewrite <- app_assoc.
Qed.

Lemma drain_queue items st :
  queue (fst (drain items st)) = skipn items (queue st).
Proof.
  revert st. induction items as [|n IH]; intros st; simpl; [reflexivity|].
  destruct (queue st) as [|[t p] rest] eqn:Q; simpl; [exact Q|].
  now rewrite IH.
Qed.

Lemma drain_result items st :
  snd (drain items st) = (items <=? length (queue st))%nat.
Proof.
  revert st. induction items as [|n IH]; intros st; simpl; [reflexivity|].
  destruct (queue st) as [|[t p] rest] eqn:Q; simpl; [reflexivity|].
  now rewrite IH.
Qed.

Lemma service_queue_published now items st :
  published (fst (_service_queue now items st))
  = (published st ++ firstn items (queue st))%list.
Proof. unfold _service_queue. now rewrite drain_published. Qed.

Lemma service_queue_queue now items st :
  queue (fst (_service_queue now items st)) = skipn items (queue st).
Proof. unfold _service_queue. now rewrite drain_queue. Qed.

(** Whatever the calls, what they publish is a front part of the queue, in
    the queue's order, and what stays is the rest. *)
Lemma run_queue_prefix calls st :
  exists k,
    published (run_queue calls st) = (published st ++ firstn k (queue st))%list
    /\ queue (run_queue calls st) = skipn k (queue st).
Proof.
  revert st. induction calls as [|[now items] calls IH]; intros st; simpl.
  - exists 0. simpl. now rewrite app_nil_r.
  - destruct (IH (fst (_service_queue now items st))) as [k [Hp Hq]].
    unfold run_queue in Hp, Hq. simpl in Hp, Hq.
    rewrite service_queue_published, service_queue_queue in Hp.
    rewrite service_queue_queue in Hq.
    exists (items + k). split.
    + unfold run_queue. simpl. rewrite Hp, <- app_assoc. f_equal.
      now rewrite firstn_plus.
    + unfold run_queue. simpl. rewrite Hq. now rewrite skipn_skipn, Nat.add_comm.
Qed.

Lemma for_topic_app topic (a b : list (string * option string)) :
  for_topic topic (a ++ b) = (for_topic topic a ++ for_topic topic b)%list.
Proof. apply filter_app. Qed.

(** A dictionary holds one entry for a key it has. *)
Lemma for_topic_wf (q : dict (option string)) topic payload :
  PyDict.wf q -> PyDict.get q topic = Some payload ->
  for_topic topic q = [(topic, payload)].
Proof.
  unfold PyDict.wf, for_topic.
  induction q as [|[k v] q IH]; simpl; intros W G; [discriminate|].
  inversion W as [|? ? N W']; subst.
  destruct (String.eqb k topic) eqn:E.
  - apply String.eqb_eq in E. subst k. injection G as ->. f_equal.
    apply filter_none. intros [k' v'] H. simpl.
    apply String.eqb_neq. intros ->. apply N.
    change topic with (fst (topic, v')). now apply in_map.
  - now apply IH.
Qed.

Lemma for_topic_front (q : dict (option string)) topic payload k :
  PyDict.wf q -> PyDict.get q topic = Some payload ->
  (for_topic topic (firstn k q) = [] \/ for_topic topic (firstn k q) = [(topic, payload)])
  /\ (skipn k q = [] -> for_topic topic (firstn k q) = [(topic, payload)]).
Proof.
  intros W G. pose proof (for_topic_wf q topic payload W G) as F.
  rewrite <- (firstn_skipn k q) in F. rewrite for_topic_app in F.
  split.
  - apply app_eq_unit in F as [[-> _]|[-> _]]; auto.
  - intros E. rewrite E in F. simpl in F. now rewrite app_nil_r in F.
Qed.

Lemma enqueue_get topic payload st :
  PyDict.get (queue (enqueue topic payload st)) topic = Some payload.
Proof. apply PyDictFacts.get_set_same. Qed.

Lemma enqueue_get_other topic payload st t :
  t <> topic ->
  PyDict.get (queue (enqueue topic payload st)) t = PyDict.get (queue st) t.
Proof. intros N. apply PyDictFacts.get_set_other. congruence. Qed.

Lemma enqueue_wf topic payload st :
  PyDict.wf (queue st) -> PyDict.wf (queue (enqueue topic payload st)).
Proof. apply PyDictFacts.wf_set. Qed.

(** A pending topic keeps its place when it is enqueued again. *)
Lemma enqueue_pending_keys topic payload st old :
  PyDict.get (queue st) topic = Some old ->
  PyDict.keys (queue (enqueue topic payload st)) = PyDict.keys (queue st).
Proof.
  intros G. apply PyDictFacts.keys_set_present.
  apply PyDictFacts.get_In in G. change topic with (fst (topic, old)).
  now apply in_map.
Qed.

Lemma published_enqueue topic payload st :
  published (enqueue topic payload st) = published st.
Proof. reflexivity. Qed.

End QueueFacts.

Section QueueClaims.
Context {value : Type} `{PV : PyValue value}.
Implicit Types (st : state value) (topic : string) (payload : option string).

(** Enqueueing a pending topic again: the payload is replaced where it
    stands, and a drain publishes the topics in the order it would have
    without the second enqueue. *)
Lemma enqueue_pending topic payload st old :
  PyDict.get (queue st) topic = Some old ->
  PyDict.get (queue (enqueue topic payload st)) topic = Some payload
  /\ PyDict.keys (queue (enqueue topic payload st)) = PyDict.keys (queue st)
  /\ (forall t, t <> topic ->
        PyDict.get (queue (enqueue topic payload st)) t = PyDict.get (queue st) t)
  /\ (forall now items,
        map fst (published (fst (_service_queue now items (enqueue topic payload st))))
        = map fst (published (fst (_service_queue now items st)))).
Proof.
  intros G. split; [apply enqueue_get|].
  pose proof (enqueue_pending_keys topic payload st old G) as K.
  split; [exact K|]. split; [intros t N; now apply enqueue_get_other|].
  intros now items. rewrite !service_queue_published, !map_app, published_enqueue.
  f_equal. rewrite <- !firstn_map. unfold PyDict.keys in K. now rewrite K.
Qed.

(** C4, as the code has it: a [_publish] of a topic that already has a
    pending payload replaces that payload and leaves the topic where it
    stands in the queue, so the order in which a drain publishes the pending
    topics is the order of their first enqueue. *)
Theorem publish_pending_keeps_position st topic (v : value) old :
  _socket_watch st = true ->
  PyDict.get (queue st) topic = Some old ->
  PyDict.get (queue (_publish topic v st)) topic = Some (Some (json_dumps_value v))
  /\ PyDict.keys (queue (_publish topic v st)) = PyDict.keys (queue st)
  /\ (forall t, t <> topic ->
        PyDict.get (queue (_publish topic v st)) t = PyDict.get (queue st) t)
  /\ (forall now items,
        map fst (published (fst (_service_queue now items (_publish topic v st))))
        = map fst (published (fst (_service_queue now items st)))).
Proof.
  intros W G. unfold _publish. rewrite W. simpl negb. cbv iota.
  now apply enqueue_pending with (old := old).
Qed.

(** The same for a pending topic that is unpublished. *)
Lemma unpublish_pending_keeps_position st topic old :
  _socket_watch st = true ->
  PyDict.get (queue st) topic = Some old ->
  PyDict.keys (queue (_unpublish topic st)) = PyDict.keys (queue st).
Proof.
  intros W G. unfold _unpublish. rewrite W. simpl negb. cbv iota.
  destruct (PyStr.endswith topic "/system/0/Serial"); [reflexivity|].
  now apply enqueue_pending with (old := old).
Qed.

(** Two assignments to the queue for one topic leave one entry, and the
    calls of [_service_queue] that follow publish it at most once, with the
    later payload; once the queue is empty they have published it. *)
Lemma two_enqueues_one_message st topic p1 p2 :
  PyDict.wf (queue st) ->
  count_occ string_dec
    (PyDict.keys (queue (enqueue topic p2 (enqueue topic p1 st)))) topic = 1
  /\ forall calls, exists sent,
       published (run_queue calls (enqueue topic p2 (enqueue topic p1 st)))
       = (published st ++ sent)%list
       /\ (for_topic topic sent = [] \/ for_topic topic sent = [(topic, p2)])
       /\ (queue (run_queue calls (enqueue topic p2 (enqueue topic p1 st))) = [] ->
           for_topic topic sent = [(topic, p2)]).
Proof.
  intros W.
  set (st2 := enqueue topic p2 (enqueue topic p1 st)).
  assert (W2 : PyDict.wf (queue st2)) by (unfold st2; now do 2 apply enqueue_wf).
  assert (G2 : PyDict.get (queue st2) topic = Some p2) by apply enqueue_get.
  split.
  - apply NoDup_count_occ'; [exact W2|].
    apply PyDictFacts.get_In in G2. change topic with (fst (topic, p2)).
    now apply in_map.
  - intros calls. destruct (run_queue_prefix calls st2) as [k [Hp Hq]].
    exists (firstn k (queue st2)). split; [exact Hp|].
    destruct (for_topic_front (queue st2) topic p2 k W2 G2) as [H1 H2].
    split; [exact H1|]. intros E. apply H2. now rewrite <- Hq.
Qed.

(** C5: two [_publish] calls for one topic with no drain between them
    leave one pending entry for the topic; the drains that follow publish
    the topic at most once, with the payload of the second call, and have
    published it once the queue is empty. *)
Theorem two_publishes_one_message st topic (v1 v2 : value) :
  _socket_watch st = true ->
  PyDict.wf (queue st) ->
  count_occ string_dec
    (PyDict.keys (queue (_publish topic v2 (_publish topic v1 st)))) topic = 1
  /\ forall calls, exists sent,
       published (run_queue calls (_publish topic v2 (_publish topic v1 st)))
       = (published st ++ sent)%list
       /\ (for_topic topic sent = []
           \/ for_topic topic sent = [(topic, Some (json_dumps_value v2))])
       /\ (queue (run_queue calls (_publish topic v2 (_publish topic v1 st))) = [] ->
           for_topic topic sent = [(topic, Some (json_dumps_value v2))]).
Proof.
  intros S W.
  assert (E : _publish topic v2 (_publish topic v1 st)
              = enqueue topic (Some (json_dumps_value v2))
                  (enqueue topic (Some (json_dumps_value v1)) st)).
  { unfold _publish at 2. rewrite S. simpl negb. cbv iota.
    unfold _publish. simpl _socket_watch. now rewrite S. }
  rewrite E. now apply two_enqueues_one_message.
Qed.

(** A publish followed by an unpublish: the tombstone is what goes out. *)
Lemma publish_unpublish_one_message st topic (v : value) :
  _socket_watch st = true ->
  PyStr.endswith topic "/system/0/Serial" = false ->
  PyDict.wf (queue st) ->
  forall calls, exists sent,
    published (run_queue calls (_unpublish topic (_publish topic v st)))
    = (published st ++ sent)%list
    /\ (for_topic topic sent = [] \/ for_topic topic sent = [(topic, None)]).
Proof.
  intros S N W calls.
  assert (E : _unpublish topic (_publish topic v st)
              = enqueue topic None (enqueue topic (Some (json_dumps_value v)) st)).
  { unfold _publish. rewrite S. simpl negb. cbv iota.
    unfold _unpublish. simpl _socket_watch. now rewrite S, N. }
  rewrite E.
  destruct (two_enqueues_one_message st topic (Some (json_dumps_value v)) None W)
    as [_ H].
  destruct (H calls) as [sent [Hp [Hs _]]]. now exists sent.
Qed.

End QueueClaims.

(** The hypotheses of [publish_pending_keeps_position] hold once the
    broker has connected: the state-of-charge topic is pending, it is
    published again, and it stays first. *)
Lemma publish_pending_keeps_position_witness :
  _socket_watch Demo.pending = true
  /\ PyDict.get (queue Demo.pending) Demo.soc_topic
     = Some (Some (json_dumps_value (Demo.VInt 80)))
  /\ PyDict.keys (queue (_publish Demo.soc_topic (Demo.VInt 81) Demo.pending))
     = PyDict.keys (queue Demo.pending).
Proof.
  split; [reflexivity|]. split; [reflexivity|].
  apply (publish_pending_keeps_position Demo.pending Demo.soc_topic
           (Demo.VInt 81) (Some (json_dumps_value (Demo.VInt 80))));
    reflexivity.
Defined.

(** C4 as the specification words it fails: the state-of-charge topic is
    pending ahead of two others; published again it is still first, where
    moving it to the tail would put it last; and the drain publishes it
    first. *)
Lemma reenqueue_not_moved_to_tail :
  PyDict.keys (queue Demo.pending)
  = [Demo.soc_topic; Demo.serial_topic; Demo.mode_topic]
  /\ PyDict.keys (queue (_publish Demo.soc_topic (Demo.VInt 81) Demo.pending))
     = [Demo.soc_topic; Demo.serial_topic; Demo.mode_topic]
  /\ PyDict.keys (Spec.enqueue_to_tail Demo.soc_topic
                    (Some (json_dumps_value (Demo.VInt 81))) (queue Demo.pending))
     = [Demo.serial_topic; Demo.mode_topic; Demo.soc_topic]
  /\ published (fst (_service_queue 0 5
                  (_publish Demo.soc_topic (Demo.VInt 81) Demo.pending)))
     = [(Demo.soc_topic, Some (json_dumps_value (Demo.VInt 81)));
        (Demo.serial_topic, Some (json_dumps_value (Demo.VInt 4711)));
        (Demo.mode_topic, Some (json_dumps_value (Demo.VInt 3)))].
Proof. repeat split; reflexivity. Qed.

(** The hypotheses of [two_publishes_one_message] hold after start-up
    with the socket up. *)
Lemma two_publishes_one_message_witness :
  _socket_watch Demo.connected = true
  /\ PyDict.wf (queue Demo.connected)
  /\ count_occ string_dec
       (PyDict.keys (queue (_publish Demo.soc_topic (Demo.VInt 2)
                              (_publish Demo.soc_topic (Demo.VInt 1) Demo.connected))))
       Demo.soc_topic = 1.
Proof.
  split; [reflexivity|]. split; [constructor|].
  apply (two_publishes_one_message Demo.connected Demo.soc_topic
           (Demo.VInt 1) (Demo.VInt 2)); [reflexivity|constructor].
Defined.

(* ================================================================== *)
(** ** Operations that keep a property of the state *)
(* ================================================================== *)

Section Preservation.
Context {value : Type} `{PV : PyValue value}.
Variable P : state value -> Prop.

Lemma preserves_ret {A} (a : A) : preserves P (ret a).
Proof. intros st H. exact H. Qed.

Lemma preserves_raise {A} (e : exn) : preserves P (@raise value A e).
Proof. intros st H. exact H. Qed.

Lemma preserves_lift {A} (o : outcome A) : preserves P (lift o).
Proof. intros st H. exact H. Qed.

Lemma preserves_gets {A} (f : state value -> A) : preserves P (gets f).
Proof. intros st H. exact H. Qed.

Lemma preserves_modify (f : state value -> state value) :
  (forall st, P st -> P (f st)) -> preserves P (modify f).
Proof. intros F st H. now apply F. Qed.

Lemma preserves_bind {A B} (m : M value A) (k : A -> M value B) :
  preserves P m -> (forall a, preserves P (k a)) -> preserves P (bind m k).
Proof.
  intros Hm Hk st H. unfold bind. specialize (Hm st H).
  destruct (m st) as [st' [a|e]]; simpl in *; [now apply Hk|exact Hm].
Qed.

Lemma preserves_try_except {A} (m : M value A) (h : exn -> option (M value A)) :
  preserves P m -> (forall e k, h e = Some k -> preserves P k) ->
  preserves P (try_except m h).
Proof.
  intros Hm Hh st H. unfold try_except. specialize (Hm st H).
  destruct (m st) as [st' [a|e]]; simpl in *; [exact Hm|].
  destruct (h e) as [k|] eqn:E; [|exact Hm]. now apply (Hh e k E).
Qed.

Lemma preserves_for_each {X} (body : X -> M value unit) (l : list X) :
  Forall (fun x => preserves P (body x)) l -> preserves P (for_each body l).
Proof.
  induction 1 as [|x l Hx _ IH]; simpl.
  - apply preserves_ret.
  - apply preserves_bind; [exact Hx|intros _; exact IH].
Qed.

Lemma preserves_for_each_all {X} (body : X -> M value unit) (l : list X) :
  (forall x, preserves P (body x)) -> preserves P (for_each body l).
Proof. intros H. apply preserves_for_each. now apply Forall_forall. Qed.

(** A loop over a list read off the state when the loop starts. *)
Lemma preserves_for_each_read {X} (body : X -> M value unit)
    (items : state value -> list X) :
  (forall x, preserves P (body x)) ->
  preserves P (fun st => for_each body (items st) st).
Proof. intros H st Hst. now apply preserves_for_each_all. Qed.

End Preservation.

(** An induction over introspection documents that reaches the children. *)
Lemma xml_reply_nested_ind (Q : xml_reply -> Prop) :
  (forall n, Q (IntrospectError n)) ->
  Q IntrospectMalformed ->
  (forall interfaces nodes,
     Forall (fun child => Q (snd child)) nodes -> Q (IntrospectXml interfaces nodes)) ->
  forall doc, Q doc.
Proof.
  intros H1 H2 H3. fix IH 1. intros [n| |interfaces nodes].
  - apply H1.
  - apply H2.
  - apply H3. induction nodes as [|[name sub] nodes IHn]; constructor.
    + apply IH.
    + exact IHn.
Qed.

(* ================================================================== *)
(** ** A scan changes the state through three operations only *)
(* ================================================================== *)

Section ScanPreserves.
Context {value : Type} `{PV : PyValue value}.
Variable P : state value -> Prop.
Variables (b : bus value) (service : string).

Hypothesis add_item_ok :
  forall device_instance path v,
    preserves P (_add_item service (InstInt device_instance) path v).
Hypothesis publish_ok : forall topic v st, P st -> P (_publish topic v st).
Hypothesis record_ok :
  forall device_instance short st,
    get_short_service_name service (InstInt device_instance) = Ok short ->
    P st -> P (set_services (PyDict.set (_services st) short service) st).

Lemma add_and_publish_preserves device_instance path v publish :
  preserves P (add_and_publish service (InstInt device_instance) path v publish).
Proof.
  unfold add_and_publish. apply preserves_bind; [apply add_item_ok|].
  intros [t|]; [|apply preserves_ret].
  destruct publish; [|apply preserves_ret].
  apply preserves_modify. apply publish_ok.
Qed.

Lemma introspect_preserves device_instance publish doc :
  forall path,
    preserves P (_introspect b service (InstInt device_instance) path publish doc).
Proof.
  induction doc as [n| |interfaces nodes IH] using xml_reply_nested_ind;
    intros path; simpl.
  - apply preserves_raise.
  - apply preserves_raise.
  - destruct nodes as [|child nodes].
    + apply preserves_for_each_all. intros iface.
      destruct (is_bus_item iface); [|apply preserves_ret].
      apply preserves_bind; [apply preserves_lift|].
      intros v. apply add_and_publish_preserves.
    + apply preserves_for_each. revert IH. generalize (child :: nodes).
      intros l IH. induction IH as [|[name sub] l Hx _ IHl]; constructor; [|exact IHl].
      destruct name as [name|]; [apply Hx|apply preserves_ret].
Qed.

Lemma read_device_instance_state st :
  fst (read_device_instance b service st) = st.
Proof.
  unfold read_device_instance, try_except, bind, lift.
  destruct (_get_dbus_value b service "/DeviceInstance") as [v|e]; simpl.
  - destruct (outcome_of_converted (py_int v)) as [z|e]; simpl; [reflexivity|].
    destruct e; simpl; try reflexivity.
    destruct (is_unknown_object_or_method name); reflexivity.
  - destruct e; simpl; try reflexivity.
    destruct (is_unknown_object_or_method name); reflexivity.
Qed.

Lemma read_items_preserves device_instance publish :
  preserves P (read_items b service device_instance publish).
Proof.
  unfold read_items. apply preserves_try_except.
  - apply preserves_bind; [apply preserves_lift|intros; apply preserves_ret].
  - intros e k E. destruct e; try discriminate. injection E as <-.
    destruct (is_unknown_object_or_method name); [|apply preserves_raise].
    apply preserves_bind; [apply introspect_preserves|intros; apply preserves_ret].
Qed.

Lemma scan_body_preserves publish : preserves P (scan_body b service publish).
Proof.
  intros st H. unfold scan_body. unfold bind at 1.
  pose proof (read_device_instance_state st) as R.
  destruct (read_device_instance b service st) as [st1 [di|e]]; simpl in R; subst st1;
    [|exact H].
  unfold bind at 1, lift at 1.
  destruct (get_short_service_name service (InstInt di)) as [short|e] eqn:S; [|exact H].
  revert st H. apply preserves_bind.
  - apply preserves_modify. intros st H. now apply (record_ok di).
  - intros _. apply preserves_bind; [apply read_items_preserves|].
    intros [items|]; [|apply preserves_ret].
    destruct (dict_items items) as [kvs|]; [|apply preserves_ret].
    apply preserves_for_each_all. intros kv. apply add_and_publish_preserves.
Qed.

Lemma scan_preserves publish : preserves P (_scan_dbus_service b service publish).
Proof.
  unfold _scan_dbus_service. apply preserves_try_except.
  - apply scan_body_preserves.
  - intros e k E. destruct e; try discriminate. injection E as <-.
    destruct (is_transient name); [apply preserves_ret|apply preserves_raise].
Qed.

End ScanPreserves.

(* ================================================================== *)
(** ** The invariant of the tables and of the queue *)
(* ================================================================== *)

Section Invariant.
Context {value : Type} `{PV : PyValue value}.
Implicit Types (st : state value) (v : value) (b : bus value).

Lemma split_nonempty sep s : PyStr.split sep s <> [].
Proof.
  destruct s as [|c s]; simpl; [discriminate|].
  destruct (Ascii.eqb c sep); [discriminate|].
  destruct (PyStr.split sep s); discriminate.
Qed.

Lemma split_second sep (a r : string) :
  exists d, nth_error (PyStr.split sep (a ++ String sep r)) 1 = Some d.
Proof.
  induction a as [|c a [d IH]]; cbn [String.append PyStr.split].
  - rewrite Ascii.eqb_refl.
    destruct (PyStr.split sep r) as [|h t] eqn:E; [now apply split_nonempty in E|].
    now exists h.
  - destruct (Ascii.eqb c sep).
    + destruct (PyStr.split sep (a ++ String sep r)) as [|h t] eqn:E;
        [now apply split_nonempty in E|]. now exists h.
    + destruct (PyStr.split sep (a ++ String sep r)) as [|h t] eqn:E;
        [discriminate|]. simpl in *. now exists d.
Qed.

(** A registry key has the device instance as its second piece. *)
Lemma short_name_second service device_instance short :
  get_short_service_name service device_instance = Ok short ->
  exists d, nth_error (PyStr.split "/" short) 1 = Some d.
Proof.
  unfold get_short_service_name.
  destruct (get_service_type service) as [t|e]; [|discriminate].
  intros [= <-]. apply (split_second "/" t (format_instance device_instance)).
Qed.

Lemma is_blocked_path service_type path :
  is_blocked service_type path = true -> PyStr.startswith path "/" = true.
Proof.
  unfold is_blocked, blocked_items. cbn [existsb fst snd].
  rewrite !orb_true_iff, !andb_true_iff. rewrite !String.eqb_eq.
  intros [[_ <-]|[[_ <-]|H]]; [reflexivity|reflexivity|discriminate].
Qed.

Lemma uint_lacks_slash (d : Decimal.uint) :
  PyStr.lacks "/" (NilEmpty.string_of_uint d) = true.
Proof. induction d; simpl; auto. Qed.

Lemma nilzero_uint_lacks_slash (d : Decimal.uint) :
  PyStr.lacks "/" (NilZero.string_of_uint d) = true.
Proof.
  unfold NilZero.string_of_uint. destruct d; try reflexivity; apply uint_lacks_slash.
Qed.

(** An [int] is printed without a ['/']. *)
Lemma str_of_Z_lacks_slash z : PyStr.lacks "/" (PyStr.str_of_Z z) = true.
Proof.
  unfold PyStr.str_of_Z, NilZero.string_of_int.
  destruct (Z.to_int z) as [d|d]; [apply nilzero_uint_lacks_slash|].
  cbn [PyStr.lacks]. now rewrite nilzero_uint_lacks_slash.
Qed.

(** No piece of a split holds the separator. *)
Lemma split_pieces_lack sep s :
  Forall (fun piece => PyStr.lacks sep piece = true) (PyStr.split sep s).
Proof.
  induction s as [|c s IH]; cbn [PyStr.split]; [now repeat constructor|].
  destruct (Ascii.eqb c sep) eqn:E; [now constructor|].
  destruct (PyStr.split sep s) as [|h t]; simpl.
  - repeat constructor. simpl. now rewrite E.
  - inversion IH; subst. constructor; [|assumption]. simpl. now rewrite E.
Qed.

Lemma split_piece_lacks sep s i piece :
  nth_error (PyStr.split sep s) i = Some piece -> PyStr.lacks sep piece = true.
Proof.
  intros H. apply nth_error_In in H.
  now apply (proj1 (Forall_forall _ _) (split_pieces_lack sep s)).
Qed.

(** *** The single steps *)

Lemma invariant_initial system_id registrator :
  invariant (initial_state (value := value) system_id registrator).
Proof. constructor; simpl; try (intros; contradiction); constructor. Qed.

Lemma invariant_add_item service device_instance path v :
  valid_bus_name service = true ->
  PyStr.lacks "/" (format_instance device_instance) = true ->
  preserves (@invariant value) (_add_item service device_instance path v).
Proof.
  intros V L st [I1 I2 I3 I4 I5 W1 W2 W3 W4 W5]. unfold _add_item.
  destruct (PyDict.get (_topics st) (service ++ normalize_path path));
    [now constructor|].
  destruct (get_service_type service) as [t|e] eqn:T; [|now constructor].
  destruct (is_blocked t (normalize_path path)) eqn:B; [now constructor|].
  constructor; simpl; try assumption; try (now apply PyDictFacts.wf_set).
  intros uid topic H. apply PyDictFacts.In_set in H as [[-> ->]|H]; [|now apply I1].
  exists service, t, device_instance, (normalize_path path).
  repeat split; try assumption. apply PyStrFacts.normalize_path_startswith.
Qed.

Lemma invariant_enqueue_payload topic p st :
  invariant st -> invariant (enqueue topic (Some p) st).
Proof.
  intros [I1 I2 I3 I4 I5 W1 W2 W3 W4 W5].
  constructor; simpl; try assumption; try (now apply PyDictFacts.wf_set).
  intros t H. apply PyDictFacts.In_set in H as [[_ ?]|H]; [discriminate|now apply I4].
Qed.

Lemma invariant_publish topic (v : value) st :
  invariant st -> invariant (_publish topic v st).
Proof.
  intros H. unfold _publish. destruct (negb (_socket_watch st)); [exact H|].
  now apply invariant_enqueue_payload.
Qed.

Lemma invariant_unpublish topic st :
  invariant st -> invariant (_unpublish topic st).
Proof.
  intros H. unfold _unpublish. destruct (negb (_socket_watch st)); [exact H|].
  destruct (PyStr.endswith topic "/system/0/Serial") eqn:E; [exact H|].
  destruct H as [I1 I2 I3 I4 I5 W1 W2 W3 W4 W5].
  constructor; simpl; try assumption; try (now apply PyDictFacts.wf_set).
  intros t H. apply PyDictFacts.In_set in H as [[-> _]|H]; [exact E|now apply I4].
Qed.

Lemma invariant_record service device_instance short st :
  valid_bus_name service = true ->
  get_short_service_name service device_instance = Ok short ->
  invariant st ->
  invariant (set_services (PyDict.set (_services st) short service) st).
Proof.
  intros V S [I1 I2 I3 I4 I5 W1 W2 W3 W4 W5].
  constructor; simpl; try assumption; try (now apply PyDictFacts.wf_set).
  intros key s H. apply PyDictFacts.In_set in H as [[-> ->]|H]; [|now apply I2].
  split; [exact V|]. now apply short_name_second with service device_instance.
Qed.

Lemma invariant_register_owner owner service st :
  valid_bus_name service = true ->
  invariant st ->
  invariant (set_service_ids (PyDict.set (_service_ids st) owner service) st).
Proof.
  intros V [I1 I2 I3 I4 I5 W1 W2 W3 W4 W5].
  constructor; simpl; try assumption; try (now apply PyDictFacts.wf_set).
  intros o s H. apply PyDictFacts.In_set in H as [[-> ->]|H]; [exact V|now apply (I3 o)].
Qed.

Lemma invariant_set_value topic (v : value) st :
  invariant st -> invariant (set_values (PyDict.set (_values st) topic v) st).
Proof.
  intros [I1 I2 I3 I4 I5 W1 W2 W3 W4 W5].
  constructor; simpl; try assumption. now apply PyDictFacts.wf_set.
Qed.

Lemma invariant_del_topic uid : preserves (@invariant value) (del_topic uid).
Proof.
  intros st [I1 I2 I3 I4 I5 W1 W2 W3 W4 W5]. unfold del_topic.
  destruct (PyDict.del (_topics st) uid) as [d|] eqn:E; [|now constructor].
  constructor; simpl; try assumption; [|now apply PyDictFacts.del_wf with (_topics st) uid].
  intros u t H. apply I1. now apply PyDictFacts.In_del with (d' := d) (k := uid).
Qed.

Lemma invariant_del_value topic : preserves (@invariant value) (del_value topic).
Proof.
  intros st [I1 I2 I3 I4 I5 W1 W2 W3 W4 W5]. unfold del_value.
  destruct (PyDict.del (_values st) topic) as [d|] eqn:E; [|now constructor].
  constructor; simpl; try assumption. now apply PyDictFacts.del_wf with (_values st) topic.
Qed.

Lemma invariant_drain items st : invariant st -> invariant (fst (drain items st)).
Proof.
  revert st. induction items as [|n IH]; intros st H; simpl; [exact H|].
  destruct (queue st) as [|[t p] rest] eqn:Q; simpl; [exact H|].
  apply IH. destruct H as [I1 I2 I3 I4 I5 W1 W2 W3 W4 W5]. constructor; simpl; try assumption.
  - intros t' H. apply I4. rewrite Q. now right.
  - intros t' H. apply in_app_or in H as [H|[E|[]]]; [now apply I5|].
    injection E as -> ->. apply I4. rewrite Q. now left.
  - unfold PyDict.wf in *. rewrite Q in W5. simpl in W5. now inversion W5.
Qed.

Lemma invariant_service_queue now items st :
  invariant st -> invariant (fst (_service_queue now items st)).
Proof.
  intros [I1 I2 I3 I4 I5 W1 W2 W3 W4 W5]. unfold _service_queue. apply invariant_drain.
  now constructor.
Qed.

(** An assignment that leaves the tables, the queue and the publish log
    alone keeps the invariant. *)
Lemma invariant_frame (f : state value -> state value) :
  (forall st, _system_id (f st) = _system_id st) ->
  (forall st, _topics (f st) = _topics st) ->
  (forall st, _values (f st) = _values st) ->
  (forall st, _services (f st) = _services st) ->
  (forall st, _service_ids (f st) = _service_ids st) ->
  (forall st, queue (f st) = queue st) ->
  (forall st, published (f st) = published st) ->
  forall st, invariant st -> invariant (f st).
Proof.
  intros E0 E1 E2 E3 E4 E5 E6 st [I1 I2 I3 I4 I5 W1 W2 W3 W4 W5].
  constructor; rewrite ?E0, ?E1, ?E2, ?E3, ?E4, ?E5, ?E6; assumption.
Qed.

(** *** The handlers *)

Lemma invariant_scan b service publish :
  valid_bus_name service = true ->
  preserves (@invariant value) (_scan_dbus_service b service publish).
Proof.
  intros V. apply scan_preserves.
  - intros. apply invariant_add_item; [exact V|apply str_of_Z_lacks_slash].
  - intros. now apply invariant_publish.
  - intros di short st S H. now apply invariant_record with (InstInt di).
Qed.

Lemma invariant_service_disappeared name oldowner :
  preserves (@invariant value) (service_disappeared name oldowner).
Proof.
  unfold service_disappeared. apply preserves_bind.
  - apply preserves_for_each_read. intros item.
    destruct (PyStr.startswith (fst item) (name ++ "/")); [|apply preserves_ret].
    apply preserves_bind; [apply preserves_modify; intros; now apply invariant_unpublish|].
    intros _. apply preserves_bind; [apply invariant_del_topic|].
    intros _. apply invariant_del_value.
  - intros _. apply preserves_bind; apply preserves_modify || intros _.
    + intros st [I1 I2 I3 I4 I5 W1 W2 W3 W4 W5]. destruct (PyDict.has (_services st) name); [|now constructor].
      constructor; simpl; try assumption; [|now apply PyDictFacts.discard_wf].
      intros key s H. apply I2. now apply PyDictFacts.In_discard with (k := name).
    + apply preserves_modify.
      intros st [I1 I2 I3 I4 I5 W1 W2 W3 W4 W5]. destruct (PyDict.has (_service_ids st) oldowner); [|now constructor].
      constructor; simpl; try assumption; [|now apply PyDictFacts.discard_wf].
      intros o s H. apply (I3 o). now apply PyDictFacts.In_discard with (k := oldowner).
Qed.

Lemma invariant_name_owner_changed b name oldowner newowner :
  valid_bus_name name = true ->
  preserves (@invariant value) (_dbus_name_owner_changed b name oldowner newowner).
Proof.
  intros V. unfold _dbus_name_owner_changed.
  destruct (negb (PyStr.startswith name "com.victronenergy.")); [apply preserves_ret|].
  destruct (negb (String.eqb newowner "")).
  - apply preserves_bind; [now apply invariant_scan|].
    intros _. apply preserves_modify. intros st. now apply invariant_register_owner.
  - destruct (negb (String.eqb oldowner "")); [|apply preserves_ret].
    apply invariant_service_disappeared.
Qed.

Lemma invariant_store_change changes topic :
  preserves (@invariant value) (store_change changes topic).
Proof.
  unfold store_change.
  destruct (PyDict.get changes "Value") as [raw|]; [|apply preserves_ret].
  destruct (py_is_none raw); [apply preserves_ret|].
  apply preserves_bind; [apply preserves_modify; intros; now apply invariant_set_value|].
  intros _. apply preserves_modify. intros. now apply invariant_publish.
Qed.

Lemma invariant_value_changed changes path service_id :
  preserves (@invariant value) (_on_dbus_value_changed changes path service_id).
Proof.
  intros st H. unfold _on_dbus_value_changed.
  destruct (PyDict.get (_service_ids st) service_id) as [service|] eqn:G; [|exact H].
  assert (V : valid_bus_name service = true).
  { apply PyDictFacts.get_In in G. now apply (inv_service_ids _ H) in G. }
  destruct (PyDict.get (_topics st) (service ++ path)) as [topic|];
    [now apply invariant_store_change|].
  destruct (find _ (_services st)) as [[short s]|]; [|exact H].
  unfold bind at 1, lift at 1.
  destruct (nth_error (PyStr.split "/" short) 1) as [d|] eqn:D; [|exact H].
  apply split_piece_lacks in D.
  clear G. revert st H. apply preserves_bind; [now apply invariant_add_item|].
  intros _. apply preserves_bind.
  - intros st H. unfold topics_item. now destruct (PyDict.get (_topics st) _).
  - intros topic. apply invariant_store_change.
Qed.

Lemma invariant_publish_all : preserves (@invariant value) (_publish_all (value := value)).
Proof.
  unfold _publish_all. apply preserves_for_each_read. intros topic.
  apply preserves_bind.
  - intros st H. unfold values_item. now destruct (PyDict.get (_values st) topic).
  - intros v. apply preserves_modify. intros. now apply invariant_publish.
Qed.

Lemma invariant_unpublish_all has_iterkeys :
  preserves (@invariant value) (_unpublish_all (value := value) has_iterkeys).
Proof.
  unfold _unpublish_all. destruct has_iterkeys.
  - apply preserves_for_each_read. intros topic.
    apply preserves_modify. intros. now apply invariant_unpublish.
  - intros st H. exact H.
Qed.

Lemma invariant_on_connect : preserves (@invariant value) (_on_connect (value := value)).
Proof.
  unfold _on_connect. apply preserves_bind; [apply preserves_gets|]. intros own.
  apply preserves_bind; [apply preserves_modify; now apply invariant_frame|]. intros _.
  apply preserves_bind; [apply preserves_modify; now apply invariant_frame|]. intros _.
  apply preserves_bind; [apply preserves_gets|]. intros r.
  apply preserves_bind; [|intros _; apply invariant_publish_all].
  destruct r as [[c|]|]; try apply preserves_ret.
  apply preserves_modify. now apply invariant_frame.
Qed.

Lemma get_uid_by_topic_spec topic st st' service di path :
  _get_uid_by_topic topic st = (st', Ok (service, di, path)) ->
  st' = st /\ forall s, service = Some s -> exists key, In (key, s) (_services st).
Proof.
  unfold _get_uid_by_topic.
  destruct (PyStr.splitn "/" topic 4) as [|a [|s0 [|ty [|d [|p [|? ?]]]]]];
    try (unfold raise; discriminate).
  unfold bind, lift, gets, ret.
  destruct (outcome_of_converted (py_int_str d)) as [z|e]; [|discriminate].
  intros [= <- <- <- <-]. split; [reflexivity|].
  intros s G. apply PyDictFacts.get_In in G. eauto.
Qed.

Lemma get_uid_by_topic_state topic st : fst (_get_uid_by_topic topic st) = st.
Proof.
  unfold _get_uid_by_topic.
  destruct (PyStr.splitn "/" topic 4) as [|a [|s0 [|ty [|d [|p [|? ?]]]]]];
    try reflexivity.
  unfold bind, lift, gets, ret.
  now destruct (outcome_of_converted (py_int_str d)).
Qed.

Lemma invariant_handle_write b topic payload :
  preserves (@invariant value) (_handle_write b topic payload).
Proof.
  unfold _handle_write. apply preserves_bind; [apply preserves_lift|]. intros v.
  apply preserves_bind.
  - intros st H. now rewrite get_uid_by_topic_state.
  - intros [[[service|] di] path]; [|apply preserves_raise].
    apply preserves_bind; [apply preserves_lift|]. intros _.
    apply preserves_modify. now apply invariant_frame.
Qed.

Lemma invariant_handle_read b topic :
  preserves (@invariant value) (_handle_read b topic).
Proof.
  intros st H. unfold _handle_read. unfold bind at 1.
  destruct (_get_uid_by_topic topic st) as [st' [[[service di] path]|e]] eqn:U.
  - apply get_uid_by_topic_spec in U as [-> S].
    destruct service as [service|]; [|exact H].
    destruct (S service eq_refl) as [key K].
    assert (V : valid_bus_name service = true) by (now apply (inv_services _ H) in K).
    clear S K. revert st H. apply preserves_bind; [apply preserves_lift|]. intros v.
    apply preserves_bind;
      [apply invariant_add_item; [exact V|apply str_of_Z_lacks_slash]|].
    intros [t|]; [|apply preserves_ret].
    destruct (String.eqb t topic); [|apply preserves_ret].
    apply preserves_bind; apply preserves_modify || intros _.
    + intros. now apply invariant_publish.
    + apply preserves_modify. now apply invariant_frame.
  - pose proof (get_uid_by_topic_state topic st) as E. rewrite U in E. simpl in *.
    now subst.
Qed.

Lemma invariant_on_message b topic payload :
  preserves (@invariant value) (_on_message b topic payload).
Proof.
  unfold _on_message. destruct (PyStr.startswith topic "$SYS/broker/connection/").
  - apply preserves_bind; [apply preserves_lift|]. intros n.
    destruct (n =? 1)%Z; [apply preserves_modify; now apply invariant_frame|].
    apply preserves_bind; [apply preserves_gets|]. intros [|]; [|apply preserves_ret].
    apply preserves_bind; [apply preserves_modify; now apply invariant_frame|]. intros _.
    apply preserves_bind; [apply preserves_gets|]. intros [r|]; [|apply preserves_raise].
    apply preserves_modify. now apply invariant_frame.
  - apply preserves_try_except; [|intros e k [= <-]; apply preserves_ret].
    unfold request.
    destruct (PyStr.splitn "/" topic 2) as [|a [|s [|p [|? ?]]]]; try apply preserves_raise.
    apply preserves_bind; [apply preserves_gets|]. intros own.
    destruct (negb (String.eqb s own)); [apply preserves_raise|].
    destruct (String.eqb a "W"); [apply invariant_handle_write|].
    destruct (String.eqb a "R"); [apply invariant_handle_read|apply preserves_ret].
Qed.

Lemma invariant_handle b e :
  event_ok e -> preserves (@invariant value) (handle b e).
Proof.
  destruct e; simpl; intros V.
  - now apply invariant_name_owner_changed.
  - apply invariant_value_changed.
  - apply invariant_on_connect.
  - apply invariant_on_message.
  - apply preserves_modify. intros st H. unfold _timer_service_queue.
    destruct (_ && _); [|exact H].
    pose proof (invariant_service_queue now' 5 st H) as D.
    destruct (_service_queue now' 5 st) as [st' [|]]; simpl in D; [|exact D].
    now apply (invariant_frame idle_add).
  - apply preserves_modify. intros st H.
    pose proof (invariant_service_queue now 5 st H) as D.
    destruct (_service_queue now 5 st) as [st' [|]]; simpl in D; [exact D|].
    now apply (invariant_frame idle_retire).
  - apply preserves_modify. now apply invariant_frame.
  - apply invariant_unpublish_all.
Qed.

Lemma invariant_init b system_id registrator :
  Forall (fun n => valid_bus_name n = true) (bus_list_names b) ->
  invariant (fst (DbusMqtt_init b system_id registrator)).
Proof.
  intros V. unfold DbusMqtt_init.
  apply (preserves_for_each (@invariant value)); [|apply invariant_initial].
  eapply Forall_impl; [|exact V]. cbv beta. intros service Vs.
  destruct (PyStr.startswith service "com.victronenergy."); [|apply preserves_ret].
  apply preserves_bind; [apply preserves_lift|]. intros owner.
  apply preserves_bind.
  - apply preserves_modify. intros st. now apply invariant_register_owner.
  - intros _. now apply invariant_scan.
Qed.

(** Every state the object can be in satisfies the invariant. *)
Lemma reachable_invariant st : reachable st -> invariant st.
Proof.
  induction 1 as [b system_id registrator st V E|b e st R IH V].
  - pose proof (invariant_init b system_id registrator V) as H.
    now rewrite E in H.
  - now apply invariant_handle.
Qed.

End Invariant.

(* ================================================================== *)
(** ** The mirror table in every reachable state *)
(* ================================================================== *)

Section MirrorClaims.
Context {value : Type} `{PV : PyValue value}.
Implicit Types (st : state value) (v : value) (b : bus value).

(** What [_add_item] installs has that shape, whatever the state. *)
Lemma add_item_new_entry service device_instance path v st st' topic :
  PyDict.get (_topics st) (service ++ normalize_path path) = None ->
  _add_item service device_instance path v st = (st', Ok (Some topic)) ->
  exists service_type,
    get_service_type service = Ok service_type
    /\ topic = make_topic (_system_id st) service_type device_instance
                 (normalize_path path)
    /\ PyDict.get (_topics st') (service ++ normalize_path path) = Some topic
    /\ PyDict.get (_values st') topic = Some v.
Proof.
  intros G. unfold _add_item. rewrite G.
  destruct (get_service_type service) as [t|e]; [|discriminate].
  destruct (is_blocked t (normalize_path path)); [discriminate|].
  intros [= <- <-]. exists t. repeat split; simpl; apply PyDictFacts.get_set_same.
Qed.

(** No uid of a blocked pair is in the table of a state that satisfies
    the invariant. *)
Lemma blocked_uid_absent st service service_type path :
  invariant st ->
  valid_bus_name service = true ->
  get_service_type service = Ok service_type ->
  is_blocked service_type path = true ->
  PyDict.get (_topics st) (service ++ path) = None.
Proof.
  intros I V T B.
  destruct (PyDict.get (_topics st) (service ++ path)) as [topic|] eqn:G; [|reflexivity].
  apply PyDictFacts.get_In in G.
  destruct (inv_topics _ I _ _ G) as [s' [t' [di [p' [V' [T' [S' [B' [_ [E _]]]]]]]]]].
  apply PyStrFacts.uid_unique in E as [<- <-]; try assumption.
  - rewrite T in T'. injection T' as <-. congruence.
  - now apply is_blocked_path with service_type.
Qed.

(** C7: in every reachable state the uid of a blocked
    [(service_type, path)] pair is not in the mirror table, and [_add_item]
    for such a pair returns no topic and installs nothing. *)
Theorem blocked_pair_never_mirrored st service service_type device_instance path v :
  reachable st ->
  valid_bus_name service = true ->
  get_service_type service = Ok service_type ->
  is_blocked service_type (normalize_path path) = true ->
  PyDict.get (_topics st) (service ++ normalize_path path) = None
  /\ _add_item service device_instance path v st = (st, Ok None).
Proof.
  intros R V T B. apply reachable_invariant in R.
  pose proof (blocked_uid_absent st service service_type _ R V T B) as G.
  split; [exact G|]. unfold _add_item. now rewrite G, T, B.
Qed.

(** [_unpublish] leaves the serial topic alone. *)
Lemma unpublish_serial topic st :
  PyStr.endswith topic "/system/0/Serial" = true -> _unpublish topic st = st.
Proof.
  intros E. unfold _unpublish. rewrite E. now destruct (negb (_socket_watch st)).
Qed.

(** C8: in every reachable state neither the queue nor the log of what
    went to the broker holds a tombstone for a topic that ends in
    [/system/0/Serial]; the reachable states include those after a service
    disappeared and after [_unpublish_all]. *)
Theorem serial_never_tombstoned st topic :
  reachable st ->
  PyStr.endswith topic "/system/0/Serial" = true ->
  ~ In (topic, None) (queue st) /\ ~ In (topic, None) (published st).
Proof.
  intros R E. apply reachable_invariant in R. split; intros H.
  - apply (inv_queue _ R) in H. congruence.
  - apply (inv_published _ R) in H. congruence.
Qed.

(** C9, as the code has it: in a reachable state, a change signal from a
    sender that resolves to a service, when that service has a record in
    [_services] and the path is blocked for the service's type, makes
    [_on_dbus_value_changed] raise [KeyError] at [self._topics[uid]], with the
    state as it was. *)
Theorem blocked_change_signal_raises st changes path service_id service
    service_type key :
  reachable st ->
  PyDict.get (_service_ids st) service_id = Some service ->
  In (key, service) (_services st) ->
  get_service_type service = Ok service_type ->
  is_blocked service_type path = true ->
  _on_dbus_value_changed changes path service_id st
  = (st, Raise (KeyError (service ++ path))).
Proof.
  intros R G K T B. apply reachable_invariant in R.
  assert (V : valid_bus_name service = true).
  { apply PyDictFacts.get_In in G. now apply (inv_service_ids _ R) in G. }
  pose proof (blocked_uid_absent st service service_type path R V T B) as A.
  pose proof (is_blocked_path _ _ B) as S.
  unfold _on_dbus_value_changed. rewrite G, A.
  destruct (find (fun kv => String.eqb (snd kv) service) (_services st))
    as [[short s]|] eqn:F.
  - apply find_some in F as [F _].
    destruct (proj2 (inv_services _ R _ _ F)) as [d D].
    unfold bind, lift. rewrite D.
    unfold _add_item. rewrite (PyStrFacts.normalize_path_idem path S), A, T, B.
    unfold topics_item. now rewrite A.
  - apply (find_none _ _ F) in K. simpl in K. now rewrite String.eqb_refl in K.
Qed.

(** Without a record in [_services] the same signal is dropped. *)
Lemma unrecorded_change_signal_dropped st changes path service_id service :
  PyDict.get (_service_ids st) service_id = Some service ->
  PyDict.get (_topics st) (service ++ path) = None ->
  (forall key, ~ In (key, service) (_services st)) ->
  _on_dbus_value_changed changes path service_id st = (st, Ok tt).
Proof.
  intros G A N. unfold _on_dbus_value_changed. rewrite G, A.
  destruct (find (fun kv => String.eqb (snd kv) service) (_services st))
    as [[short s]|] eqn:F; [|reflexivity].
  apply find_some in F as [F E]. simpl in E. apply String.eqb_eq in E. subst s.
  now apply N in F.
Qed.

End MirrorClaims.

(** *** The example world is reachable *)

Lemma started_reachable : reachable Demo.started.
Proof.
  apply (reachable_init Demo.listing_bus "abc123" None).
  - repeat constructor.
  - (vm_compute; reflexivity).
Qed.

Lemma connected_reachable : reachable Demo.connected.
Proof.
  apply (reachable_step Demo.listing_bus (SocketWatch true)); [|exact I].
  exact started_reachable.
Qed.

Lemma pending_reachable : reachable Demo.pending.
Proof.
  apply (reachable_step Demo.listing_bus MqttConnect); [|exact I].
  exact connected_reachable.
Qed.

(** [blocked_pair_never_mirrored] at the tunnel of the vebus service. *)
Lemma blocked_pair_never_mirrored_witness :
  valid_bus_name Demo.vebus_service = true
  /\ get_service_type Demo.vebus_service = Ok "vebus"
  /\ is_blocked "vebus" (normalize_path "Interfaces/Mk2/Tunnel") = true
  /\ _add_item Demo.vebus_service (InstInt 0) "Interfaces/Mk2/Tunnel" (Demo.VInt 1)
       Demo.started
     = (Demo.started, Ok None).
Proof.
  split; [(vm_compute; reflexivity)|]. split; [(vm_compute; reflexivity)|]. split; [(vm_compute; reflexivity)|].
  apply (blocked_pair_never_mirrored Demo.started Demo.vebus_service "vebus");
    [exact started_reachable|(vm_compute; reflexivity)|(vm_compute; reflexivity)|(vm_compute; reflexivity)].
Defined.

(** [serial_never_tombstoned] once every topic is pending. *)
Lemma serial_never_tombstoned_witness :
  PyStr.endswith Demo.serial_topic "/system/0/Serial" = true
  /\ ~ In (Demo.serial_topic, None) (queue Demo.pending)
  /\ ~ In (Demo.serial_topic, None) (published Demo.pending).
Proof.
  split; [(vm_compute; reflexivity)|].
  apply (serial_never_tombstoned Demo.pending Demo.serial_topic);
    [exact pending_reachable|(vm_compute; reflexivity)].
Defined.

(** [blocked_change_signal_raises] at a signal of the vebus service for
    its tunnel. *)
Lemma blocked_change_signal_raises_witness :
  PyDict.get (_service_ids Demo.started) ":1.2" = Some Demo.vebus_service
  /\ In ("vebus/0", Demo.vebus_service) (_services Demo.started)
  /\ get_service_type Demo.vebus_service = Ok "vebus"
  /\ is_blocked "vebus" "/Interfaces/Mk2/Tunnel" = true
  /\ _on_dbus_value_changed [("Value", Demo.VInt 1)] "/Interfaces/Mk2/Tunnel" ":1.2"
       Demo.started
     = (Demo.started, Raise (KeyError "com.victronenergy.vebus.ttyO1/Interfaces/Mk2/Tunnel")).
Proof.
  split; [(vm_compute; reflexivity)|]. split; [(vm_compute; tauto)|]. split; [(vm_compute; reflexivity)|].
  split; [(vm_compute; reflexivity)|].
  apply (blocked_change_signal_raises Demo.started [("Value", Demo.VInt 1)]
           "/Interfaces/Mk2/Tunnel" ":1.2" Demo.vebus_service "vebus" "vebus/0");
    [exact started_reachable|(vm_compute; reflexivity)|(vm_compute; tauto)|(vm_compute; reflexivity)|(vm_compute; reflexivity)].
Defined.

(** C9 as the claim words it fails: the sender resolves to the vebus
    service, the tunnel is blocked and has no entry, but the start-up scan
    made no record of the service; the loop over [_services] finds nothing
    and the signal is dropped without an error. *)
Lemma unrecorded_blocked_signal_dropped :
  reachable Demo.mute_started
  /\ PyDict.get (_service_ids Demo.mute_started) ":1.2" = Some Demo.vebus_service
  /\ _services Demo.mute_started = []
  /\ get_service_type Demo.vebus_service = Ok "vebus"
  /\ is_blocked "vebus" "/Interfaces/Mk2/Tunnel" = true
  /\ PyDict.get (_topics Demo.mute_started)
       (Demo.vebus_service ++ "/Interfaces/Mk2/Tunnel")
     = None
  /\ _on_dbus_value_changed [("Value", Demo.VInt 1)] "/Interfaces/Mk2/Tunnel" ":1.2"
       Demo.mute_started
     = (Demo.mute_started, Ok tt).
Proof.
  split.
  - apply (reachable_init Demo.mute_bus "abc123" None).
    + repeat constructor.
    + vm_compute. reflexivity.
  - repeat split; vm_compute; reflexivity.
Qed.

(* ================================================================== *)
(** ** Scans and owner changes *)
(* ================================================================== *)

Section ScanClaims.
Context {value : Type} `{PV : PyValue value}.
Implicit Types (st : state value) (v : value) (b : bus value).





Lemma add_item_services service device_instance path v st :
  _services (fst (_add_item service device_instance path v st)) = _services st.
Proof.
  unfold _add_item.
  destruct (PyDict.get (_topics st) _); [reflexivity|].
  destruct (get_service_type service); [|reflexivity].
  now destruct (is_blocked _ _).
Qed.

Lemma publish_services topic v st : _services (_publish topic v st) = _services st.
Proof. unfold _publish. now destruct (negb (_socket_watch st)). Qed.

(** After the record is made, the rest of the scan leaves the registry
    alone. *)
Lemma scan_rest_services b service device_instance publish st :
  _services
    (fst (bind (read_items b service device_instance publish)
            (fun items =>
               match items with
               | None => ret tt
               | Some items =>
                   match dict_items items with
                   | Some kvs =>
                       for_each
                         (fun kv =>
                            add_and_publish service (InstInt device_instance)
                              (fst kv) (unwrap_dbus_value (snd kv)) publish)
                         kvs
                   | None => ret tt
                   end
               end) st))
  = _services st.
Proof.
  set (P := fun s : state value => _services s = _services st).
  assert (A : forall di path v, preserves P (_add_item service di path v)).
  { intros di path v s H. unfold P in *. now rewrite add_item_services. }
  assert (B : forall topic v s, P s -> P (_publish topic v s)).
  { intros topic v s H. unfold P in *. now rewrite publish_services. }
  revert st P A B. intros st P A B.
  apply (preserves_bind P); [now apply read_items_preserves| |reflexivity].
  intros [items|]; [|apply preserves_ret].
  destruct (dict_items items) as [kvs|]; [|apply preserves_ret].
  apply preserves_for_each_all. intros kv. now apply add_and_publish_preserves.
Qed.


(** Any other bus error leaves the scan as an exception. *)
Lemma scan_other_error_propagates b service publish st st' n :
  scan_body b service publish st = (st', Raise (DBusException n)) ->
  is_transient n = false ->
  _scan_dbus_service b service publish st = (st', Raise (DBusException n)).
Proof.
  intros E T. unfold _scan_dbus_service, try_except. rewrite E. now rewrite T.
Qed.

End ScanClaims.



Section OwnerSwap.
Context {value : Type} `{PV : PyValue value}.
Implicit Types (st : state value) (v : value) (b : bus value).

(** *** What a scan leaves as it was *)

Lemma add_item_keeps_entries service device_instance path v st uid topic :
  PyDict.get (_topics st) uid = Some topic ->
  PyDict.get (_topics (fst (_add_item service device_instance path v st))) uid
  = Some topic.
Proof.
  intros G. unfold _add_item.
  destruct (PyDict.get (_topics st) (service ++ normalize_path path)) eqn:N;
    [exact G|].
  destruct (get_service_type service); [|exact G].
  destruct (is_blocked _ _); [exact G|]. simpl.
  rewrite PyDictFacts.get_set_other; [exact G|]. intros <-. congruence.
Qed.

Lemma publish_no_tombstone topic v st t :
  In (t, None) (queue (_publish topic v st)) -> In (t, None) (queue st).
Proof.
  unfold _publish. destruct (negb (_socket_watch st)); [tauto|]. simpl.
  intros H. apply PyDictFacts.In_set in H as [[_ ?]|H]; [discriminate|exact H].
Qed.

Lemma add_item_queue service device_instance path v st :
  queue (fst (_add_item service device_instance path v st)) = queue st.
Proof.
  unfold _add_item.
  destruct (PyDict.get (_topics st) _); [reflexivity|].
  destruct (get_service_type service); [|reflexivity].
  now destruct (is_blocked _ _).
Qed.

Lemma add_item_service_ids service device_instance path v st :
  _service_ids (fst (_add_item service device_instance path v st)) = _service_ids st.
Proof.
  unfold _add_item.
  destruct (PyDict.get (_topics st) _); [reflexivity|].
  destruct (get_service_type service); [|reflexivity].
  now destruct (is_blocked _ _).
Qed.

Lemma publish_service_ids topic v st :
  _service_ids (_publish topic v st) = _service_ids st.
Proof. unfold _publish. now destruct (negb (_socket_watch st)). Qed.

Lemma publish_topics topic v st : _topics (_publish topic v st) = _topics st.
Proof. unfold _publish. now destruct (negb (_socket_watch st)). Qed.

(** A scan takes no entry out of the mirror table, enqueues no tombstone
    and leaves the owner handles alone. *)
Lemma scan_keeps b service publish st :
  (forall uid topic,
     PyDict.get (_topics st) uid = Some topic ->
     PyDict.get (_topics (fst (_scan_dbus_service b service publish st))) uid
     = Some topic)
  /\ (forall topic,
        In (topic, None) (queue (fst (_scan_dbus_service b service publish st))) ->
        In (topic, None) (queue st))
  /\ _service_ids (fst (_scan_dbus_service b service publish st)) = _service_ids st.
Proof.
  set (P := fun s : state value =>
    (forall uid topic,
       PyDict.get (_topics st) uid = Some topic ->
       PyDict.get (_topics s) uid = Some topic)
    /\ (forall topic, In (topic, None) (queue s) -> In (topic, None) (queue st))
    /\ _service_ids s = _service_ids st).
  apply (scan_preserves P b service); unfold P.
  - intros di path v s [H1 [H2 H3]]. split; [|split].
    + intros uid topic G. apply add_item_keeps_entries. now apply H1.
    + intros topic. rewrite add_item_queue. apply H2.
    + now rewrite add_item_service_ids.
  - intros topic v s [H1 [H2 H3]]. split; [|split].
    + now rewrite publish_topics.
    + intros t H. apply H2. now apply publish_no_tombstone in H.
    + now rewrite publish_service_ids.
  - intros di short s _ [H1 [H2 H3]]. now split.
  - now split.
Qed.

(** C2, as the code has it: an owner swap of a vendor-prefixed name runs
    the branch for a new owner and nothing of the branch for a lost one.  It
    is handled as the appearance of [newowner] alone would be: the service is
    scanned with [publish=True] and then [newowner] is registered.  No entry
    leaves the mirror table, no tombstone is enqueued, and the handle of
    [oldowner] stays registered. *)
Theorem owner_swap_is_appearance b name oldowner newowner st :
  PyStr.startswith name "com.victronenergy." = true ->
  newowner <> "" ->
  _dbus_name_owner_changed b name oldowner newowner st
  = _dbus_name_owner_changed b name "" newowner st
  /\ _dbus_name_owner_changed b name oldowner newowner st
     = bind (_scan_dbus_service b name true)
         (fun _ => modify (fun s =>
            set_service_ids (PyDict.set (_service_ids s) newowner name) s)) st
  /\ (forall uid topic,
        PyDict.get (_topics st) uid = Some topic ->
        PyDict.get
          (_topics (fst (_dbus_name_owner_changed b name oldowner newowner st))) uid
        = Some topic)
  /\ (forall topic,
        In (topic, None)
           (queue (fst (_dbus_name_owner_changed b name oldowner newowner st))) ->
        In (topic, None) (queue st))
  /\ (oldowner <> newowner ->
      PyDict.get
        (_service_ids (fst (_dbus_name_owner_changed b name oldowner newowner st)))
        oldowner
      = PyDict.get (_service_ids st) oldowner)
  /\ (snd (_dbus_name_owner_changed b name oldowner newowner st) = Ok tt ->
      PyDict.get
        (_service_ids (fst (_dbus_name_owner_changed b name oldowner newowner st)))
        newowner
      = Some name).
Proof.
  intros Pre New. apply String.eqb_neq in New.
  assert (E : forall old, _dbus_name_owner_changed b name old newowner st
              = bind (_scan_dbus_service b name true)
                  (fun _ => modify (fun s =>
                     set_service_ids (PyDict.set (_service_ids s) newowner name) s)) st).
  { intros old. unfold _dbus_name_owner_changed. now rewrite Pre, New. }
  split; [now rewrite !E|]. split; [apply E|]. rewrite E.
  destruct (scan_keeps b name true st) as [K1 [K2 K3]].
  unfold bind, modify.
  destruct (_scan_dbus_service b name true st) as [st1 [[]|e]]; simpl in *.
  - repeat split; try assumption.
    + intros N. rewrite PyDictFacts.get_set_other by congruence. now rewrite K3.
    + intros _. apply PyDictFacts.get_set_same.
  - repeat split; try assumption.
    + intros _. now rewrite K3.
    + discriminate.
Qed.

End OwnerSwap.

(** The hypotheses of [owner_swap_is_appearance] hold for the system
    service changing hands: the old handle is still registered afterwards. *)
Lemma owner_swap_is_appearance_witness :
  PyStr.startswith Demo.system_service "com.victronenergy." = true
  /\ ":1.9" <> ""
  /\ _dbus_name_owner_changed Demo.listing_bus Demo.system_service ":1.1" ":1.9"
       Demo.connected
     = _dbus_name_owner_changed Demo.listing_bus Demo.system_service "" ":1.9"
         Demo.connected.
Proof.
  split; [reflexivity|]. split; [discriminate|].
  exact (proj1 (owner_swap_is_appearance Demo.listing_bus Demo.system_service
                  ":1.1" ":1.9" Demo.connected eq_refl
                  (fun E : ":1.9" = "" => eq_ind ":1.9"
                     (fun s => match s with EmptyString => False | _ => True end)
                     I "" E))).
Defined.

(** C2 as the specification words it fails: the system service changes
    hands from [:1.1] to [:1.9].  A disappearance would enqueue a tombstone
    for the state-of-charge topic and forget [:1.1]; a disappearance followed
    by an appearance ends with [:1.1] forgotten; the handler ends with
    [:1.1] still registered. *)
Lemma owner_swap_keeps_old_owner :
  In (Demo.soc_topic, None)
     (queue (fst (_dbus_name_owner_changed Demo.listing_bus Demo.system_service
                    ":1.1" "" Demo.connected)))
  /\ PyDict.get
       (_service_ids (fst (Spec.owner_swap Demo.listing_bus Demo.system_service
                             ":1.1" ":1.9" Demo.connected)))
       ":1.1"
     = None
  /\ PyDict.get
       (_service_ids (fst (_dbus_name_owner_changed Demo.listing_bus
                             Demo.system_service ":1.1" ":1.9" Demo.connected)))
       ":1.1"
     = Some Demo.system_service
  /\ queue (fst (_dbus_name_owner_changed Demo.listing_bus Demo.system_service
                   ":1.1" ":1.9" Demo.connected))
     = [(Demo.serial_topic, Some (json_dumps_value (Demo.VInt 4711)));
        (Demo.soc_topic, Some (json_dumps_value (Demo.VInt 80)))].
Proof.
  split; [vm_compute; tauto|]. split; [vm_compute; reflexivity|].
  split; vm_compute; reflexivity.
Qed.

(* ================================================================== *)
(** ** Read requests and publish-all *)
(* ================================================================== *)

Section ReadClaims.
Context {value : Type} `{PV : PyValue value}.
Implicit Types (st : state value) (v : value) (b : bus value).

Lemma In_insert_sorted k x l : In x (PyStr.insert_sorted k l) <-> x = k \/ In x l.
Proof.
  induction l as [|h t IH]; simpl; [intuition|].
  destruct (String.leb k h); simpl; [intuition|]. rewrite IH. intuition.
Qed.

Lemma In_sorted x l : In x (PyStr.sorted l) <-> In x l.
Proof.
  induction l as [|h t IH]; simpl; [tauto|].
  rewrite In_insert_sorted, IH. intuition.
Qed.

(** The loop of [_publish_all] over topics that have a stored value. *)
Lemma publish_all_loop (l : list string) st :
  _socket_watch st = true ->
  (forall t, In t l -> In t (PyDict.keys (_values st))) ->
  exists st',
    for_each (fun topic => bind (values_item topic)
                             (fun v => modify (_publish topic v))) l st
    = (st', Ok tt)
    /\ _values st' = _values st
    /\ (forall t, ~ In t l -> PyDict.get (queue st') t = PyDict.get (queue st) t)
    /\ (forall t v, In t l -> PyDict.get (_values st) t = Some v ->
          PyDict.get (queue st') t = Some (Some (json_dumps_value v))).
Proof.
  revert st. induction l as [|x l IH]; intros st S K.
  - exists st. simpl. repeat split; tauto.
  - destruct (PyDictFacts.In_keys_get (_values st) x) as [vx G]; [apply K; now left|].
    cbn [for_each]. unfold bind at 1. unfold bind at 1. unfold values_item at 1.
    rewrite G. unfold modify at 1.
    assert (E1 : _publish x vx st = enqueue x (Some (json_dumps_value vx)) st).
    { unfold _publish. now rewrite S. }
    rewrite E1.
    destruct (IH (enqueue x (Some (json_dumps_value vx)) st)) as [st' [R [V [F Q]]]];
      [exact S|intros t H; apply K; now right|].
    exists st'. split; [exact R|]. split; [exact V|]. split.
    + intros t N. rewrite F by (intros H; apply N; now right).
      apply enqueue_get_other. intros ->. apply N. now left.
    + intros t v [->|H] Gt.
      * destruct (in_dec string_dec t l) as [H|H]; [now apply Q|].
        rewrite F by exact H. rewrite Gt in G. injection G as ->.
        apply enqueue_get.
      * now apply Q.
Qed.

(** With the socket up, [_publish_all] returns and leaves every topic
    that has a stored value pending with that value. *)
Lemma publish_all_spec st :
  _socket_watch st = true ->
  exists st',
    _publish_all st = (st', Ok tt)
    /\ _values st' = _values st
    /\ (forall t v, PyDict.get (_values st) t = Some v ->
          PyDict.get (queue st') t = Some (Some (json_dumps_value v))).
Proof.
  intros S. unfold _publish_all.
  assert (K : forall t, In t (PyStr.sorted (PyDict.keys (_values st))) ->
                        In t (PyDict.keys (_values st))).
  { intros t H. exact (proj1 (In_sorted t _) H). }
  destruct (publish_all_loop (PyStr.sorted (PyDict.keys (_values st))) st S K)
    as [st' [R [V [_ Q]]]].
  exists st'. split; [exact R|]. split; [exact V|].
  intros t v G. apply Q; [|exact G]. apply (proj2 (In_sorted t _)).
  apply PyDictFacts.get_In in G. change t with (fst (t, v)). now apply in_map.
Qed.


End ReadClaims.


(* ================================================================== *)
(** ** A service disappears *)
(* ================================================================== *)

Section Teardown.
Context {value : Type} `{PV : PyValue value}.
Implicit Types (st : state value) (v : value) (b : bus value).

(** *** The queue after one [_unpublish] *)

Lemma unpublish_queue_get topic st t :
  PyDict.get (queue (_unpublish topic st)) t
  = if _socket_watch st && (String.eqb topic t
                            && negb (PyStr.endswith topic "/system/0/Serial"))
    then Some None else PyDict.get (queue st) t.
Proof.
  unfold _unpublish. destruct (_socket_watch st); simpl; [|reflexivity].
  destruct (PyStr.endswith topic "/system/0/Serial"); simpl.
  - now rewrite andb_false_r.
  - rewrite andb_true_r. destruct (String.eqb topic t) eqn:E.
    + apply String.eqb_eq in E. subst. apply PyDictFacts.get_set_same.
    + apply String.eqb_neq in E. now apply PyDictFacts.get_set_other.
Qed.

(** *** The loop over the snapshot of the mirror table *)

Lemma teardown_loop name (todo : list (string * string)) :
  forall st,
    PyDict.wf (_topics st) -> PyDict.wf (_values st) ->
    NoDup (map fst todo) ->
    (forall item, In item todo -> In (fst item) (PyDict.keys (_topics st))) ->
    NoDup (map snd (filter (is_under name) todo)) ->
    (forall item, In item (filter (is_under name) todo) ->
       In (snd item) (PyDict.keys (_values st))) ->
    exists st',
      for_each
        (fun item =>
           if PyStr.startswith (fst item) (name ++ "/") then
             bind (modify (_unpublish (snd item)))
               (fun _ => bind (del_topic (fst item)) (fun _ => del_value (snd item)))
           else ret tt)
        todo st
      = (st', Ok tt)
      /\ (forall uid, PyDict.get (_topics st') uid
                      = if uid_under name todo uid then None
                        else PyDict.get (_topics st) uid)
      /\ (forall t, PyDict.get (_values st') t
                    = if topic_under name todo t then None
                      else PyDict.get (_values st) t)
      /\ (forall t, PyDict.get (queue st') t
                    = if _socket_watch st
                         && (topic_under name todo t
                             && negb (PyStr.endswith t "/system/0/Serial"))
                      then Some None else PyDict.get (queue st) t)
      /\ _services st' = _services st
      /\ _service_ids st' = _service_ids st
      /\ _socket_watch st' = _socket_watch st.
Proof.
  induction todo as [|[k t0] rest IH]; intros st Wt Wv Nk Pk Nt Pt.
  - exists st. simpl. rewrite andb_false_r. repeat split; reflexivity.
  - cbn [for_each map filter fst snd] in *.
    unfold uid_under, topic_under. cbn [existsb fst snd].
    fold (uid_under name rest). fold (topic_under name rest).
    change (PyStr.startswith k (name ++ "/")) with (is_under name (k, t0)) in *.
    inversion Nk as [|? ? Nk1 Nk2]; subst.
    destruct (is_under name (k, t0)) eqn:U.
    + (* the entry is under the service *)
      cbn [map snd] in Nt. inversion Nt as [|? ? Nt1 Nt2]; subst.
      destruct (PyDictFacts.del_present (_topics st) k) as [d1 D1];
        [apply (Pk (k, t0)); now left|].
      destruct (PyDictFacts.del_present (_values st) t0) as [v1 D1'];
        [apply (Pt (k, t0)); now left|].
      set (st1 := set_values v1 (set_topics d1 (_unpublish t0 st))).
      assert (T1 : _topics (_unpublish t0 st) = _topics st)
        by (unfold _unpublish; destruct (negb _); [|destruct (PyStr.endswith _ _)];
            reflexivity).
      assert (V1 : _values (_unpublish t0 st) = _values st)
        by (unfold _unpublish; destruct (negb _); [|destruct (PyStr.endswith _ _)];
            reflexivity).
      assert (S1 : _socket_watch (_unpublish t0 st) = _socket_watch st)
        by (unfold _unpublish; destruct (negb _); [|destruct (PyStr.endswith _ _)];
            reflexivity).
      assert (R1 : _services (_unpublish t0 st) = _services st)
        by (unfold _unpublish; destruct (negb _); [|destruct (PyStr.endswith _ _)];
            reflexivity).
      assert (I1 : _service_ids (_unpublish t0 st) = _service_ids st)
        by (unfold _unpublish; destruct (negb _); [|destruct (PyStr.endswith _ _)];
            reflexivity).
      destruct (IH st1) as [st' [R [Gt [Gv [Gq [Fs [Fi Fw]]]]]]].
      * now apply PyDictFacts.del_wf with (_topics st) k.
      * now apply PyDictFacts.del_wf with (_values st) t0.
      * exact Nk2.
      * intros item H. simpl. apply PyDictFacts.del_keeps_key with (_topics st) k; try assumption.
        -- intros E. apply Nk1. rewrite <- E. now apply in_map.
        -- apply Pk. now right.
      * exact Nt2.
      * intros item H. simpl. apply PyDictFacts.del_keeps_key with (_values st) t0; try assumption.
        -- intros E. apply Nt1. rewrite <- E. now apply in_map.
        -- apply Pt. now right.
      * exists st'. split.
        { unfold bind at 1. unfold bind at 1. unfold modify at 1.
          unfold bind at 1. unfold del_topic at 1. rewrite T1, D1.
          unfold del_value at 1. simpl _values. rewrite V1, D1'. exact R. }
        simpl in Gt, Gv, Gq, Fs, Fi, Fw.
        split; [|split; [|split; [|split; [|split]]]].
        -- intros uid. rewrite Gt. simpl.
           destruct (String.eqb k uid) eqn:E; simpl.
           ++ apply String.eqb_eq in E. subst uid.
              rewrite (PyDictFacts.del_get_same _ _ _ Wt D1). now destruct (uid_under name rest k).
           ++ apply String.eqb_neq in E.
              rewrite (PyDictFacts.del_get_other _ _ k uid Wt D1) by congruence. reflexivity.
        -- intros t. rewrite Gv. simpl.
           destruct (String.eqb t0 t) eqn:E; simpl.
           ++ apply String.eqb_eq in E. subst t.
              rewrite (PyDictFacts.del_get_same _ _ _ Wv D1'). now destruct (topic_under name rest t0).
           ++ apply String.eqb_neq in E.
              rewrite (PyDictFacts.del_get_other _ _ t0 t Wv D1') by congruence. reflexivity.
        -- intros t. rewrite Gq. simpl. rewrite S1, unpublish_queue_get.
           destruct (_socket_watch st); simpl; [|reflexivity].
           destruct (String.eqb t0 t) eqn:E; simpl; [|reflexivity].
           apply String.eqb_eq in E. subst t.
           destruct (PyStr.endswith t0 "/system/0/Serial"); simpl;
             [now rewrite !andb_false_r|].
           now destruct (topic_under name rest t0).
        -- now rewrite Fs.
        -- now rewrite Fi.
        -- now rewrite Fw.
    + (* the entry is another service's *)
      destruct (IH st) as [st' [R [Gt [Gv [Gq [Fs [Fi Fw]]]]]]]; try assumption.
      * intros item H. apply Pk. now right.
      * exists st'. split; [exact R|]. simpl. repeat split; assumption.
Qed.

Lemma uid_under_spec name (items : list (string * string)) uid :
  uid_under name items uid = true <->
  PyStr.startswith uid (name ++ "/") = true /\ In uid (map fst items).
Proof.
  unfold uid_under. rewrite existsb_exists. split.
  - intros [[k t] [H E]]. apply andb_true_iff in E as [U E].
    apply String.eqb_eq in E. simpl in E. subst k. split; [exact U|].
    change uid with (fst (uid, t)). now apply in_map.
  - intros [U H]. apply in_map_iff in H as [[k t] [E H]]. simpl in E. subst k.
    exists (uid, t). split; [exact H|]. unfold is_under. simpl.
    now rewrite U, String.eqb_refl.
Qed.

Lemma topic_under_spec name (items : list (string * string)) topic :
  topic_under name items topic = true <->
  exists uid, In (uid, topic) (filter (is_under name) items).
Proof.
  unfold topic_under. rewrite existsb_exists. split.
  - intros [[k t] [H E]]. apply andb_true_iff in E as [U E].
    apply String.eqb_eq in E. simpl in E. subst t.
    exists k. apply filter_In. now split.
  - intros [uid H]. apply filter_In in H as [H U].
    exists (uid, topic). split; [exact H|]. rewrite U. simpl. apply String.eqb_refl.
Qed.

(** The teardown on dictionaries whose entries under the service have
    topics of their own, each with a value slot. *)
Lemma teardown_on_dictionaries b name oldowner st :
  PyStr.startswith name "com.victronenergy." = true ->
  oldowner <> "" ->
  PyDict.wf (_topics st) -> PyDict.wf (_values st) -> PyDict.wf (_service_ids st) ->
  NoDup (map snd (under_service name st)) ->
  (forall uid topic, In (uid, topic) (under_service name st) ->
     In topic (PyDict.keys (_values st))) ->
  exists st',
    _dbus_name_owner_changed b name oldowner "" st = (st', Ok tt)
    /\ (forall uid topic,
          In (uid, topic) (under_service name st) ->
          _socket_watch st = true ->
          PyStr.endswith topic "/system/0/Serial" = false ->
          PyDict.get (queue st') topic = Some None)
    /\ (forall uid topic,
          In (uid, topic) (under_service name st) ->
          PyDict.get (_topics st') uid = None
          /\ PyDict.get (_values st') topic = None)
    /\ PyDict.get (_service_ids st') oldowner = None
    /\ (forall uid,
          PyStr.startswith uid (name ++ "/") = true ->
          PyDict.get (_topics st') uid = None)
    /\ (forall uid,
          PyStr.startswith uid (name ++ "/") = false ->
          PyDict.get (_topics st') uid = PyDict.get (_topics st) uid).
Proof.
  intros Pre Old Wt Wv Wi Nt Pt. apply String.eqb_neq in Old.
  destruct (teardown_loop name (_topics st) st Wt Wv Wt) as
    [st1 [R [Gt [Gv [Gq [Fs [Fi Fw]]]]]]].
  { intros [k t] H. change k with (fst (k, t)). now apply in_map. }
  { exact Nt. }
  { intros [k t] H. now apply (Pt k t). }
  set (drop_record := fun s : state value =>
         if PyDict.has (_services s) name
         then set_services (PyDict.discard (_services s) name) s else s).
  set (drop_owner := fun s : state value =>
         if PyDict.has (_service_ids s) oldowner
         then set_service_ids (PyDict.discard (_service_ids s) oldowner) s else s).
  assert (T2 : forall s, _topics (drop_owner (drop_record s)) = _topics s).
  { intros s. unfold drop_owner, drop_record.
    destruct (PyDict.has (_services s) name); simpl;
      destruct (PyDict.has (_service_ids s) oldowner); reflexivity. }
  assert (V2 : forall s, _values (drop_owner (drop_record s)) = _values s).
  { intros s. unfold drop_owner, drop_record.
    destruct (PyDict.has (_services s) name); simpl;
      destruct (PyDict.has (_service_ids s) oldowner); reflexivity. }
  assert (Q2 : forall s, queue (drop_owner (drop_record s)) = queue s).
  { intros s. unfold drop_owner, drop_record.
    destruct (PyDict.has (_services s) name); simpl;
      destruct (PyDict.has (_service_ids s) oldowner); reflexivity. }
  assert (I2 : forall s, PyDict.wf (_service_ids s) ->
             PyDict.get (_service_ids (drop_owner (drop_record s))) oldowner = None).
  { intros s W. unfold drop_owner.
    assert (E : _service_ids (drop_record s) = _service_ids s)
      by (unfold drop_record; now destruct (PyDict.has (_services s) name)).
    rewrite E. destruct (PyDict.has (_service_ids s) oldowner) eqn:H; simpl.
    - now apply PyDictFacts.discard_get_same.
    - rewrite E. unfold PyDict.has in H.
      now destruct (PyDict.get (_service_ids s) oldowner). }
  exists (drop_owner (drop_record st1)). split.
  { unfold _dbus_name_owner_changed. rewrite Pre, Old. simpl.
    unfold service_disappeared. unfold bind at 1. rewrite R.
    reflexivity. }
  rewrite T2, V2, Q2.
  split; [|split; [|split; [|split]]].
  - intros uid topic H S E. rewrite Gq, S.
    replace (topic_under name (_topics st) topic) with true
      by (symmetry; apply topic_under_spec; now exists uid).
    now rewrite E.
  - intros uid topic H. split.
    + rewrite Gt.
      replace (uid_under name (_topics st) uid) with true; [reflexivity|].
      symmetry. apply uid_under_spec. apply filter_In in H as [H U].
      split; [exact U|]. change uid with (fst (uid, topic)). now apply in_map.
    + rewrite Gv.
      replace (topic_under name (_topics st) topic) with true; [reflexivity|].
      symmetry. apply topic_under_spec. now exists uid.
  - apply I2. now rewrite Fi.
  - intros uid U. rewrite Gt.
    destruct (uid_under name (_topics st) uid) eqn:X; [reflexivity|].
    destruct (PyDict.get (_topics st) uid) as [t|] eqn:G; [|reflexivity].
    assert (Y : uid_under name (_topics st) uid = true); [|congruence].
    apply uid_under_spec. split; [exact U|].
    apply PyDictFacts.get_In in G. change uid with (fst (uid, t)). now apply in_map.
  - intros uid U. rewrite Gt.
    destruct (uid_under name (_topics st) uid) eqn:X; [|reflexivity].
    apply uid_under_spec in X as [X _]. congruence.
Qed.

(** In a reachable state the entries under one service have topics of
    their own: they differ in the path, and the path is what follows the
    device instance in the topic. *)
Lemma under_topics_distinct st name :
  invariant st -> valid_bus_name name = true ->
  NoDup (map snd (under_service name st)).
Proof.
  intros I V. apply NoDup_map_NoDup_ForallPairs.
  - intros [u1 t1] [u2 t2] H1 H2 E. simpl in E. subst t2.
    apply filter_In in H1 as [H1 U1], H2 as [H2 U2].
    unfold is_under in U1, U2. simpl in U1, U2.
    apply PyStrFacts.startswith_inv in U1 as [r1 E1], U2 as [r2 E2].
    rewrite PyStrFacts.append_assoc in E1, E2.
    destruct (inv_topics _ I _ _ H1)
      as [s1 [ty1 [di1 [p1 [V1 [T1 [S1 [_ [L1 [X1 Y1]]]]]]]]]].
    destruct (inv_topics _ I _ _ H2)
      as [s2 [ty2 [di2 [p2 [V2 [T2 [S2 [_ [L2 [X2 Y2]]]]]]]]]].
    rewrite X1 in E1. rewrite X2 in E2.
    apply PyStrFacts.uid_unique in E1 as [-> E1]; try assumption; [|reflexivity].
    apply PyStrFacts.uid_unique in E2 as [-> E2]; try assumption; [|reflexivity].
    rewrite T1 in T2. injection T2 as <-.
    rewrite Y1 in Y2. unfold make_topic in Y2.
    do 5 apply PyStrFacts.append_inj_l in Y2.
    apply PyStrFacts.uid_unique in Y2 as [_ Y2]; try assumption.
    congruence.
  - apply NoDup_filter. apply NoDup_map_inv with (f := fst).
    apply (inv_topics_wf _ I).
Qed.

(** C1, as the code has it: when the owner of a vendor-prefixed name is
    lost, in a reachable state where every topic under the service still has
    its value slot, the handler returns.  Every such topic that does not end
    in [/system/0/Serial] then has a tombstone pending, if the socket is up;
    every such uid and the value slot of its topic are gone; the owner handle
    is gone; no uid that begins with the name and ['/'] is left in the mirror
    table, and the other uids are as they were. *)
Theorem service_disappeared_teardown b name oldowner st :
  reachable st ->
  valid_bus_name name = true ->
  PyStr.startswith name "com.victronenergy." = true ->
  oldowner <> "" ->
  (forall uid topic, In (uid, topic) (under_service name st) ->
     In topic (PyDict.keys (_values st))) ->
  exists st',
    _dbus_name_owner_changed b name oldowner "" st = (st', Ok tt)
    /\ (forall uid topic,
          In (uid, topic) (under_service name st) ->
          _socket_watch st = true ->
          PyStr.endswith topic "/system/0/Serial" = false ->
          PyDict.get (queue st') topic = Some None)
    /\ (forall uid topic,
          In (uid, topic) (under_service name st) ->
          PyDict.get (_topics st') uid = None
          /\ PyDict.get (_values st') topic = None)
    /\ PyDict.get (_service_ids st') oldowner = None
    /\ (forall uid,
          PyStr.startswith uid (name ++ "/") = true ->
          PyDict.get (_topics st') uid = None)
    /\ (forall uid,
          PyStr.startswith uid (name ++ "/") = false ->
          PyDict.get (_topics st') uid = PyDict.get (_topics st) uid).
Proof.
  intros R V Pre Old Slots. apply reachable_invariant in R.
  apply teardown_on_dictionaries; try assumption.
  - apply (inv_topics_wf _ R).
  - apply (inv_values_wf _ R).
  - apply (inv_service_ids_wf _ R).
  - now apply under_topics_distinct.
Qed.

Lemma lacks_split_single sep s : PyStr.lacks sep s = true -> PyStr.split sep s = [s].
Proof.
  induction s as [|c s IH]; cbn [PyStr.lacks PyStr.split]; [reflexivity|].
  intros H. apply andb_true_iff in H as [N L]. apply negb_true_iff in N.
  rewrite N, (IH L). reflexivity.
Qed.

(** The registry is keyed by [service_type/device_instance]; the handler
    looks the bus name up in it, finds nothing, and the record stays. *)
Lemma service_record_survives b name oldowner st :
  reachable st ->
  valid_bus_name name = true ->
  _services (fst (_dbus_name_owner_changed b name oldowner "" st)) = _services st.
Proof.
  intros R V. apply reachable_invariant in R.
  set (P := fun s : state value => _services s = _services st).
  assert (U : forall t s, P s -> P (_unpublish t s)).
  { intros t s H. unfold P, _unpublish in *.
    destruct (negb (_socket_watch s)); [exact H|].
    now destruct (PyStr.endswith t "/system/0/Serial"). }
  assert (N : PyDict.has (_services st) name = false).
  { unfold PyDict.has. destruct (PyDict.get (_services st) name) as [s|] eqn:G;
      [|reflexivity].
    apply PyDictFacts.get_In in G. destruct (proj2 (inv_services _ R _ _ G)) as [d D].
    unfold valid_bus_name in V. rewrite (lacks_split_single _ _ V) in D. discriminate. }
  unfold _dbus_name_owner_changed.
  destruct (negb (PyStr.startswith name "com.victronenergy.")); [reflexivity|].
  simpl. destruct (negb (String.eqb oldowner "")); [|reflexivity].
  apply (preserves_bind P); [| |reflexivity].
  - apply preserves_for_each_read. intros item.
    destruct (PyStr.startswith (fst item) (name ++ "/")); [|apply preserves_ret].
    apply preserves_bind; [apply preserves_modify; apply U|]. intros _.
    apply preserves_bind.
    + intros s H. unfold del_topic. now destruct (PyDict.del (_topics s) (fst item)).
    + intros _ s H. unfold del_value. now destruct (PyDict.del (_values s) (snd item)).
  - intros _. apply preserves_bind; apply preserves_modify || intros _.
    + intros s H. unfold P in H. rewrite H, N. exact H.
    + apply preserves_modify. intros s H.
      now destruct (PyDict.has (_service_ids s) oldowner).
Qed.

End Teardown.

(** The hypotheses of [service_disappeared_teardown] hold for the system
    service after start-up: its two topics have their value slots. *)
Lemma service_disappeared_teardown_witness :
  valid_bus_name Demo.system_service = true
  /\ PyStr.startswith Demo.system_service "com.victronenergy." = true
  /\ ":1.1" <> ""
  /\ (forall uid topic,
        In (uid, topic) (under_service Demo.system_service Demo.connected) ->
        In topic (PyDict.keys (_values Demo.connected)))
  /\ exists st',
       _dbus_name_owner_changed Demo.listing_bus Demo.system_service ":1.1" ""
         Demo.connected
       = (st', Ok tt)
       /\ PyDict.get (_service_ids st') ":1.1" = None.
Proof.
  assert (W5 : forall uid topic,
             In (uid, topic) (under_service Demo.system_service Demo.connected) ->
             In topic (PyDict.keys (_values Demo.connected))).
  { intros uid topic. vm_compute. intros [E|[E|[]]]; injection E as _ <-; tauto. }
  assert (W6 : ":1.1" <> "") by discriminate.
  split; [reflexivity|]. split; [reflexivity|]. split; [exact W6|]. split; [exact W5|].
  destruct (service_disappeared_teardown Demo.listing_bus Demo.system_service ":1.1"
              Demo.connected connected_reachable eq_refl eq_refl W6 W5)
    as [st' [R [_ [_ [I _]]]]].
  exists st'. now split.
Defined.

(** C1 as the specification words it fails: the system service
    disappears with the socket up; its serial topic is in the mirror table,
    and the only tombstone enqueued is the one for the state of charge. *)
Lemma serial_gets_no_tombstone :
  _socket_watch Demo.connected = true
  /\ In ("com.victronenergy.system/Serial", Demo.serial_topic)
        (under_service Demo.system_service Demo.connected)
  /\ queue (fst (_dbus_name_owner_changed Demo.listing_bus Demo.system_service
                   ":1.1" "" Demo.connected))
     = [(Demo.soc_topic, None)]
  /\ PyDict.get
       (queue (fst (_dbus_name_owner_changed Demo.listing_bus Demo.system_service
                      ":1.1" "" Demo.connected)))
       Demo.serial_topic
     = None.
Proof.
  split; [vm_compute; reflexivity|]. split; [vm_compute; tauto|].
  split; vm_compute; reflexivity.
Qed.

(** And the record of the service is still in the registry afterwards. *)
Lemma system_record_still_registered :
  PyDict.get
    (_services (fst (_dbus_name_owner_changed Demo.listing_bus Demo.system_service
                       ":1.1" "" Demo.connected)))
    "system/0"
  = Some Demo.system_service.
Proof. vm_compute. reflexivity. Qed.

(** Why the value slots are asked for: two services of one type and one
    device instance share their topics; when the first is torn down the
    shared value slot goes with it, and the teardown of the second raises
    [KeyError] at [del self._values[topic]]. *)
Lemma twin_teardown_raises :
  reachable Demo.twins_started
  /\ snd (_dbus_name_owner_changed Demo.twin_bus Demo.twin_a ":1.3" ""
            Demo.twins_started)
     = Ok tt
  /\ snd (_dbus_name_owner_changed Demo.twin_bus Demo.twin_b ":1.4" ""
            (fst (_dbus_name_owner_changed Demo.twin_bus Demo.twin_a ":1.3" ""
                    Demo.twins_started)))
     = Raise (KeyError "N/abc123/battery/0/Soc").
Proof.
  split; [|split; vm_compute; reflexivity].
  apply (reachable_init Demo.twin_bus "abc123" None).
  - repeat constructor.
  - vm_compute. reflexivity.
Qed.

(** [service_record_survives] at the system service of the example. *)
Lemma service_record_survives_witness :
  valid_bus_name Demo.system_service = true
  /\ _services (fst (_dbus_name_owner_changed Demo.listing_bus Demo.system_service
                       ":1.1" "" Demo.connected))
     = _services Demo.connected.
Proof.
  split; [reflexivity|].
  apply (service_record_survives Demo.listing_bus Demo.system_service ":1.1"
           Demo.connected connected_reachable eq_refl).
Defined.

(* ================================================================== *)
(** ** Messages from the broker *)
(* ================================================================== *)

Section Messages.
Context {value : Type} `{PV : PyValue value}.
Implicit Types (st : state value) (v : value) (b : bus value).

(** *** Requests *)

(** The bare [except] of [_on_message] takes every exception of a
    request: a message outside the reserved connection topics returns. *)
Theorem request_never_raises b topic payload st :
  PyStr.startswith topic "$SYS/broker/connection/" = false ->
  snd (_on_message b topic payload st) = Ok tt.
Proof.
  intros N. unfold _on_message, try_except. rewrite N.
  destruct (request b topic payload st) as [st' [[]|e]]; reflexivity.
Qed.

(** A message that is no read or write request for this system (too few
    segments, another portal id, another action) leaves the object as it
    was, whatever the bus would answer. *)
Theorem request_rejected_unchanged b topic payload st :
  PyStr.startswith topic "$SYS/broker/connection/" = false ->
  (forall action path,
     PyStr.splitn "/" topic 2 = [action; _system_id st; path] ->
     action <> "W" /\ action <> "R") ->
  _on_message b topic payload st = (st, Ok tt).
Proof.
  intros N H. unfold _on_message, try_except, request. rewrite N.
  destruct (PyStr.splitn "/" topic 2) as [|a [|s [|p [|? ?]]]]; try reflexivity.
  unfold bind, gets.
  destruct (String.eqb s (_system_id st)) eqn:E; simpl; [|reflexivity].
  apply String.eqb_eq in E. subst s.
  destruct (H a p eq_refl) as [NW NR].
  apply String.eqb_neq in NW, NR. now rewrite NW, NR.
Qed.

(** A write succeeds exactly when the payload parses, the topic resolves
    to a service in the registry and the bus accepts the value at the
    path.  When it succeeds it has done nothing to the object but ask for
    one idle run of the queue; when it raises it has done nothing at
    all. *)
Theorem handle_write_effect b topic payload st :
  (forall v service device_instance path r,
     json_loads_value payload = Converted v ->
     _get_uid_by_topic topic st = (st, Ok (Some service, device_instance, path)) ->
     bus_set_value b service ("/" ++ path) (wrap_dbus_value v) = Reply r ->
     _handle_write b topic payload st = (idle_add st, Ok tt))
  /\ (forall st',
        _handle_write b topic payload st = (st', Ok tt) ->
        st' = idle_add st
        /\ exists v service device_instance path r,
             json_loads_value payload = Converted v
             /\ _get_uid_by_topic topic st
                = (st, Ok (Some service, device_instance, path))
             /\ bus_set_value b service ("/" ++ path) (wrap_dbus_value v) = Reply r)
  /\ (forall st' e,
        _handle_write b topic payload st = (st', Raise e) -> st' = st).
Proof.
  pose proof (get_uid_by_topic_state topic st) as S.
  split; [|split].
  - intros v service di path r J U B.
    unfold _handle_write, bind, lift, modify. rewrite J. cbn [outcome_of_converted].
    rewrite U. unfold _set_dbus_value. rewrite B. reflexivity.
  - intros st'. unfold _handle_write, bind, lift, raise, modify.
    destruct (json_loads_value payload) as [v|e] eqn:J; cbn [outcome_of_converted];
      [|discriminate].
    destruct (_get_uid_by_topic topic st) as [st1 [[[service di] path]|e]] eqn:U;
      cbn [fst] in S; subst st1; [|discriminate].
    destruct service as [service|]; [|discriminate].
    unfold _set_dbus_value.
    destruct (bus_set_value b service ("/" ++ path) (wrap_dbus_value v)) as [r|n] eqn:B;
      cbn [outcome_of_reply]; [|discriminate].
    intros [= <-]. split; [reflexivity|].
    exists v, service, di, path, r. now repeat split.
  - intros st' e. unfold _handle_write, bind, lift, raise, modify.
    destruct (json_loads_value payload) as [v|e0]; cbn [outcome_of_converted];
      [|now intros [= <- _]].
    destruct (_get_uid_by_topic topic st) as [st1 [[[service di] path]|e0]];
      cbn [fst] in S; subst st1; [|now intros [= <- _]].
    destruct service as [service|]; [|now intros [= <- _]].
    unfold _set_dbus_value.
    destruct (bus_set_value b service ("/" ++ path) (wrap_dbus_value v)) as [r|n];
      cbn [outcome_of_reply]; [discriminate|now intros [= <- _]].
Qed.

(** A read of a path that is not mirrored yet installs the entry under
    the topic that [_add_item] makes, stores the value read, and enqueues it
    only if that topic is the one the request named: a request that writes
    the device instance in another way than ['{}'.format] prints it adds the
    entry and publishes nothing. *)
Theorem read_new_path b topic st service service_type device_instance path raw :
  _get_uid_by_topic topic st = (st, Ok (Some service, device_instance, path)) ->
  bus_get_value b service ("/" ++ path) = Reply raw ->
  PyDict.get (_topics st) (service ++ normalize_path path) = None ->
  get_service_type service = Ok service_type ->
  is_blocked service_type (normalize_path path) = false ->
  exists st',
    _handle_read b topic st = (st', Ok tt)
    /\ PyDict.get (_topics st') (service ++ normalize_path path)
       = Some (make_topic (_system_id st) service_type (InstInt device_instance)
                 (normalize_path path))
    /\ PyDict.get (_values st')
         (make_topic (_system_id st) service_type (InstInt device_instance)
            (normalize_path path))
       = Some (unwrap_dbus_value raw)
    /\ (make_topic (_system_id st) service_type (InstInt device_instance)
          (normalize_path path) <> topic ->
        queue st' = queue st /\ idle_sources st' = idle_sources st)
    /\ (make_topic (_system_id st) service_type (InstInt device_instance)
          (normalize_path path) = topic ->
        _socket_watch st = true ->
        PyDict.get (queue st') topic
        = Some (Some (json_dumps_value (unwrap_dbus_value raw)))
        /\ idle_sources st' = S (idle_sources st)).
Proof.
  intros U B G T K.
  set (canon := make_topic (_system_id st) service_type (InstInt device_instance)
                  (normalize_path path)).
  set (st1 := set_values (PyDict.set (_values st) canon (unwrap_dbus_value raw))
                (set_topics (PyDict.set (_topics st) (service ++ normalize_path path)
                               canon) st)).
  assert (A : _add_item service (InstInt device_instance) path (unwrap_dbus_value raw) st
              = (st1, Ok (Some canon))).
  { unfold _add_item. now rewrite G, T, K. }
  unfold _handle_read. unfold bind at 1. rewrite U.
  unfold bind at 1, lift at 1, _get_dbus_value. rewrite B.
  unfold bind at 1. rewrite A.
  destruct (String.eqb canon topic) eqn:E.
  - apply String.eqb_eq in E.
    exists (idle_add (_publish topic (unwrap_dbus_value raw) st1)).
    split; [reflexivity|].
    assert (F : forall s, _topics (_publish topic (unwrap_dbus_value raw) s) = _topics s
                          /\ _values (_publish topic (unwrap_dbus_value raw) s) = _values s
                          /\ idle_sources (_publish topic (unwrap_dbus_value raw) s)
                             = idle_sources s).
    { intros s. unfold _publish. now destruct (negb (_socket_watch s)). }
    destruct (F st1) as [F1 [F2 F3]]. cbn [idle_add _topics _values queue idle_sources].
    rewrite F1, F2, F3. unfold st1. cbn [_topics _values set_values set_topics idle_sources].
    split; [apply PyDictFacts.get_set_same|].
    split; [apply PyDictFacts.get_set_same|].
    split; [intros NE; contradiction|].
    intros _ S. split; [|reflexivity].
    unfold _publish. cbn [_socket_watch set_values set_topics]. rewrite S. simpl.
    apply PyDictFacts.get_set_same.
  - apply String.eqb_neq in E. exists st1. split; [reflexivity|].
    unfold st1. cbn [_topics _values set_values set_topics queue idle_sources].
    split; [apply PyDictFacts.get_set_same|].
    split; [apply PyDictFacts.get_set_same|].
    split; [now split|]. intros EQ. contradiction.
Qed.

(** *** The connection to the cloud broker *)

(** One message on a reserved connection topic whose payload reads as
    the integer [n], with a registrator in place. *)
Lemma cloud_message_step b topic payload n st r :
  PyStr.startswith topic "$SYS/broker/connection/" = true ->
  py_int_str payload = Converted n ->
  _registrator st = Some r ->
  _on_message b topic payload st
  = (if (n =? 1)%Z then set_connected_to_cloud true st
     else if _connected_to_cloud st
          then registrator_register (set_connected_to_cloud false st)
          else st,
     Ok tt).
Proof.
  intros P I R. unfold _on_message. rewrite P.
  unfold bind at 1, lift at 1. rewrite I. simpl.
  destruct (n =? 1)%Z; [reflexivity|].
  unfold bind, gets, modify. simpl.
  destruct (_connected_to_cloud st); [|reflexivity]. now rewrite R.
Qed.

(** Over any run of connection reports, the registrator is called once
    for each change from connected to not connected, and never otherwise;
    the flag ends as the last report said; the tables, the queue and the
    publish log are not touched. *)
Theorem cloud_losses_registered b msgs ns st r :
  _registrator st = Some r ->
  Forall2 (fun m n =>
             PyStr.startswith (fst m) "$SYS/broker/connection/" = true
             /\ py_int_str (snd m) = Converted n) msgs ns ->
  register_calls (run_messages b msgs st)
  = register_calls st + losses (_connected_to_cloud st) ns
  /\ _connected_to_cloud (run_messages b msgs st)
     = cloud_after (_connected_to_cloud st) ns
  /\ _topics (run_messages b msgs st) = _topics st
  /\ _values (run_messages b msgs st) = _values st
  /\ queue (run_messages b msgs st) = queue st
  /\ published (run_messages b msgs st) = published st.
Proof.
  intros R F. revert st R.
  induction F as [|[topic payload] n msgs ns [P I] _ IH]; intros st R.
  - simpl. repeat split. lia.
  - unfold run_messages. cbn [fold_left fst snd].
    fold (run_messages b msgs
            (fst (_on_message b topic payload st))).
    simpl in P, I. rewrite (cloud_message_step b topic payload n st r P I R).
    cbn [fst losses cloud_after fold_left].
    destruct (n =? 1)%Z.
    + destruct (IH (set_connected_to_cloud true st) R) as [H1 [H2 [H3 [H4 [H5 H6]]]]].
      now repeat split.
    + destruct (_connected_to_cloud st) eqn:C.
      * destruct (IH (registrator_register (set_connected_to_cloud false st)) R)
          as [H1 [H2 [H3 [H4 [H5 H6]]]]].
        cbn in H1. repeat split; try assumption. rewrite H1. cbn. lia.
      * destruct (IH st R) as [H1 [H2 [H3 [H4 [H5 H6]]]]].
        rewrite C in H1, H2. now repeat split.
Qed.

(** Without a registrator the loss of the connection is an
    [AttributeError] out of the handler, after the flag has been cleared; a
    payload that is no integer is an error out of the handler as well (the
    reserved topics are handled outside the [try]). *)
Theorem cloud_message_errors b topic payload st :
  PyStr.startswith topic "$SYS/broker/connection/" = true ->
  (forall n, py_int_str payload = Converted n -> n <> 1%Z ->
     _connected_to_cloud st = true -> _registrator st = None ->
     _on_message b topic payload st
     = (set_connected_to_cloud false st, Raise AttributeError))
  /\ (forall e, py_int_str payload = Refused e ->
        _on_message b topic payload st = (st, Raise (exn_of_builtin e))).
Proof.
  intros P. split.
  - intros n I N C R. unfold _on_message. rewrite P.
    unfold bind at 1, lift at 1. rewrite I. simpl.
    apply Z.eqb_neq in N. rewrite N.
    unfold bind, gets, modify. simpl. now rewrite C, R.
  - intros e I. unfold _on_message. rewrite P.
    unfold bind, lift. now rewrite I.
Qed.

End Messages.

(** [request_never_raises] at a read request for a service nobody knows. *)
Lemma request_never_raises_witness :
  PyStr.startswith "R/abc123/nosuch/0/Soc" "$SYS/broker/connection/" = false
  /\ snd (_on_message Demo.listing_bus "R/abc123/nosuch/0/Soc" "" Demo.connected)
     = Ok tt.
Proof.
  split; [reflexivity|].
  apply (request_never_raises Demo.listing_bus "R/abc123/nosuch/0/Soc" ""
           Demo.connected).
  reflexivity.
Defined.

(** [request_rejected_unchanged] at a read request for another portal. *)
Lemma request_rejected_unchanged_witness :
  PyStr.startswith "R/ffffff/system/0/Serial" "$SYS/broker/connection/" = false
  /\ (forall action path,
        PyStr.splitn "/" "R/ffffff/system/0/Serial" 2
        = [action; _system_id Demo.connected; path] ->
        action <> "W" /\ action <> "R")
  /\ _on_message Demo.listing_bus "R/ffffff/system/0/Serial" "" Demo.connected
     = (Demo.connected, Ok tt).
Proof.
  assert (H : forall action path,
             PyStr.splitn "/" "R/ffffff/system/0/Serial" 2
             = [action; _system_id Demo.connected; path] ->
             action <> "W" /\ action <> "R").
  { intros action path. vm_compute. intros E. discriminate E. }
  split; [reflexivity|]. split; [exact H|].
  apply (request_rejected_unchanged Demo.listing_bus "R/ffffff/system/0/Serial" ""
           Demo.connected eq_refl H).
Defined.

(** [read_new_path] at a read of a path of the system service that the
    start-up listing did not name. *)
Lemma read_new_path_witness :
  _get_uid_by_topic "N/abc123/system/0/Ac/Power" Demo.connected
  = (Demo.connected, Ok (Some Demo.system_service, 0%Z, "Ac/Power"))
  /\ bus_get_value Demo.listing_bus Demo.system_service ("/" ++ "Ac/Power")
     = Reply (Demo.VInt 7)
  /\ PyDict.get (_topics Demo.connected)
       (Demo.system_service ++ normalize_path "Ac/Power")
     = None
  /\ get_service_type Demo.system_service = Ok "system"
  /\ is_blocked "system" (normalize_path "Ac/Power") = false
  /\ exists st',
       _handle_read Demo.listing_bus "N/abc123/system/0/Ac/Power" Demo.connected
       = (st', Ok tt)
       /\ PyDict.get (_topics st') (Demo.system_service ++ normalize_path "Ac/Power")
          = Some (make_topic (_system_id Demo.connected) "system" (InstInt 0)
                    (normalize_path "Ac/Power")).
Proof.
  split; [vm_compute; reflexivity|]. split; [vm_compute; reflexivity|].
  split; [vm_compute; reflexivity|]. split; [vm_compute; reflexivity|].
  split; [vm_compute; reflexivity|].
  destruct (read_new_path Demo.listing_bus "N/abc123/system/0/Ac/Power"
              Demo.connected Demo.system_service "system" 0%Z "Ac/Power"
              (Demo.VInt 7))
    as [st' [R [T _]]]; try (vm_compute; reflexivity).
  exists st'. now split.
Defined.

Lemma cloud_reports_ok :
  Forall2 (fun m n =>
             PyStr.startswith (fst m) "$SYS/broker/connection/" = true
             /\ py_int_str (snd m) = Converted n)
    [(Demo.state_topic, "1"); (Demo.state_topic, "0"); (Demo.state_topic, "1")]
    [1%Z; 0%Z; 1%Z].
Proof. repeat constructor. Qed.

(** [cloud_losses_registered] at the reports [1], [0], [1]: one call of
    the registrator beside the one of start-up, and the flag is set. *)
Lemma cloud_losses_registered_witness :
  _registrator Demo.registered = Some (Some "bridge1")
  /\ register_calls
       (run_messages Demo.listing_bus
          [(Demo.state_topic, "1"); (Demo.state_topic, "0"); (Demo.state_topic, "1")]
          Demo.registered)
     = register_calls Demo.registered + losses (_connected_to_cloud Demo.registered)
                                          [1%Z; 0%Z; 1%Z]
  /\ losses (_connected_to_cloud Demo.registered) [1%Z; 0%Z; 1%Z] = 1.
Proof.
  split; [vm_compute; reflexivity|]. split; [|vm_compute; reflexivity].
  apply (cloud_losses_registered Demo.listing_bus
           [(Demo.state_topic, "1"); (Demo.state_topic, "0"); (Demo.state_topic, "1")]
           [1%Z; 0%Z; 1%Z] Demo.registered (Some "bridge1"));
    [vm_compute; reflexivity|exact cloud_reports_ok].
Defined.

(** [cloud_message_errors] at a report that is no number. *)
Lemma cloud_message_errors_witness :
  PyStr.startswith Demo.state_topic "$SYS/broker/connection/" = true
  /\ _on_message Demo.listing_bus Demo.state_topic "up" Demo.connected
     = (Demo.connected, Raise ValueError).
Proof.
  split; [reflexivity|].
  apply (proj2 (cloud_message_errors Demo.listing_bus Demo.state_topic "up"
                  Demo.connected eq_refl) ValueErr).
  reflexivity.
Defined.

(** [handle_write_effect] at a write of [5] to the state of charge of
    the system service, which the bus accepts. *)
Lemma handle_write_effect_witness :
  json_loads_value ("{" ++ Demo.quote ++ "value" ++ Demo.quote ++ ": 5}")
  = Converted (Demo.VInt 5)
  /\ _get_uid_by_topic "N/abc123/system/0/Dc/Battery/Soc" Demo.connected
     = (Demo.connected, Ok (Some Demo.system_service, 0%Z, "Dc/Battery/Soc"))
  /\ bus_set_value Demo.listing_bus Demo.system_service ("/" ++ "Dc/Battery/Soc")
       (wrap_dbus_value (Demo.VInt 5))
     = Reply (Demo.VInt 5)
  /\ _handle_write Demo.listing_bus "N/abc123/system/0/Dc/Battery/Soc"
       ("{" ++ Demo.quote ++ "value" ++ Demo.quote ++ ": 5}") Demo.connected
     = (idle_add Demo.connected, Ok tt).
Proof.
  split; [vm_compute; reflexivity|]. split; [vm_compute; reflexivity|].
  split; [vm_compute; reflexivity|].
  apply (proj1 (handle_write_effect Demo.listing_bus
                  "N/abc123/system/0/Dc/Battery/Soc"
                  ("{" ++ Demo.quote ++ "value" ++ Demo.quote ++ ": 5}")
                  Demo.connected)
           (Demo.VInt 5) Demo.system_service 0%Z "Dc/Battery/Soc" (Demo.VInt 5));
    vm_compute; reflexivity.
Defined.

(* ================================================================== *)
(** ** Draining, the timer, and publishing everything *)
(* ================================================================== *)

Section Draining.
Context {value : Type} `{PV : PyValue value}.
Implicit Types (st : state value) (v : value) (b : bus value).

Lemma drain_frame items st :
  _topics (fst (drain items st)) = _topics st
  /\ _values (fst (drain items st)) = _values st
  /\ _services (fst (drain items st)) = _services st
  /\ _service_ids (fst (drain items st)) = _service_ids st
  /\ _last_queue_run (fst (drain items st)) = _last_queue_run st
  /\ idle_sources (fst (drain items st)) = idle_sources st
  /\ _socket_watch (fst (drain items st)) = _socket_watch st.
Proof.
  revert st. induction items as [|n IH]; intros st; simpl; [now repeat split|].
  destruct (queue st) as [|[t p] rest]; simpl; [now repeat split|].
  apply (IH (client_publish t p (set_queue rest st))).
Qed.

(** One call of [_service_queue] sends the first [items] pending entries
    to the broker, oldest first, and leaves the rest pending in their order;
    it answers [True] exactly when it found [items] entries, also when those
    were the last ones; it notes the time and leaves the tables alone. *)
Theorem service_queue_batch now items st :
  published (fst (_service_queue now items st))
  = (published st ++ firstn items (queue st))%list
  /\ queue (fst (_service_queue now items st)) = skipn items (queue st)
  /\ snd (_service_queue now items st) = (items <=? length (queue st))%nat
  /\ _last_queue_run (fst (_service_queue now items st)) = now
  /\ _topics (fst (_service_queue now items st)) = _topics st
  /\ _values (fst (_service_queue now items st)) = _values st.
Proof.
  split; [apply service_queue_published|]. split; [apply service_queue_queue|].
  unfold _service_queue.
  destruct (drain_frame items (set_last_queue_run now st)) as [T [V [_ [_ [L _]]]]].
  split; [apply (drain_result items (set_last_queue_run now st))|].
  now repeat split.
Qed.

(** The timer does nothing while the queue is empty or the last run of
    the queue is no more than 1.5 s back. *)
Theorem timer_rate_limited now now' st :
  queue st = [] \/ (now - _last_queue_run st <= 1500)%Z ->
  _timer_service_queue now now' st = st.
Proof.
  intros H. unfold _timer_service_queue.
  destruct H as [H|H].
  - now rewrite H.
  - apply Z.ltb_ge in H. rewrite H. now rewrite andb_false_r.
Qed.

(** Otherwise the timer sends up to five entries, oldest first, and asks
    for an idle run exactly when it found five, also when no sixth one is
    left. *)
Theorem timer_drains_five now now' st :
  queue st <> [] ->
  (1500 < now - _last_queue_run st)%Z ->
  published (_timer_service_queue now now' st)
  = (published st ++ firstn 5 (queue st))%list
  /\ queue (_timer_service_queue now now' st) = skipn 5 (queue st)
  /\ _last_queue_run (_timer_service_queue now now' st) = now'
  /\ idle_sources (_timer_service_queue now now' st)
     = idle_sources st + (if (5 <=? length (queue st))%nat then 1 else 0).
Proof.
  intros Q T. unfold _timer_service_queue.
  apply Z.ltb_lt in T. rewrite T.
  replace (0 <? length (queue st))%nat with true
    by (destruct (queue st); [contradiction|reflexivity]).
  cbn [andb].
  pose proof (service_queue_published now' 5 st) as P.
  pose proof (service_queue_queue now' 5 st) as R.
  assert (S : snd (_service_queue now' 5 st) = (5 <=? length (queue st))%nat).
  { unfold _service_queue. apply (drain_result 5 (set_last_queue_run now' st)). }
  assert (L : _last_queue_run (fst (_service_queue now' 5 st)) = now').
  { unfold _service_queue.
    now destruct (drain_frame 5 (set_last_queue_run now' st)) as [_ [_ [_ [_ [L _]]]]]. }
  assert (I : idle_sources (fst (_service_queue now' 5 st)) = idle_sources st).
  { unfold _service_queue.
    now destruct (drain_frame 5 (set_last_queue_run now' st)) as [_ [_ [_ [_ [_ [I _]]]]]]. }
  destruct (_service_queue now' 5 st) as [st' r]. cbn [fst snd] in *.
  rewrite <- S. destruct r; cbn; repeat split; try assumption; lia.
Qed.

End Draining.

(** *** [sorted] *)

Lemma insert_sorted_perm k l : Permutation (PyStr.insert_sorted k l) (k :: l).
Proof.
  induction l as [|h t IH]; simpl; [reflexivity|].
  destruct (String.leb k h); [reflexivity|].
  rewrite IH. apply perm_swap.
Qed.

Lemma sorted_perm l : Permutation (PyStr.sorted l) l.
Proof.
  induction l as [|h t IH]; simpl; [reflexivity|].
  rewrite insert_sorted_perm. now constructor.
Qed.

Lemma insert_sorted_hd k h t :
  String.leb h k = true ->
  HdRel (fun a c => String.leb a c = true) h t ->
  HdRel (fun a c => String.leb a c = true) h (PyStr.insert_sorted k t).
Proof.
  intros H R. destruct t as [|x t]; simpl; [now constructor|].
  destruct (String.leb k x); constructor; [exact H|now inversion R].
Qed.

Lemma insert_sorted_ordered k l :
  Sorted (fun a c => String.leb a c = true) l ->
  Sorted (fun a c => String.leb a c = true) (PyStr.insert_sorted k l).
Proof.
  induction 1 as [|h t S IH R]; simpl; [repeat constructor|].
  destruct (String.leb k h) eqn:E.
  - constructor; [now constructor|now constructor].
  - constructor; [exact IH|]. apply insert_sorted_hd; [|exact R].
    destruct (String.leb_total h k) as [H|H]; [exact H|congruence].
Qed.

Lemma sorted_ordered l : Sorted (fun a c => String.leb a c = true) (PyStr.sorted l).
Proof.
  induction l as [|h t IH]; simpl; [constructor|]. now apply insert_sorted_ordered.
Qed.

Section PublishAll.
Context {value : Type} `{PV : PyValue value}.
Implicit Types (st : state value) (v : value) (b : bus value).

(** With the socket down [_publish_all] does nothing. *)
Lemma publish_all_socket_down st :
  _socket_watch st = false -> _publish_all st = (st, Ok tt).
Proof.
  intros S. unfold _publish_all.
  assert (K : forall t, In t (PyStr.sorted (PyDict.keys (_values st))) ->
                        In t (PyDict.keys (_values st))).
  { intros t H. exact (proj1 (In_sorted t _) H). }
  revert K. generalize (PyStr.sorted (PyDict.keys (_values st))).
  intros l. induction l as [|x l IH]; intros K; [reflexivity|].
  destruct (PyDictFacts.In_keys_get (_values st) x) as [vx G]; [apply K; now left|].
  cbn [for_each]. unfold bind at 1. unfold bind at 1. unfold values_item at 1.
  rewrite G. unfold modify at 1, _publish. rewrite S. cbn [negb].
  apply IH. intros t H. apply K. now right.
Qed.

(** The keys of the queue after the loop of [_publish_all] over topics
    that occur once: what was pending stays where it was, what was not
    follows in the order of the loop. *)
Lemma publish_all_loop_keys (l : list string) st st' :
  _socket_watch st = true ->
  NoDup l ->
  for_each (fun topic => bind (values_item topic)
                           (fun v => modify (_publish topic v))) l st
  = (st', Ok tt) ->
  PyDict.keys (queue st')
  = (PyDict.keys (queue st)
     ++ filter (fun t => negb (PyDict.has (queue st) t)) l)%list.
Proof.
  revert st. induction l as [|x l IH]; intros st S N R.
  - injection R as <-. simpl. now rewrite app_nil_r.
  - cbn [for_each] in R. unfold bind at 1 in R. unfold bind at 1 in R.
    unfold values_item at 1 in R.
    destruct (PyDict.get (_values st) x) as [vx|]; [|discriminate].
    unfold modify at 1 in R.
    assert (E1 : _publish x vx st = enqueue x (Some (json_dumps_value vx)) st)
      by (unfold _publish; now rewrite S).
    rewrite E1 in R. inversion N as [|? ? Nx Nl]; subst.
    rewrite (IH (enqueue x (Some (json_dumps_value vx)) st) S Nl R).
    cbn [filter enqueue queue set_queue].
    destruct (PyDict.has (queue st) x) eqn:H; cbn [negb].
    + apply PyDictFacts.has_true in H.
      rewrite (PyDictFacts.keys_set_present _ _ _ H). f_equal.
      apply filter_ext_in. intros t Ht. f_equal. unfold PyDict.has.
      destruct (string_dec t x) as [->|D]; [contradiction|].
      now rewrite PyDictFacts.get_set_other by congruence.
    + assert (A : ~ In x (PyDict.keys (queue st))).
      { intros A. apply PyDictFacts.has_true in A. congruence. }
      rewrite (PyDictFacts.set_absent _ _ _ A). unfold PyDict.keys.
      rewrite map_app. cbn [map fst]. rewrite <- app_assoc. cbn [app]. do 2 f_equal.
      apply filter_ext_in. intros t Ht. f_equal. unfold PyDict.has.
      destruct (string_dec t x) as [->|D]; [contradiction|].
      fold (PyDict.keys (queue st)).
      rewrite <- (PyDictFacts.set_absent _ _ (Some (json_dumps_value vx)) A).
      now rewrite PyDictFacts.get_set_other by congruence.
Qed.

(** [_on_connect] with the socket up: the two request subscriptions are
    made, and the one for the connection state if the registrator has a
    client id; the stored values are untouched; every topic with a stored
    value is pending with that value; the topics that were not pending
    before are queued behind those that were, in the order of [sorted]; on an
    empty queue that is every stored topic once, in ascending order. *)
Theorem on_connect_publishes_all st :
  _socket_watch st = true ->
  PyDict.wf (_values st) ->
  exists st',
    _on_connect st = (st', Ok tt)
    /\ subscribed st'
       = (subscribed st
          ++ [("R/" ++ _system_id st ++ "/#")%string;
              ("W/" ++ _system_id st ++ "/#")%string]
          ++ match _registrator st with
             | Some (Some client_id) =>
                 [("$SYS/broker/connection/" ++ client_id ++ "/state")%string]
             | _ => []
             end)%list
    /\ _values st' = _values st
    /\ (forall t v, PyDict.get (_values st) t = Some v ->
          PyDict.get (queue st') t = Some (Some (json_dumps_value v)))
    /\ PyDict.keys (queue st')
       = (PyDict.keys (queue st)
          ++ filter (fun t => negb (PyDict.has (queue st) t))
               (PyStr.sorted (PyDict.keys (_values st))))%list
    /\ (queue st = [] ->
        Sorted (fun a c => String.leb a c = true) (PyDict.keys (queue st'))
        /\ Permutation (PyDict.keys (queue st')) (PyDict.keys (_values st))).
Proof.
  intros S W.
  set (subs := fun s : state value =>
    match _registrator s with
    | Some (Some client_id) =>
        client_subscribe ("$SYS/broker/connection/" ++ client_id ++ "/state")
          (client_subscribe ("W/" ++ _system_id s ++ "/#")
             (client_subscribe ("R/" ++ _system_id s ++ "/#") s))
    | _ => client_subscribe ("W/" ++ _system_id s ++ "/#")
             (client_subscribe ("R/" ++ _system_id s ++ "/#") s)
    end).
  assert (E : _on_connect st = _publish_all (subs st)).
  { unfold _on_connect, subs, bind, gets, modify, ret. cbn.
    destruct (_registrator st) as [[c|]|]; reflexivity. }
  assert (F : _socket_watch (subs st) = true /\ _values (subs st) = _values st
              /\ queue (subs st) = queue st).
  { unfold subs. destruct (_registrator st) as [[c|]|]; now repeat split. }
  destruct F as [F1 [F2 F3]].
  destruct (publish_all_spec (subs st) F1) as [st' [R [V Q]]].
  exists st'. rewrite E. split; [exact R|].
  assert (Sub : subscribed st' = subscribed (subs st)).
  { clear - R. unfold _publish_all in R. revert R.
    generalize (PyStr.sorted (PyDict.keys (_values (subs st)))) as l.
    generalize (subs st) as s. intros s l. revert s.
    induction l as [|x l IH]; intros s R.
    - now injection R as <-.
    - cbn [for_each] in R. unfold bind at 1 in R. unfold bind at 1 in R.
      unfold values_item at 1 in R.
      destruct (PyDict.get (_values s) x) as [vx|]; [|discriminate].
      unfold modify at 1 in R. rewrite (IH _ R).
      unfold _publish. now destruct (negb (_socket_watch s)). }
  split.
  { rewrite Sub. unfold subs.
    destruct (_registrator st) as [[c|]|]; cbn; rewrite <- ?app_assoc; reflexivity. }
  split; [now rewrite V|].
  split; [intros t v G; apply Q; now rewrite F2|].
  assert (K : PyDict.keys (queue st')
              = (PyDict.keys (queue st)
                 ++ filter (fun t => negb (PyDict.has (queue st) t))
                      (PyStr.sorted (PyDict.keys (_values st))))%list).
  { rewrite <- F3, <- F2. apply publish_all_loop_keys; [exact F1| |exact R].
    apply (Permutation_NoDup (l := PyDict.keys (_values (subs st)))).
    - symmetry. apply sorted_perm.
    - now rewrite F2. }
  split; [exact K|]. intros Empty. rewrite K, Empty. cbn [PyDict.keys map app].
  rewrite (forallb_filter_id (fun t => negb (PyDict.has (@nil (string * option string)) t)))
    by (apply forallb_forall; reflexivity).
  split; [apply sorted_ordered|apply sorted_perm].
Qed.

(** With the socket down it only subscribes. *)
Lemma on_connect_socket_down st :
  _socket_watch st = false ->
  snd (_on_connect st) = Ok tt /\ queue (fst (_on_connect st)) = queue st.
Proof.
  intros S. unfold _on_connect, bind, gets, modify, ret. cbv beta iota.
  cbn [_registrator client_subscribe].
  destruct (_registrator st) as [[c|]|]; cbv beta iota;
    rewrite publish_all_socket_down by exact S; now split.
Qed.

(** *** [_unpublish_all] *)

Lemma unpublish_all_loop (l : list string) st :
  _socket_watch st = true ->
  exists st',
    for_each (fun topic => modify (_unpublish topic)) l st = (st', Ok tt)
    /\ _topics st' = _topics st /\ _values st' = _values st
    /\ forall t,
         PyDict.get (queue st') t
         = if existsb (String.eqb t) l && negb (PyStr.endswith t "/system/0/Serial")
           then Some None else PyDict.get (queue st) t.
Proof.
  revert st. induction l as [|x l IH]; intros st S.
  - exists st. now repeat split.
  - assert (F : _socket_watch (_unpublish x st) = true
                /\ _topics (_unpublish x st) = _topics st
                /\ _values (_unpublish x st) = _values st).
    { unfold _unpublish. rewrite S. cbn [negb].
      now destruct (PyStr.endswith x "/system/0/Serial"). }
    destruct F as [F1 [F2 F3]].
    destruct (IH (_unpublish x st) F1) as [st' [R [T [V Q]]]].
    exists st'. split; [exact R|]. split; [congruence|]. split; [congruence|].
    intros t. rewrite Q. cbn [existsb].
    assert (U : PyDict.get (queue (_unpublish x st)) t
                = if String.eqb t x && negb (PyStr.endswith t "/system/0/Serial")
                  then Some None else PyDict.get (queue st) t).
    { unfold _unpublish. rewrite S. cbn [negb].
      destruct (String.eqb t x) eqn:E.
      - apply String.eqb_eq in E. subst t.
        destruct (PyStr.endswith x "/system/0/Serial"); [reflexivity|].
        apply PyDictFacts.get_set_same.
      - apply String.eqb_neq in E.
        destruct (PyStr.endswith x "/system/0/Serial"); [reflexivity|].
        cbn. apply PyDictFacts.get_set_other. congruence. }
    rewrite U.
    destruct (String.eqb t x); destruct (existsb (String.eqb t) l);
      destruct (PyStr.endswith t "/system/0/Serial"); reflexivity.
Qed.

(** [_unpublish_all] under Python 3 raises [AttributeError] at
    [iterkeys] and does nothing.  Where [iterkeys] exists, and with the socket
    up, it leaves a tombstone pending for every topic with a stored value
    except those that end in [/system/0/Serial], and changes no other entry
    of the queue and no table. *)
Theorem unpublish_all_effect st :
  _unpublish_all false st = (st, Raise AttributeError)
  /\ (_socket_watch st = true ->
      exists st',
        _unpublish_all true st = (st', Ok tt)
        /\ _topics st' = _topics st /\ _values st' = _values st
        /\ forall t,
             PyDict.get (queue st') t
             = if PyDict.has (_values st) t
                  && negb (PyStr.endswith t "/system/0/Serial")
               then Some None else PyDict.get (queue st) t).
Proof.
  split; [reflexivity|]. intros S. unfold _unpublish_all.
  destruct (unpublish_all_loop (PyDict.keys (_values st)) st S) as [st' [R [T [V Q]]]].
  exists st'. split; [exact R|]. split; [exact T|]. split; [exact V|].
  intros t. rewrite Q.
  assert (X : existsb (String.eqb t) (PyDict.keys (_values st))
              = PyDict.has (_values st) t).
  { destruct (PyDict.has (_values st) t) eqn:H.
    - apply PyDictFacts.has_true in H. apply existsb_exists.
      exists t. split; [exact H|apply String.eqb_refl].
    - destruct (existsb (String.eqb t) (PyDict.keys (_values st))) eqn:X;
        [|reflexivity].
      apply existsb_exists in X as [y [Hy E]]. apply String.eqb_eq in E. subst y.
      apply PyDictFacts.has_true in Hy. congruence. }
  now rewrite X.
Qed.

End PublishAll.

(** [timer_rate_limited] one second after the last run, with three
    topics pending. *)
Lemma timer_rate_limited_witness :
  (queue Demo.pending = [] \/ (1000 - _last_queue_run Demo.pending <= 1500)%Z)
  /\ _timer_service_queue 1000 1001 Demo.pending = Demo.pending.
Proof.
  assert (H : queue Demo.pending = []
              \/ (1000 - _last_queue_run Demo.pending <= 1500)%Z).
  { right. vm_compute. discriminate. }
  split; [exact H|].
  apply (timer_rate_limited 1000 1001 Demo.pending H).
Defined.

(** [timer_drains_five] two seconds after the last run, with three
    topics pending: all three go out and no idle run is asked for. *)
Lemma timer_drains_five_witness :
  queue Demo.pending <> []
  /\ (1500 < 2000 - _last_queue_run Demo.pending)%Z
  /\ queue (_timer_service_queue 2000 2001 Demo.pending) = skipn 5 (queue Demo.pending)
  /\ skipn 5 (queue Demo.pending) = [].
Proof.
  assert (Q : queue Demo.pending <> []) by (vm_compute; discriminate).
  assert (T : (1500 < 2000 - _last_queue_run Demo.pending)%Z) by (vm_compute; reflexivity).
  split; [exact Q|]. split; [exact T|]. split; [|vm_compute; reflexivity].
  apply (timer_drains_five 2000 2001 Demo.pending Q T).
Defined.

(** [on_connect_publishes_all] after start-up with the socket up. *)
Lemma on_connect_publishes_all_witness :
  _socket_watch Demo.connected = true
  /\ PyDict.wf (_values Demo.connected)
  /\ exists st',
       _on_connect Demo.connected = (st', Ok tt)
       /\ PyDict.keys (queue st')
          = [Demo.soc_topic; Demo.serial_topic; Demo.mode_topic].
Proof.
  assert (W : PyDict.wf (_values Demo.connected)).
  { unfold PyDict.wf. vm_compute. repeat constructor; simpl; intuition discriminate. }
  split; [vm_compute; reflexivity|]. split; [exact W|].
  destruct (on_connect_publishes_all Demo.connected eq_refl W)
    as [st' [R [_ [_ [_ [K _]]]]]].
  exists st'. split; [exact R|]. rewrite K. vm_compute. reflexivity.
Defined.

(* ================================================================== *)
(** ** Service names and topics *)
(* ================================================================== *)

Lemma split_lacks sep t rest :
  PyStr.lacks sep t = true ->
  PyStr.split sep (t ++ String sep rest) = t :: PyStr.split sep rest.
Proof.
  induction t as [|c t IH]; cbn [String.append PyStr.split PyStr.lacks]; intros L.
  - now rewrite Ascii.eqb_refl.
  - apply andb_true_iff in L as [N L]. apply negb_true_iff in N.
    rewrite N, (IH L). reflexivity.
Qed.

Lemma splitn_lacks sep t rest n :
  PyStr.lacks sep t = true ->
  PyStr.splitn sep (t ++ String sep rest) (S n) = t :: PyStr.splitn sep rest n.
Proof.
  induction t as [|c t IH]; cbn [String.append PyStr.splitn PyStr.lacks]; intros L.
  - now rewrite Ascii.eqb_refl.
  - apply andb_true_iff in L as [N L]. apply negb_true_iff in N.
    rewrite N, (IH L). reflexivity.
Qed.

Lemma splitn_zero sep s : PyStr.splitn sep s 0 = [s].
Proof. now destruct s. Qed.

Lemma splitn_nonempty sep s n : PyStr.splitn sep s n <> [].
Proof.
  revert n. induction s as [|c s IH]; intros n; cbn [PyStr.splitn]; [discriminate|].
  destruct n; [discriminate|]. destruct (Ascii.eqb c sep); [discriminate|].
  specialize (IH (S n)).
  destruct (PyStr.splitn sep s (S n)); [contradiction|discriminate].
Qed.

Lemma length_cons_first c l : l <> [] -> length (PyStr.cons_first c l) = length l.
Proof. destruct l; [contradiction|reflexivity]. Qed.

(** A bounded split gives the pieces of the full split, up to the bound. *)
Lemma length_splitn sep s n :
  length (PyStr.splitn sep s n) = Nat.min (S n) (length (PyStr.split sep s)).
Proof.
  revert n. induction s as [|c s IH]; intros n; cbn [PyStr.splitn PyStr.split].
  - simpl. lia.
  - assert (P : 1 <= length (PyStr.split sep s)).
    { pose proof (split_nonempty sep s). destruct (PyStr.split sep s); [contradiction|simpl; lia]. }
    destruct n as [|m].
    + destruct (Ascii.eqb c sep).
      * simpl. lia.
      * rewrite length_cons_first by apply split_nonempty. simpl length at 1. lia.
    + destruct (Ascii.eqb c sep).
      * cbn [length]. rewrite IH. lia.
      * rewrite !length_cons_first; [apply IH|apply split_nonempty|apply splitn_nonempty].
Qed.

(** Every string is a first piece without the separator, followed by
    nothing or by the separator and a rest. *)
Lemma split_head sep s :
  exists t r,
    s = t ++ r /\ PyStr.lacks sep t = true
    /\ (r = "" \/ exists r', r = String sep r')
    /\ exists rest, PyStr.split sep s = t :: rest.
Proof.
  induction s as [|c s (t & r & -> & L & R & rest & E)].
  - exists "", "". repeat split; [now left|now exists []].
  - destruct (Ascii.eqb c sep) eqn:C.
    + apply Ascii.eqb_eq in C as ->.
      exists "", (String sep (t ++ r)). repeat split; [right; eauto|].
      cbn [PyStr.split]. rewrite Ascii.eqb_refl. eauto.
    + exists (String c t), r. repeat split.
      * cbn [PyStr.lacks]. now rewrite C, L.
      * exact R.
      * cbn [PyStr.split]. rewrite C, E. simpl. eauto.
Qed.

Lemma split_service_prefix x :
  PyStr.split "." (ServicePrefix ++ x) = "com" :: "victronenergy" :: PyStr.split "." x.
Proof.
  change (ServicePrefix ++ x) with ("com" ++ String "." ("victronenergy" ++ String "." x)).
  rewrite !split_lacks by reflexivity. reflexivity.
Qed.

(** The three name functions on every bus name.  A name outside the
    vendor prefix is refused by each with the same exception.  A name
    inside it is the prefix, a service type [t] free of dots, and either
    nothing or a dot and a rest: the type is [t], the base name is the
    prefix with [t], the short name is [t], a slash and the device
    instance.  The third piece of the split always exists, so no
    [IndexError] is raised. *)
Theorem service_names_cases (service : string) :
  (PyStr.startswith service ServicePrefix = false
   /\ get_service_type service = Raise (Exception "No victron service")
   /\ get_service_base_name service = Raise (Exception "No victron service")
   /\ forall device_instance,
        get_short_service_name service device_instance
        = Raise (Exception "No victron service"))
  \/ (exists t r,
        service = ServicePrefix ++ t ++ r
        /\ PyStr.lacks "." t = true
        /\ (r = "" \/ PyStr.startswith r "." = true)
        /\ get_service_type service = Ok t
        /\ get_service_base_name service = Ok (ServicePrefix ++ t)
        /\ forall device_instance,
             get_short_service_name service device_instance
             = Ok (t ++ "/" ++ format_instance device_instance)).
Proof.
  destruct (PyStr.startswith service ServicePrefix) eqn:P.
  - right. apply PyStrFacts.startswith_inv in P as [x ->].
    destruct (split_head "." x) as (t & r & -> & L & R & rest & E).
    exists t, r.
    assert (T : get_service_type (ServicePrefix ++ t ++ r) = Ok t).
    { unfold get_service_type.
      rewrite PyStrFacts.startswith_append. cbn [negb].
      rewrite split_service_prefix, E. reflexivity. }
    repeat split; try assumption.
    + destruct R as [->|[r' ->]]; [now left|right; reflexivity].
    + unfold get_service_base_name.
      rewrite PyStrFacts.startswith_append. cbn [negb].
      rewrite split_service_prefix, E. reflexivity.
    + intros di. unfold get_short_service_name. now rewrite T.
  - left. unfold get_short_service_name, get_service_type, get_service_base_name.
    rewrite P. repeat split.
Qed.

Lemma lacks_cons_first c d l :
  PyStr.lacks c (String d "") = true ->
  Forall (fun piece => PyStr.lacks c piece = true) l ->
  Forall (fun piece => PyStr.lacks c piece = true) (PyStr.cons_first d l).
Proof.
  intros D H. cbn [PyStr.lacks] in D. rewrite andb_true_r in D.
  destruct H as [|h t Hh Ht]; cbn [PyStr.cons_first].
  - repeat constructor. cbn [PyStr.lacks]. now rewrite D.
  - constructor; [|exact Ht]. cbn [PyStr.lacks]. now rewrite D, Hh.
Qed.

(** The pieces of a string without [c] are without [c]. *)
Lemma split_keeps_lacks c sep s :
  PyStr.lacks c s = true ->
  Forall (fun piece => PyStr.lacks c piece = true) (PyStr.split sep s).
Proof.
  induction s as [|d s IH]; cbn [PyStr.lacks PyStr.split]; intros L.
  - now repeat constructor.
  - apply andb_true_iff in L as [D L].
    destruct (Ascii.eqb d sep).
    + constructor; [reflexivity|now apply IH].
    + apply lacks_cons_first; [|now apply IH].
      cbn [PyStr.lacks]. now rewrite D.
Qed.

(** The type of a bus name holds no ['/'] when the name holds none. *)
Lemma service_type_lacks_slash service t :
  valid_bus_name service = true -> get_service_type service = Ok t ->
  PyStr.lacks "/" t = true.
Proof.
  intros V T. unfold get_service_type in T.
  destruct (negb (PyStr.startswith service ServicePrefix)); [discriminate|].
  destruct (nth_error (PyStr.split "." service) 2) as [p|] eqn:N; [|discriminate].
  injection T as <-. apply nth_error_In in N.
  now apply (proj1 (Forall_forall _ _) (split_keeps_lacks "/" "." service V)).
Qed.

Section Topics.
Context {value : Type} `{PV : PyValue value}.
Implicit Types (st : state value).

Lemma splitn_topic system_id service_type d path :
  PyStr.lacks "/" system_id = true ->
  PyStr.lacks "/" service_type = true ->
  PyStr.lacks "/" d = true ->
  PyStr.splitn "/" ("N/" ++ system_id ++ "/" ++ service_type ++ "/" ++ d ++ "/" ++ path) 4
  = ["N"; system_id; service_type; d; path].
Proof.
  intros S T D.
  change ("N/" ++ system_id ++ "/" ++ service_type ++ "/" ++ d ++ "/" ++ path)
    with ("N" ++ String "/" (system_id ++ String "/" (service_type
            ++ String "/" (d ++ String "/" path)))).
  rewrite !splitn_lacks by (assumption || reflexivity).
  now rewrite splitn_zero.
Qed.

(** A topic made for a path of a service leads back to it: the request
    handlers cut the type, the device instance and the path out of the
    topic and find the service under the key that the scan wrote into
    the registry. *)
Theorem topic_resolves_to_service st service service_type z path short :
  valid_bus_name service = true ->
  PyStr.lacks "/" (_system_id st) = true ->
  get_service_type service = Ok service_type ->
  get_short_service_name service (InstInt z) = Ok short ->
  py_int_str (PyStr.str_of_Z z) = Converted z ->
  _get_uid_by_topic
    (make_topic (_system_id st) service_type (InstInt z) ("/" ++ path)) st
  = (st, Ok (PyDict.get (_services st) short, z, path)).
Proof.
  intros V S T Sh I.
  unfold get_short_service_name in Sh. rewrite T in Sh.
  injection Sh as <-. cbn [format_instance].
  unfold _get_uid_by_topic, make_topic. cbn [format_instance].
  rewrite splitn_topic;
    [|assumption|now apply (service_type_lacks_slash service)|apply str_of_Z_lacks_slash].
  unfold bind, lift, gets, ret. rewrite I. reflexivity.
Qed.

(** A topic of fewer than five pieces is refused with [ValueError] (the
    unpacking of the split fails), and the state is as before. *)
Theorem uid_by_topic_malformed st topic :
  length (PyStr.split "/" topic) < 5 ->
  _get_uid_by_topic topic st = (st, Raise ValueError).
Proof.
  intros H. unfold _get_uid_by_topic.
  pose proof (length_splitn "/" topic 4) as L.
  destruct (PyStr.splitn "/" topic 4) as [|a [|s0 [|ty [|d [|p [|? ?]]]]]];
    try reflexivity.
  cbn [length] in L. lia.
Qed.

End Topics.

(** [topic_resolves_to_service] at the battery state of charge of the
    system service after start-up. *)
Lemma topic_resolves_to_service_witness :
  valid_bus_name Demo.system_service = true
  /\ PyStr.lacks "/" (_system_id Demo.started) = true
  /\ get_service_type Demo.system_service = Ok "system"
  /\ get_short_service_name Demo.system_service (InstInt 0) = Ok "system/0"
  /\ py_int_str (PyStr.str_of_Z 0) = Converted 0%Z
  /\ _get_uid_by_topic
       (make_topic (_system_id Demo.started) "system" (InstInt 0)
          ("/" ++ "Dc/Battery/Soc")) Demo.started
     = (Demo.started,
        Ok (PyDict.get (_services Demo.started) "system/0", 0%Z, "Dc/Battery/Soc")).
Proof.
  split; [vm_compute; reflexivity|]. split; [vm_compute; reflexivity|].
  split; [vm_compute; reflexivity|]. split; [vm_compute; reflexivity|].
  split; [vm_compute; reflexivity|].
  apply (topic_resolves_to_service Demo.started Demo.system_service "system" 0%Z
           "Dc/Battery/Soc" "system/0"); vm_compute; reflexivity.
Defined.

(** [uid_by_topic_malformed] at a request topic that stops after the
    service type. *)
Lemma uid_by_topic_malformed_witness :
  length (PyStr.split "/" "R/abc123/system") < 5
  /\ _get_uid_by_topic "R/abc123/system" Demo.started
     = (Demo.started, Raise ValueError).
Proof.
  assert (H : length (PyStr.split "/" "R/abc123/system") < 5) by (vm_compute; lia).
  split; [exact H|].
  exact (uid_by_topic_malformed Demo.started "R/abc123/system" H).
Defined.

(* ================================================================== *)
(** ** Change signals *)
(* ================================================================== *)

Section ChangeSignals.
Context {value : Type} `{PV : PyValue value}.
Implicit Types (st : state value) (v : value).

Lemma store_change_spec changes topic raw st :
  PyDict.get changes "Value" = Some raw ->
  py_is_none raw = false ->
  snd (store_change changes topic st) = Ok tt
  /\ change_stored topic (unwrap_dbus_value raw) st
       (fst (store_change changes topic st)).
Proof.
  intros G NotNone. unfold store_change. rewrite G, NotNone.
  unfold bind, modify, _publish, change_stored. cbn [fst snd].
  cbn [_socket_watch set_values].
  destruct (_socket_watch st); cbn [negb fst snd].
  - split; [reflexivity|]. repeat split.
    + apply PyDictFacts.get_set_same.
    + intros t N. apply PyDictFacts.get_set_other. congruence.
    + apply enqueue_get.
    + intros t N. now rewrite enqueue_get_other.
  - split; [reflexivity|]. repeat split.
    + apply PyDictFacts.get_set_same.
    + intros t N. apply PyDictFacts.get_set_other. congruence.
Qed.

(** A change signal for a mirrored path whose ["Value"] is not [None]:
    the handler returns, the value table holds the new value under the
    path's topic, and (the socket being up) the topic is pending with the
    new value's payload.  No other topic's value or pending payload
    changes, and the mirror table, the registry, the owner table and the
    publish log are as before. *)
Theorem change_of_mirrored_path changes path service_id service topic raw st :
  PyDict.get (_service_ids st) service_id = Some service ->
  PyDict.get (_topics st) (service ++ path) = Some topic ->
  PyDict.get changes "Value" = Some raw ->
  py_is_none raw = false ->
  snd (_on_dbus_value_changed changes path service_id st) = Ok tt
  /\ change_stored topic (unwrap_dbus_value raw) st
       (fst (_on_dbus_value_changed changes path service_id st)).
Proof.
  intros S T G N. unfold _on_dbus_value_changed. rewrite S, T.
  now apply store_change_spec.
Qed.

(** A signal for a mirrored path without a ["Value"], or with [None] as
    its ["Value"], and a signal from a sender that is in no table, change
    nothing. *)
Lemma change_signal_ignored changes path service_id st :
  PyDict.get (_service_ids st) service_id = None
  \/ (exists service topic,
        PyDict.get (_service_ids st) service_id = Some service
        /\ PyDict.get (_topics st) (service ++ path) = Some topic
        /\ (PyDict.get changes "Value" = None
            \/ exists raw, PyDict.get changes "Value" = Some raw
                           /\ py_is_none raw = true)) ->
  _on_dbus_value_changed changes path service_id st = (st, Ok tt).
Proof.
  unfold _on_dbus_value_changed.
  intros [S|(service & topic & S & T & [G|(raw & G & N)])]; rewrite S;
    [reflexivity| |]; rewrite T; unfold store_change; rewrite G;
    [reflexivity|now rewrite N].
Qed.


Lemma short_name_instance service service_type z key :
  valid_bus_name service = true ->
  get_service_type service = Ok service_type ->
  get_short_service_name service (InstInt z) = Ok key ->
  nth_error (PyStr.split "/" key) 1 = Some (PyStr.str_of_Z z).
Proof.
  intros V T K. unfold get_short_service_name in K. rewrite T in K.
  injection K as <-. cbn [format_instance].
  change (service_type ++ "/" ++ PyStr.str_of_Z z)
    with (service_type ++ String "/" (PyStr.str_of_Z z)).
  rewrite split_lacks by (now apply (service_type_lacks_slash service)).
  rewrite lacks_split_single by apply str_of_Z_lacks_slash. reflexivity.
Qed.

(** A change signal for a path that is not mirrored yet, from a service
    with a record in the registry: the path gets an entry, and its topic
    is the one a scan gives it, the device instance being cut out of the
    record's key.  When the signal carries a ["Value"] that is not
    [None], the value is stored under the topic and, the socket being
    up, pending.  When it carries none, or [None], the entry is made all
    the same, with [None] as its value, and nothing is enqueued. *)
Theorem change_of_new_path changes path service_id service service_type
    key s z st :
  valid_bus_name service = true ->
  PyDict.get (_service_ids st) service_id = Some service ->
  PyDict.get (_topics st) (service ++ path) = None ->
  find (fun kv => String.eqb (snd kv) service) (_services st) = Some (key, s) ->
  get_short_service_name service (InstInt z) = Ok key ->
  get_service_type service = Ok service_type ->
  PyStr.startswith path "/" = true ->
  is_blocked service_type path = false ->
  let topic := make_topic (_system_id st) service_type (InstInt z) path in
  let st' := fst (_on_dbus_value_changed changes path service_id st) in
  snd (_on_dbus_value_changed changes path service_id st) = Ok tt
  /\ PyDict.get (_topics st') (service ++ path) = Some topic
  /\ (forall uid, uid <> service ++ path ->
        PyDict.get (_topics st') uid = PyDict.get (_topics st) uid)
  /\ (forall raw,
        PyDict.get changes "Value" = Some raw -> py_is_none raw = false ->
        PyDict.get (_values st') topic = Some (unwrap_dbus_value raw)
        /\ (_socket_watch st = true ->
            PyDict.get (queue st') topic
            = Some (Some (json_dumps_value (unwrap_dbus_value raw)))))
  /\ (PyDict.get changes "Value" = None
      \/ (exists raw, PyDict.get changes "Value" = Some raw
                      /\ py_is_none raw = true) ->
      PyDict.get (_values st') topic = Some py_none /\ queue st' = queue st)
  /\ _services st' = _services st
  /\ published st' = published st.
Proof.
  intros V S T F K Ty P B topic st'.
  set (st1 := set_values (PyDict.set (_values st) topic py_none)
                (set_topics (PyDict.set (_topics st) (service ++ path) topic) st)).
  assert (T1 : PyDict.get (_topics st1) (service ++ path) = Some topic).
  { subst st1. cbn [_topics set_values set_topics]. apply PyDictFacts.get_set_same. }
  assert (E : _on_dbus_value_changed changes path service_id st
              = store_change changes topic st1).
  { unfold _on_dbus_value_changed. rewrite S, T, F.
    rewrite (short_name_instance service service_type z key V Ty K).
    unfold bind, lift, topics_item, _add_item.
    assert (N : normalize_path path = path).
    { unfold normalize_path. now rewrite P. }
    rewrite N, T, Ty, B.
    change (make_topic (_system_id st) service_type
              (InstStr (PyStr.str_of_Z z)) path) with topic.
    fold st1. now rewrite T1. }
  assert (U : forall uid, uid <> service ++ path ->
                PyDict.get (_topics st1) uid = PyDict.get (_topics st) uid).
  { intros uid U. subst st1. cbn [_topics set_values set_topics].
    apply PyDictFacts.get_set_other. congruence. }
  assert (Quiet : store_change changes topic st1 = (st1, Ok tt) ->
                  snd (store_change changes topic st1) = Ok tt
                  /\ _topics (fst (store_change changes topic st1)) = _topics st1
                  /\ _services (fst (store_change changes topic st1)) = _services st
                  /\ published (fst (store_change changes topic st1)) = published st
                  /\ PyDict.get (_values (fst (store_change changes topic st1))) topic
                     = Some py_none
                  /\ queue (fst (store_change changes topic st1)) = queue st).
  { intros Q. rewrite Q. cbn [fst snd]. repeat split.
    subst st1. cbn [_values set_values]. apply PyDictFacts.get_set_same. }
  subst st'. rewrite E.
  destruct (PyDict.get changes "Value") as [raw|] eqn:G.
  - destruct (py_is_none raw) eqn:N.
    + destruct Quiet as (R & T2 & S2 & P2 & V2 & Q2).
      { unfold store_change. now rewrite G, N. }
      split; [exact R|]. rewrite T2, S2, P2.
      split; [exact T1|]. split; [exact U|].
      split; [intros r [= <-] N'; congruence|].
      split; [intros _; now split|]. now split.
    + destruct (store_change_spec changes topic raw st1 G N)
        as (R & V1 & _ & Q & T2 & S2 & _ & P2).
      split; [exact R|]. rewrite T2, S2, P2.
      split; [exact T1|]. split; [exact U|].
      split.
      { intros r [= <-] _. split; [exact V1|].
        intros W. change (_socket_watch st1) with (_socket_watch st) in Q.
        rewrite W in Q. apply Q. }
      split; [|split; reflexivity].
      intros [X|(r & X & N')]; [discriminate|]. injection X as <-. congruence.
  - destruct Quiet as (R & T2 & S2 & P2 & V2 & Q2).
    { unfold store_change. now rewrite G. }
    split; [exact R|]. rewrite T2, S2, P2.
    split; [exact T1|]. split; [exact U|].
    split; [intros r X; discriminate|].
    split; [intros _; now split|]. now split.
Qed.

End ChangeSignals.

(** [change_of_mirrored_path] at a new state of charge signalled by the
    system service. *)
Lemma change_of_mirrored_path_witness :
  PyDict.get (_service_ids Demo.connected) ":1.1" = Some Demo.system_service
  /\ PyDict.get (_topics Demo.connected) (Demo.system_service ++ "/Dc/Battery/Soc")
     = Some Demo.soc_topic
  /\ PyDict.get [("Value", Demo.VInt 81)] "Value" = Some (Demo.VInt 81)
  /\ py_is_none (Demo.VInt 81) = false
  /\ snd (_on_dbus_value_changed [("Value", Demo.VInt 81)] "/Dc/Battery/Soc" ":1.1"
            Demo.connected) = Ok tt
  /\ change_stored Demo.soc_topic (unwrap_dbus_value (Demo.VInt 81)) Demo.connected
       (fst (_on_dbus_value_changed [("Value", Demo.VInt 81)] "/Dc/Battery/Soc"
               ":1.1" Demo.connected)).
Proof.
  split; [vm_compute; reflexivity|]. split; [vm_compute; reflexivity|].
  split; [vm_compute; reflexivity|]. split; [reflexivity|].
  apply (change_of_mirrored_path [("Value", Demo.VInt 81)] "/Dc/Battery/Soc" ":1.1"
           Demo.system_service Demo.soc_topic (Demo.VInt 81) Demo.connected);
    vm_compute; reflexivity.
Defined.

(** [change_of_new_path] at a signal of the system service for a path
    that its listing did not name. *)
Lemma change_of_new_path_witness :
  valid_bus_name Demo.system_service = true
  /\ PyDict.get (_service_ids Demo.connected) ":1.1" = Some Demo.system_service
  /\ PyDict.get (_topics Demo.connected) (Demo.system_service ++ "/Ac/Power") = None
  /\ find (fun kv => String.eqb (snd kv) Demo.system_service)
          (_services Demo.connected)
     = Some ("system/0", Demo.system_service)
  /\ get_short_service_name Demo.system_service (InstInt 0) = Ok "system/0"
  /\ get_service_type Demo.system_service = Ok "system"
  /\ PyStr.startswith "/Ac/Power" "/" = true
  /\ is_blocked "system" "/Ac/Power" = false
  /\ PyDict.get
       (_topics (fst (_on_dbus_value_changed [("Value", Demo.VInt 9)] "/Ac/Power"
                        ":1.1" Demo.connected)))
       (Demo.system_service ++ "/Ac/Power")
     = Some (make_topic (_system_id Demo.connected) "system" (InstInt 0) "/Ac/Power").
Proof.
  split; [vm_compute; reflexivity|]. split; [vm_compute; reflexivity|].
  split; [vm_compute; reflexivity|]. split; [vm_compute; reflexivity|].
  split; [vm_compute; reflexivity|]. split; [vm_compute; reflexivity|].
  split; [vm_compute; reflexivity|]. split; [vm_compute; reflexivity|].
  apply (change_of_new_path [("Value", Demo.VInt 9)] "/Ac/Power" ":1.1"
           Demo.system_service "system" "system/0" Demo.system_service 0%Z
           Demo.connected);
    vm_compute; reflexivity.
Defined.

(* ================================================================== *)
(** ** What each handler can touch *)
(* ================================================================== *)

(** A property of the state that the few assignments of the handlers
    keep is kept by the handlers.  The assignments are split by who makes
    them: every handler may add an item, store a value, enqueue or move
    the bookkeeping of the connection; the scan writes a record; the
    owner change registers and forgets; the queue runs hand the head of
    the queue to the client. *)
Section Footprint.
Context {value : Type} `{PV : PyValue value}.
Variable P : state value -> Prop.
Implicit Types (st : state value) (v : value) (b : bus value).

Hypothesis P_add_item :
  forall service device_instance path v,
    preserves P (_add_item service device_instance path v).
Hypothesis P_set_value :
  forall topic v st, P st -> P (set_values (PyDict.set (_values st) topic v) st).
Hypothesis P_publish : forall topic v st, P st -> P (_publish topic v st).
Hypothesis P_unpublish : forall topic st, P st -> P (_unpublish topic st).
Hypothesis P_bookkeeping :
  forall st st',
    _system_id st' = _system_id st -> _topics st' = _topics st ->
    _values st' = _values st -> _services st' = _services st ->
    _service_ids st' = _service_ids st -> queue st' = queue st ->
    published st' = published st -> _socket_watch st' = _socket_watch st ->
    P st -> P st'.

Lemma keeps_bookkeeping (f : state value -> state value) :
  (forall st, _system_id (f st) = _system_id st) ->
  (forall st, _topics (f st) = _topics st) ->
  (forall st, _values (f st) = _values st) ->
  (forall st, _services (f st) = _services st) ->
  (forall st, _service_ids (f st) = _service_ids st) ->
  (forall st, queue (f st) = queue st) ->
  (forall st, published (f st) = published st) ->
  (forall st, _socket_watch (f st) = _socket_watch st) ->
  preserves P (modify f).
Proof.
  intros E0 E1 E2 E3 E4 E5 E6 E7. apply preserves_modify. intros st H.
  now apply (P_bookkeeping st).
Qed.

Lemma keeps_store_change changes topic : preserves P (store_change changes topic).
Proof.
  unfold store_change.
  destruct (PyDict.get changes "Value") as [raw|]; [|apply preserves_ret].
  destruct (py_is_none raw); [apply preserves_ret|].
  apply preserves_bind; [apply preserves_modify; intros; now apply P_set_value|].
  intros _. apply preserves_modify. intros. now apply P_publish.
Qed.

Lemma keeps_value_changed changes path service_id :
  preserves P (_on_dbus_value_changed changes path service_id).
Proof.
  intros st H. unfold _on_dbus_value_changed.
  destruct (PyDict.get (_service_ids st) service_id) as [service|]; [|exact H].
  destruct (PyDict.get (_topics st) (service ++ path)) as [topic|];
    [now apply keeps_store_change|].
  destruct (find _ (_services st)) as [[short s]|]; [|exact H].
  unfold bind at 1, lift at 1.
  destruct (nth_error (PyStr.split "/" short) 1) as [d|]; [|exact H].
  revert st H. apply preserves_bind; [apply P_add_item|].
  intros _. apply preserves_bind.
  - intros st H. unfold topics_item. now destruct (PyDict.get (_topics st) _).
  - intros topic. apply keeps_store_change.
Qed.

Lemma keeps_publish_all : preserves P (_publish_all (value := value)).
Proof.
  unfold _publish_all. apply preserves_for_each_read. intros topic.
  apply preserves_bind.
  - intros st H. unfold values_item. now destruct (PyDict.get (_values st) topic).
  - intros v. apply preserves_modify. intros. now apply P_publish.
Qed.

Lemma keeps_unpublish_all has_iterkeys :
  preserves P (_unpublish_all (value := value) has_iterkeys).
Proof.
  unfold _unpublish_all. destruct has_iterkeys.
  - apply preserves_for_each_read. intros topic.
    apply preserves_modify. intros. now apply P_unpublish.
  - intros st H. exact H.
Qed.

Lemma keeps_on_connect : preserves P (_on_connect (value := value)).
Proof.
  unfold _on_connect. apply preserves_bind; [apply preserves_gets|]. intros own.
  apply preserves_bind; [now apply keeps_bookkeeping|]. intros _.
  apply preserves_bind; [now apply keeps_bookkeeping|]. intros _.
  apply preserves_bind; [apply preserves_gets|]. intros r.
  apply preserves_bind; [|intros _; apply keeps_publish_all].
  destruct r as [[c|]|]; try apply preserves_ret.
  now apply keeps_bookkeeping.
Qed.

Lemma keeps_handle_write b topic payload : preserves P (_handle_write b topic payload).
Proof.
  unfold _handle_write. apply preserves_bind; [apply preserves_lift|]. intros v.
  apply preserves_bind.
  - intros st H. now rewrite get_uid_by_topic_state.
  - intros [[[service|] di] path]; [|apply preserves_raise].
    apply preserves_bind; [apply preserves_lift|]. intros _.
    now apply keeps_bookkeeping.
Qed.

Lemma keeps_handle_read b topic : preserves P (_handle_read b topic).
Proof.
  unfold _handle_read. apply preserves_bind.
  - intros st H. now rewrite get_uid_by_topic_state.
  - intros [[[service|] di] path]; [|apply preserves_raise].
    apply preserves_bind; [apply preserves_lift|]. intros v.
    apply preserves_bind; [apply P_add_item|].
    intros [t|]; [|apply preserves_ret].
    destruct (String.eqb t topic); [|apply preserves_ret].
    apply preserves_bind; [apply preserves_modify; intros; now apply P_publish|].
    intros _. now apply keeps_bookkeeping.
Qed.

Lemma keeps_on_message b topic payload : preserves P (_on_message b topic payload).
Proof.
  unfold _on_message. destruct (PyStr.startswith topic "$SYS/broker/connection/").
  - apply preserves_bind; [apply preserves_lift|]. intros n.
    destruct (n =? 1)%Z; [now apply keeps_bookkeeping|].
    apply preserves_bind; [apply preserves_gets|]. intros [|]; [|apply preserves_ret].
    apply preserves_bind; [now apply keeps_bookkeeping|]. intros _.
    apply preserves_bind; [apply preserves_gets|]. intros [r|]; [|apply preserves_raise].
    now apply keeps_bookkeeping.
  - apply preserves_try_except; [|intros e k [= <-]; apply preserves_ret].
    unfold request.
    destruct (PyStr.splitn "/" topic 2) as [|a [|s [|p [|? ?]]]]; try apply preserves_raise.
    apply preserves_bind; [apply preserves_gets|]. intros own.
    destruct (negb (String.eqb s own)); [apply preserves_raise|].
    destruct (String.eqb a "W"); [apply keeps_handle_write|].
    destruct (String.eqb a "R"); [apply keeps_handle_read|apply preserves_ret].
Qed.

(** *** The scan and the appearance of a service *)

Section Appearance.
Hypothesis P_record :
  forall service device_instance short st,
    get_short_service_name service (InstInt device_instance) = Ok short ->
    P st -> P (set_services (PyDict.set (_services st) short service) st).
Hypothesis P_register_owner :
  forall owner service st,
    PyStr.startswith service "com.victronenergy." = true ->
    P st -> P (set_service_ids (PyDict.set (_service_ids st) owner service) st).

Lemma keeps_scan b service publish :
  preserves P (_scan_dbus_service b service publish).
Proof.
  apply scan_preserves.
  - intros. apply P_add_item.
  - apply P_publish.
  - intros di short st. apply P_record.
Qed.

Lemma keeps_appearance b name oldowner newowner :
  newowner <> "" ->
  preserves P (_dbus_name_owner_changed b name oldowner newowner).
Proof.
  intros N. unfold _dbus_name_owner_changed.
  destruct (PyStr.startswith name "com.victronenergy.") eqn:V;
    [|apply preserves_ret]. cbn [negb].
  apply String.eqb_neq in N. rewrite N. cbn [negb].
  apply preserves_bind; [apply keeps_scan|].
  intros _. apply preserves_modify. intros st. now apply P_register_owner.
Qed.

Lemma keeps_init b system_id registrator :
  P (initial_state system_id registrator) ->
  P (fst (DbusMqtt_init b system_id registrator)).
Proof.
  unfold DbusMqtt_init. apply (preserves_for_each_all P). intros service.
  destruct (PyStr.startswith service "com.victronenergy.") eqn:V; [|apply preserves_ret].
  apply preserves_bind; [apply preserves_lift|]. intros owner.
  apply preserves_bind.
  - apply preserves_modify. intros st. now apply P_register_owner.
  - intros _. apply keeps_scan.
Qed.

(** *** The loss of a service *)

Section Disappearance.
Hypothesis P_del_topic : forall uid, preserves P (del_topic uid).
Hypothesis P_del_value : forall topic, preserves P (del_value topic).
Hypothesis P_forget_record :
  forall name st, P st -> P (set_services (PyDict.discard (_services st) name) st).
Hypothesis P_forget_owner :
  forall owner st,
    P st -> P (set_service_ids (PyDict.discard (_service_ids st) owner) st).

Lemma keeps_disappearance name oldowner :
  preserves P (service_disappeared name oldowner).
Proof.
  unfold service_disappeared. apply preserves_bind.
  - apply preserves_for_each_read. intros item.
    destruct (PyStr.startswith (fst item) (name ++ "/")); [|apply preserves_ret].
    apply preserves_bind; [apply preserves_modify; intros; now apply P_unpublish|].
    intros _. apply preserves_bind; [apply P_del_topic|].
    intros _. apply P_del_value.
  - intros _. apply preserves_bind; apply preserves_modify || intros _.
    + intros st H. destruct (PyDict.has (_services st) name); [|exact H].
      now apply P_forget_record.
    + apply preserves_modify.
      intros st H. destruct (PyDict.has (_service_ids st) oldowner); [|exact H].
      now apply P_forget_owner.
Qed.

Lemma keeps_name_owner_changed b name oldowner newowner :
  preserves P (_dbus_name_owner_changed b name oldowner newowner).
Proof.
  destruct (String.eqb newowner "") eqn:N.
  - unfold _dbus_name_owner_changed. rewrite N. cbn [negb].
    destruct (negb (PyStr.startswith name "com.victronenergy.")); [apply preserves_ret|].
    destruct (negb (String.eqb oldowner "")); [|apply preserves_ret].
    apply keeps_disappearance.
  - apply keeps_appearance. now apply String.eqb_neq.
Qed.

End Disappearance.

End Appearance.

(** *** The queue runs *)

Section QueueRuns.
Hypothesis P_hand_over :
  forall topic payload rest st,
    queue st = (topic, payload) :: rest ->
    P st -> P (client_publish topic payload (set_queue rest st)).
Hypothesis P_clock : forall now st, P st -> P (set_last_queue_run now st).

Lemma keeps_drain items st : P st -> P (fst (drain items st)).
Proof.
  revert st. induction items as [|n IH]; intros st H; simpl; [exact H|].
  destruct (queue st) as [|[t p] rest] eqn:Q; simpl; [exact H|].
  apply IH. now apply P_hand_over.
Qed.

Lemma keeps_service_queue now items st :
  P st -> P (fst (_service_queue now items st)).
Proof. intros H. unfold _service_queue. apply keeps_drain. now apply P_clock. Qed.

Lemma keeps_timer now now' st : P st -> P (_timer_service_queue now now' st).
Proof.
  intros H. unfold _timer_service_queue. destruct (_ && _); [|exact H].
  pose proof (keeps_service_queue now' 5 st H) as D.
  destruct (_service_queue now' 5 st) as [st' [|]]; simpl in D; [|exact D].
  now apply (P_bookkeeping st').
Qed.

Lemma keeps_idle now st :
  P st ->
  P (match _service_queue now 5 st with
     | (st', true) => st'
     | (st', false) => idle_retire st'
     end).
Proof.
  intros H. pose proof (keeps_service_queue now 5 st H) as D.
  destruct (_service_queue now 5 st) as [st' [|]]; simpl in D; [exact D|].
  now apply (P_bookkeeping st').
Qed.

End QueueRuns.

End Footprint.

(* ================================================================== *)
(** ** Who talks to the broker, and who writes the registry *)
(* ================================================================== *)

Section Footprints.
Context {value : Type} `{PV : PyValue value}.
Implicit Types (st : state value) (v : value) (b : bus value).

Lemma add_item_frame service device_instance path v st :
  let st' := fst (_add_item service device_instance path v st) in
  _system_id st' = _system_id st /\ _services st' = _services st
  /\ _service_ids st' = _service_ids st /\ queue st' = queue st
  /\ published st' = published st /\ _socket_watch st' = _socket_watch st.
Proof.
  unfold _add_item.
  destruct (PyDict.get (_topics st) _); [now repeat split|].
  destruct (get_service_type service); [|now repeat split].
  destruct (is_blocked _ _); now repeat split.
Qed.

Lemma publish_frame topic v st :
  let st' := _publish topic v st in
  _system_id st' = _system_id st /\ _topics st' = _topics st
  /\ _values st' = _values st /\ _services st' = _services st
  /\ _service_ids st' = _service_ids st
  /\ published st' = published st /\ _socket_watch st' = _socket_watch st.
Proof. unfold _publish. destruct (negb (_socket_watch st)); now repeat split. Qed.

Lemma unpublish_frame topic st :
  let st' := _unpublish topic st in
  _system_id st' = _system_id st /\ _topics st' = _topics st
  /\ _values st' = _values st /\ _services st' = _services st
  /\ _service_ids st' = _service_ids st
  /\ published st' = published st /\ _socket_watch st' = _socket_watch st.
Proof.
  unfold _unpublish. destruct (negb (_socket_watch st)); [now repeat split|].
  destruct (PyStr.endswith topic "/system/0/Serial"); now repeat split.
Qed.

Lemma del_topic_frame uid st :
  let st' := fst (del_topic uid st) in
  _system_id st' = _system_id st /\ _values st' = _values st
  /\ _services st' = _services st /\ _service_ids st' = _service_ids st
  /\ queue st' = queue st
  /\ published st' = published st /\ _socket_watch st' = _socket_watch st.
Proof. unfold del_topic. destruct (PyDict.del (_topics st) uid); now repeat split. Qed.

Lemma del_value_frame topic st :
  let st' := fst (del_value topic st) in
  _system_id st' = _system_id st /\ _topics st' = _topics st
  /\ _services st' = _services st /\ _service_ids st' = _service_ids st
  /\ queue st' = queue st
  /\ published st' = published st /\ _socket_watch st' = _socket_watch st.
Proof. unfold del_value. destruct (PyDict.del (_values st) topic); now repeat split. Qed.

(** No handler but a queue run hands anything to the broker. *)
Lemma published_only_by_queue_run b e st :
  is_queue_run e = false -> published (fst (handle b e st)) = published st.
Proof.
  intros Q.
  set (P := fun s : state value => published s = published st).
  assert (A : forall service di path v, preserves P (_add_item service di path v)).
  { intros service di path v s H. unfold P.
    destruct (add_item_frame service di path v s) as (_ & _ & _ & _ & E & _).
    now rewrite E. }
  assert (Pb : forall topic v s, P s -> P (_publish topic v s)).
  { intros topic v s H. unfold P.
    destruct (publish_frame topic v s) as (_ & _ & _ & _ & _ & E & _). now rewrite E. }
  assert (Un : forall topic s, P s -> P (_unpublish topic s)).
  { intros topic s H. unfold P.
    destruct (unpublish_frame topic s) as (_ & _ & _ & _ & _ & E & _). now rewrite E. }
  assert (Sv : forall topic v s,
             P s -> P (set_values (PyDict.set (_values s) topic v) s))
    by (intros; assumption).
  assert (Bk : forall s s',
             _system_id s' = _system_id s -> _topics s' = _topics s ->
             _values s' = _values s -> _services s' = _services s ->
             _service_ids s' = _service_ids s -> queue s' = queue s ->
             published s' = published s -> _socket_watch s' = _socket_watch s ->
             P s -> P s').
  { unfold P. intros. congruence. }
  assert (H0 : P st) by reflexivity.
  destruct e; try discriminate; cbn [handle].
  - apply (keeps_name_owner_changed P A Pb Un); try assumption;
      try (intros; assumption).
    + intros uid s H. unfold P.
      destruct (del_topic_frame uid s) as (_ & _ & _ & _ & _ & E & _). now rewrite E.
    + intros topic s H. unfold P.
      destruct (del_value_frame topic s) as (_ & _ & _ & _ & _ & E & _). now rewrite E.
  - now apply (keeps_value_changed P A Sv Pb).
  - now apply (keeps_on_connect P Pb Bk).
  - now apply (keeps_on_message P A Pb Bk).
  - reflexivity.
  - now apply (keeps_unpublish_all P Un).
Qed.

Ltac frame_with L :=
  let F := fresh "FRAME" in
  pose proof L as F; cbv zeta in F; decompose [and] F; clear F;
  repeat match goal with H : _ /\ _ |- _ => destruct H end;
  repeat split; congruence.

(** The registry and the owner table are written by the handler of the
    owner changes only. *)
Lemma registry_only_by_owner_change b e st :
  is_owner_change e = false ->
  _services (fst (handle b e st)) = _services st
  /\ _service_ids (fst (handle b e st)) = _service_ids st.
Proof.
  intros Q.
  set (P := fun s : state value =>
              _services s = _services st /\ _service_ids s = _service_ids st).
  assert (A : forall service di path v, preserves P (_add_item service di path v)).
  { intros service di path v s H. unfold P in *.
    frame_with (add_item_frame service di path v s). }
  assert (Pb : forall topic v s, P s -> P (_publish topic v s)).
  { intros topic v s H. unfold P in *. frame_with (publish_frame topic v s). }
  assert (Un : forall topic s, P s -> P (_unpublish topic s)).
  { intros topic s H. unfold P in *. frame_with (unpublish_frame topic s). }
  assert (Sv : forall topic v s,
             P s -> P (set_values (PyDict.set (_values s) topic v) s))
    by (intros; assumption).
  assert (Bk : forall s s',
             _system_id s' = _system_id s -> _topics s' = _topics s ->
             _values s' = _values s -> _services s' = _services s ->
             _service_ids s' = _service_ids s -> queue s' = queue s ->
             published s' = published s -> _socket_watch s' = _socket_watch s ->
             P s -> P s').
  { unfold P. intros s s' ? ? ? ? ? ? ? ? [? ?]. split; congruence. }
  assert (H0 : P st) by (split; reflexivity).
  destruct e; try discriminate; cbn [handle].
  - now apply (keeps_value_changed P A Sv Pb).
  - now apply (keeps_on_connect P Pb Bk).
  - now apply (keeps_on_message P A Pb Bk).
  - apply (keeps_timer P Bk); try assumption; intros; assumption.
  - apply (keeps_idle P Bk); try assumption; intros; assumption.
  - exact H0.
  - now apply (keeps_unpublish_all P Un).
Qed.

(** While the broker socket is down nothing is queued, whatever
    arrives from the bus or is left over from the broker. *)
Lemma queue_kept_while_socket_down b e st :
  _socket_watch st = false ->
  is_queue_run e = false ->
  queue (fst (handle b e st)) = queue st.
Proof.
  intros W Q.
  set (P := fun s : state value => queue s = queue st /\ _socket_watch s = false).
  assert (A : forall service di path v, preserves P (_add_item service di path v)).
  { intros service di path v s H. unfold P in *.
    frame_with (add_item_frame service di path v s). }
  assert (Pb : forall topic v s, P s -> P (_publish topic v s)).
  { intros topic v s [H1 H2]. unfold _publish. now rewrite H2. }
  assert (Un : forall topic s, P s -> P (_unpublish topic s)).
  { intros topic s [H1 H2]. unfold _unpublish. now rewrite H2. }
  assert (Sv : forall topic v s,
             P s -> P (set_values (PyDict.set (_values s) topic v) s))
    by (intros; assumption).
  assert (Bk : forall s s',
             _system_id s' = _system_id s -> _topics s' = _topics s ->
             _values s' = _values s -> _services s' = _services s ->
             _service_ids s' = _service_ids s -> queue s' = queue s ->
             published s' = published s -> _socket_watch s' = _socket_watch s ->
             P s -> P s').
  { unfold P. intros s s' ? ? ? ? ? ? ? ? [? ?]. split; congruence. }
  assert (H0 : P st) by (split; [reflexivity|exact W]).
  destruct e; try discriminate; cbn [handle]; try reflexivity;
    match goal with |- queue ?s = _ => assert (R : P s); [|exact (proj1 R)] end.
  - apply (keeps_name_owner_changed P A Pb Un); try assumption;
      try (intros; assumption).
    + intros uid s H. unfold P in *. frame_with (del_topic_frame uid s).
    + intros topic s H. unfold P in *. frame_with (del_value_frame topic s).
  - now apply (keeps_value_changed P A Sv Pb).
  - now apply (keeps_on_connect P Pb Bk).
  - now apply (keeps_on_message P A Pb Bk).
  - now apply (keeps_unpublish_all P Un).
Qed.

(** No handler takes an entry out of the mirror table or points it to
    another topic, the loss of an owner apart. *)
Lemma entry_kept_but_by_owner_loss b e st uid topic :
  is_owner_loss e = false ->
  PyDict.get (_topics st) uid = Some topic ->
  PyDict.get (_topics (fst (handle b e st))) uid = Some topic.
Proof.
  intros Q G.
  set (P := fun s : state value => PyDict.get (_topics s) uid = Some topic).
  assert (A : forall service di path v, preserves P (_add_item service di path v)).
  { intros service di path v s H. now apply add_item_keeps_entries. }
  assert (Pb : forall t v s, P s -> P (_publish t v s)).
  { intros t v s H. unfold P in *. frame_with (publish_frame t v s). }
  assert (Un : forall t s, P s -> P (_unpublish t s)).
  { intros t s H. unfold P in *. frame_with (unpublish_frame t s). }
  assert (Sv : forall t v s,
             P s -> P (set_values (PyDict.set (_values s) t v) s))
    by (intros; assumption).
  assert (Bk : forall s s',
             _system_id s' = _system_id s -> _topics s' = _topics s ->
             _values s' = _values s -> _services s' = _services s ->
             _service_ids s' = _service_ids s -> queue s' = queue s ->
             published s' = published s -> _socket_watch s' = _socket_watch s ->
             P s -> P s').
  { unfold P. intros. congruence. }
  assert (H0 : P st) by exact G.
  destruct e; cbn [handle].
  - cbn [is_owner_loss] in Q. apply String.eqb_neq in Q.
    apply (keeps_appearance P A Pb); try assumption; intros; assumption.
  - now apply (keeps_value_changed P A Sv Pb).
  - now apply (keeps_on_connect P Pb Bk).
  - now apply (keeps_on_message P A Pb Bk).
  - apply (keeps_timer P Bk); try assumption; intros; assumption.
  - apply (keeps_idle P Bk); try assumption; intros; assumption.
  - exact H0.
  - now apply (keeps_unpublish_all P Un).
Qed.

(** Whatever the event, the log of what the client was asked to publish
    grows at its end only, by at most five messages, and these are the
    head of the queue as it was, oldest first; an event that is not a
    queue run adds nothing. *)
Theorem publish_log_grows_by_queue_run b e st :
  exists batch,
    published (fst (handle b e st)) = (published st ++ batch)%list
    /\ batch = firstn (length batch) (queue st)
    /\ length batch <= 5
    /\ (is_queue_run e = false -> batch = []).
Proof.
  assert (F : forall n (q : dict (option string)),
             firstn n q = firstn (length (firstn n q)) q).
  { intros n q. rewrite length_firstn.
    destruct (Nat.le_ge_cases n (length q)) as [L|L].
    - now rewrite Nat.min_l.
    - rewrite Nat.min_r by exact L. now rewrite firstn_all, firstn_all2. }
  assert (N : exists batch : list (string * option string),
             published st = (published st ++ batch)%list
             /\ batch = firstn (length batch) (queue st)
             /\ length batch <= 5
             /\ (is_queue_run e = false -> batch = [])).
  { exists []. rewrite app_nil_r. repeat split. simpl. lia. }
  assert (B : forall now,
             exists batch,
               published (fst (_service_queue now 5 st))
               = (published st ++ batch)%list
               /\ batch = firstn (length batch) (queue st)
               /\ length batch <= 5).
  { intros now. exists (firstn 5 (queue st)).
    split; [apply service_queue_published|]. split; [apply F|].
    rewrite length_firstn. lia. }
  destruct (is_queue_run e) eqn:Q.
  - destruct e; try discriminate; cbn [handle modify fst].
    + unfold _timer_service_queue. destruct (_ && _); [|exact N].
      destruct (B now') as (batch & E & H1 & H2). exists batch.
      destruct (_service_queue now' 5 st) as [st' [|]]; cbn [fst] in *;
        repeat split; try assumption; discriminate.
    + destruct (B now) as (batch & E & H1 & H2). exists batch.
      destruct (_service_queue now 5 st) as [st' [|]]; cbn [fst] in *;
        repeat split; try assumption; discriminate.
  - exists []. rewrite app_nil_r.
    split; [now apply published_only_by_queue_run|].
    repeat split. simpl. lia.
Qed.

Lemma record_names_service service z key :
  get_short_service_name service (InstInt z) = Ok key ->
  exists service_type,
    get_service_type service = Ok service_type
    /\ key = service_type ++ "/" ++ PyStr.str_of_Z z.
Proof.
  unfold get_short_service_name.
  destruct (get_service_type service) as [t|]; [|discriminate].
  intros [= <-]. now exists t.
Qed.

(** After start-up and after every callback, each record of the
    registry is keyed by the type of its service, a slash and a device
    instance in decimal, and the owner table holds names under the
    vendor prefix only. *)
Theorem registry_keys_name_their_service st :
  reachable st ->
  (forall key service,
     In (key, service) (_services st) ->
     exists service_type z,
       get_service_type service = Ok service_type
       /\ key = service_type ++ "/" ++ PyStr.str_of_Z z)
  /\ (forall owner service,
        In (owner, service) (_service_ids st) ->
        PyStr.startswith service ServicePrefix = true).
Proof.
  set (P := fun s : state value =>
    (forall key service,
       In (key, service) (_services s) ->
       exists service_type z,
         get_service_type service = Ok service_type
         /\ key = service_type ++ "/" ++ PyStr.str_of_Z z)
    /\ (forall owner service,
          In (owner, service) (_service_ids s) ->
          PyStr.startswith service ServicePrefix = true)).
  assert (Fr : forall s s',
             _services s' = _services s -> _service_ids s' = _service_ids s ->
             P s -> P s').
  { unfold P. intros s s' E1 E2 H. now rewrite E1, E2. }
  assert (A : forall service di path v, preserves P (_add_item service di path v)).
  { intros service di path v s H. apply (Fr s); [| |exact H];
      now destruct (add_item_frame service di path v s) as (_ & ? & ? & _). }
  assert (Pb : forall topic v s, P s -> P (_publish topic v s)).
  { intros topic v s H. apply (Fr s); [| |exact H];
      now destruct (publish_frame topic v s) as (_ & _ & _ & ? & ? & _). }
  assert (Un : forall topic s, P s -> P (_unpublish topic s)).
  { intros topic s H. apply (Fr s); [| |exact H];
      now destruct (unpublish_frame topic s) as (_ & _ & _ & ? & ? & _). }
  assert (Sv : forall topic v s,
             P s -> P (set_values (PyDict.set (_values s) topic v) s))
    by (intros; assumption).
  assert (Bk : forall s s',
             _system_id s' = _system_id s -> _topics s' = _topics s ->
             _values s' = _values s -> _services s' = _services s ->
             _service_ids s' = _service_ids s -> queue s' = queue s ->
             published s' = published s -> _socket_watch s' = _socket_watch s ->
             P s -> P s').
  { intros s s' _ _ _ E1 E2 _ _ _. now apply Fr. }
  assert (Rec : forall service di short s,
             get_short_service_name service (InstInt di) = Ok short ->
             P s -> P (set_services (PyDict.set (_services s) short service) s)).
  { intros service di short s K [H1 H2]. split; [|exact H2].
    cbn [_services set_services]. intros key sv I.
    apply PyDictFacts.In_set in I as [[-> ->]|I]; [|now apply H1].
    destruct (record_names_service service di short K) as (t & T & E).
    now exists t, di. }
  assert (Own : forall owner service s,
             PyStr.startswith service "com.victronenergy." = true ->
             P s -> P (set_service_ids (PyDict.set (_service_ids s) owner service) s)).
  { intros owner service s V [H1 H2]. split; [exact H1|].
    cbn [_service_ids set_service_ids]. intros o sv I.
    apply PyDictFacts.In_set in I as [[-> ->]|I]; [exact V|now apply (H2 o)]. }
  assert (Step : forall b e, preserves P (handle b e)).
  { intros b e. destruct e; cbn [handle].
    - apply (keeps_name_owner_changed P A Pb Un Rec Own).
      + intros uid s H. apply (Fr s); [| |exact H];
          now destruct (del_topic_frame uid s) as (_ & _ & ? & ? & _).
      + intros topic s H. apply (Fr s); [| |exact H];
          now destruct (del_value_frame topic s) as (_ & _ & ? & ? & _).
      + intros nm s [H1 H2]. split; [|exact H2].
        cbn [_services set_services]. intros key sv I.
        apply H1. now apply PyDictFacts.In_discard with (k := nm).
      + intros owner s [H1 H2]. split; [exact H1|].
        cbn [_service_ids set_service_ids]. intros o sv I.
        apply (H2 o). now apply PyDictFacts.In_discard with (k := owner).
    - apply (keeps_value_changed P A Sv Pb).
    - apply (keeps_on_connect P Pb Bk).
    - apply (keeps_on_message P A Pb Bk).
    - apply preserves_modify. intros s H.
      apply (keeps_timer P Bk); try assumption; intros; assumption.
    - apply preserves_modify. intros s H.
      apply (keeps_idle P Bk); try assumption; intros; assumption.
    - apply preserves_modify. intros s H. exact H.
    - apply (keeps_unpublish_all P Un). }
  induction 1 as [b system_id registrator st V E|b e st R IH V].
  - replace st with (fst (DbusMqtt_init b system_id registrator)) by now rewrite E.
    apply (keeps_init P A Pb Rec Own).
    split; intros ? ? [].
  - now apply Step.
Qed.

End Footprints.

(** [registry_only_by_owner_change] at the broker's connect callback. *)
Lemma registry_only_by_owner_change_witness :
  is_owner_change (value := Demo.value) MqttConnect = false
  /\ _services (fst (handle Demo.listing_bus MqttConnect Demo.connected))
     = _services Demo.connected
  /\ _service_ids (fst (handle Demo.listing_bus MqttConnect Demo.connected))
     = _service_ids Demo.connected.
Proof.
  split; [reflexivity|].
  apply (registry_only_by_owner_change Demo.listing_bus MqttConnect Demo.connected).
  reflexivity.
Defined.

(** [queue_kept_while_socket_down] at a change signal that arrives
    before the broker socket is up. *)
Lemma queue_kept_while_socket_down_witness :
  _socket_watch Demo.started = false
  /\ is_queue_run (PropertiesChanged [("Value", Demo.VInt 81)] "/Dc/Battery/Soc" ":1.1")
     = false
  /\ queue (fst (handle Demo.listing_bus
                   (PropertiesChanged [("Value", Demo.VInt 81)] "/Dc/Battery/Soc"
                      ":1.1")
                   Demo.started))
     = queue Demo.started.
Proof.
  split; [vm_compute; reflexivity|]. split; [reflexivity|].
  apply (queue_kept_while_socket_down Demo.listing_bus
           (PropertiesChanged [("Value", Demo.VInt 81)] "/Dc/Battery/Soc" ":1.1")
           Demo.started); [vm_compute; reflexivity|reflexivity].
Defined.

(** [entry_kept_but_by_owner_loss] at an owner swap of the vebus
    service. *)
Lemma entry_kept_but_by_owner_loss_witness :
  is_owner_loss (value := Demo.value)
    (NameOwnerChanged Demo.vebus_service ":1.2" ":1.9") = false
  /\ PyDict.get (_topics Demo.connected) (Demo.vebus_service ++ "/Mode")
     = Some Demo.mode_topic
  /\ PyDict.get
       (_topics (fst (handle Demo.listing_bus
                        (NameOwnerChanged Demo.vebus_service ":1.2" ":1.9")
                        Demo.connected)))
       (Demo.vebus_service ++ "/Mode")
     = Some Demo.mode_topic.
Proof.
  split; [reflexivity|]. split; [vm_compute; reflexivity|].
  apply (entry_kept_but_by_owner_loss Demo.listing_bus
           (NameOwnerChanged Demo.vebus_service ":1.2" ":1.9")
           Demo.connected); [reflexivity|vm_compute; reflexivity].
Defined.

(** [registry_keys_name_their_service] at the state after start-up. *)
Lemma registry_keys_name_their_service_witness :
  reachable Demo.started
  /\ (forall key service,
        In (key, service) (_services Demo.started) ->
        exists service_type z,
          get_service_type service = Ok service_type
          /\ key = service_type ++ "/" ++ PyStr.str_of_Z z)
  /\ (forall owner service,
        In (owner, service) (_service_ids Demo.started) ->
        PyStr.startswith service ServicePrefix = true).
Proof.
  split; [exact started_reachable|].
  exact (registry_keys_name_their_service Demo.started started_reachable).
Defined.

(* ================================================================== *)
(** ** The scan of a service *)
(* ================================================================== *)

(** A scan that is not asked to publish changes the state through two
    operations only. *)
Section ScanQuiet.
Context {value : Type} `{PV : PyValue value}.
Variable P : state value -> Prop.
Variables (b : bus value) (service : string).

Hypothesis add_item_ok :
  forall device_instance path v,
    preserves P (_add_item service (InstInt device_instance) path v).
Hypothesis record_ok :
  forall device_instance short st,
    get_short_service_name service (InstInt device_instance) = Ok short ->
    P st -> P (set_services (PyDict.set (_services st) short service) st).

Lemma add_unpublished_preserves device_instance path v :
  preserves P (add_and_publish service (InstInt device_instance) path v false).
Proof.
  unfold add_and_publish. apply preserves_bind; [apply add_item_ok|].
  intros [t|]; apply preserves_ret.
Qed.

Lemma introspect_unpublished_preserves device_instance doc :
  forall path,
    preserves P (_introspect b service (InstInt device_instance) path false doc).
Proof.
  induction doc as [n| |interfaces nodes IH] using xml_reply_nested_ind;
    intros path; simpl.
  - apply preserves_raise.
  - apply preserves_raise.
  - destruct nodes as [|child nodes].
    + apply preserves_for_each_all. intros iface.
      destruct (is_bus_item iface); [|apply preserves_ret].
      apply preserves_bind; [apply preserves_lift|].
      intros v. apply add_unpublished_preserves.
    + apply preserves_for_each. revert IH. generalize (child :: nodes).
      intros l IH. induction IH as [|[name sub] l Hx _ IHl]; constructor; [|exact IHl].
      destruct name as [name|]; [apply Hx|apply preserves_ret].
Qed.

Lemma read_items_unpublished_preserves device_instance :
  preserves P (read_items b service device_instance false).
Proof.
  unfold read_items. apply preserves_try_except.
  - apply preserves_bind; [apply preserves_lift|intros; apply preserves_ret].
  - intros e k E. destruct e; try discriminate. injection E as <-.
    destruct (is_unknown_object_or_method name); [|apply preserves_raise].
    apply preserves_bind; [apply introspect_unpublished_preserves|].
    intros; apply preserves_ret.
Qed.

Lemma scan_unpublished_preserves :
  preserves P (_scan_dbus_service b service false).
Proof.
  unfold _scan_dbus_service. apply preserves_try_except.
  - intros st H. unfold scan_body. unfold bind at 1.
    pose proof (read_device_instance_state b service st) as R.
    destruct (read_device_instance b service st) as [st1 [di|e]]; simpl in R;
      subst st1; [|exact H].
    unfold bind at 1, lift at 1.
    destruct (get_short_service_name service (InstInt di)) as [short|e] eqn:S;
      [|exact H].
    revert st H. apply preserves_bind.
    + apply preserves_modify. intros st H. now apply (record_ok di).
    + intros _. apply preserves_bind; [apply read_items_unpublished_preserves|].
      intros [items|]; [|apply preserves_ret].
      destruct (dict_items items) as [kvs|]; [|apply preserves_ret].
      apply preserves_for_each_all. intros kv. apply add_unpublished_preserves.
  - intros e k E. destruct e; try discriminate. injection E as <-.
    destruct (is_transient name); [apply preserves_ret|apply preserves_raise].
Qed.

End ScanQuiet.

Section Scans.
Context {value : Type} `{PV : PyValue value}.
Implicit Types (st : state value) (v : value) (b : bus value).

(** What a scan without [publish] and the registration of an owner leave
    alone: the queue, the log of the client, and the bookkeeping of the
    connection. *)
Lemma add_item_connection service device_instance path v st :
  connection_view (fst (_add_item service device_instance path v st))
  = connection_view st.
Proof.
  unfold _add_item.
  destruct (PyDict.get (_topics st) _); [reflexivity|].
  destruct (get_service_type service); [|reflexivity].
  now destruct (is_blocked _ _).
Qed.

(** A scan that is not asked to publish enqueues nothing and hands
    nothing to the broker, also when the broker socket is up. *)
Theorem scan_without_publish_is_quiet b service st :
  queue (fst (_scan_dbus_service b service false st)) = queue st
  /\ published (fst (_scan_dbus_service b service false st)) = published st.
Proof.
  assert (H : connection_view (fst (_scan_dbus_service b service false st))
              = connection_view st).
  { apply (scan_unpublished_preserves
             (fun s : state value => connection_view s = connection_view st)); [| |reflexivity].
    - intros di path v s H. now rewrite add_item_connection.
    - intros di short s _ H. exact H. }
  unfold connection_view in H. injection H. intros. split; assumption.
Qed.

Lemma init_connection b system_id registrator :
  connection_view (fst (DbusMqtt_init b system_id registrator))
  = connection_view (initial_state (value := value) system_id registrator).
Proof.
  unfold DbusMqtt_init.
  apply (preserves_for_each_all
           (fun s : state value =>
              connection_view s
              = connection_view (initial_state (value := value) system_id registrator)));
    [|reflexivity].
  intros service.
  destruct (PyStr.startswith service "com.victronenergy."); [|apply preserves_ret].
  apply preserves_bind; [apply preserves_lift|]. intros owner.
  apply preserves_bind.
  - apply preserves_modify. intros s H. exact H.
  - intros _. apply scan_unpublished_preserves.
    + intros di path v s H. now rewrite add_item_connection.
    + intros di short s _ H. exact H.
Qed.

(** [__init__] leaves an object with an empty queue, whether it returns
    or raises: nothing was handed to the broker, nothing is subscribed,
    no idle run is asked for, the object does not count as connected to
    the cloud, the system id is the one given, and the registrator's
    [register] was called once if there is a registrator. *)
Theorem init_is_quiet b system_id registrator :
  let st := fst (DbusMqtt_init b system_id registrator) in
  queue st = [] /\ published st = [] /\ subscribed st = []
  /\ idle_sources st = 0 /\ _connected_to_cloud st = false
  /\ _system_id st = system_id /\ _registrator st = registrator
  /\ register_calls st = match registrator with Some _ => 1 | None => 0 end.
Proof.
  pose proof (init_connection b system_id registrator) as H.
  unfold connection_view in H. cbn [initial_state queue published subscribed
    idle_sources register_calls _connected_to_cloud _socket_watch
    _last_queue_run _system_id _registrator] in H.
  injection H. intros. cbv zeta. repeat split; assumption.
Qed.

(** *** The device instance *)

(** A service without [/DeviceInstance] (the bus answers with
    [UnknownObject] or [UnknownMethod]) and a service whose
    [/DeviceInstance] is no number ([int] raises [TypeError]) count as
    instance 0. *)
Lemma read_device_instance_default b service st :
  (exists n, bus_get_value b service "/DeviceInstance" = DBusError n
             /\ is_unknown_object_or_method n = true)
  \/ (exists raw, bus_get_value b service "/DeviceInstance" = Reply raw
                  /\ py_int (unwrap_dbus_value raw) = Refused TypeErr) ->
  read_device_instance b service st = (st, Ok 0%Z).
Proof.
  unfold read_device_instance, try_except, bind, lift, _get_dbus_value.
  intros [(n & E & U)|(raw & E & T)]; rewrite E; cbn.
  - now rewrite U.
  - now rewrite T.
Qed.

Lemma scan_state b service publish st :
  fst (_scan_dbus_service b service publish st)
  = fst (scan_body b service publish st).
Proof.
  unfold _scan_dbus_service, try_except.
  destruct (scan_body b service publish st) as [st1 [[]|e]]; [reflexivity|].
  destruct e; try reflexivity. now destruct (is_transient name).
Qed.

Lemma scan_services b service publish st service_type z :
  get_service_type service = Ok service_type ->
  read_device_instance b service st = (st, Ok z) ->
  _services (fst (_scan_dbus_service b service publish st))
  = PyDict.set (_services st) (service_type ++ "/" ++ PyStr.str_of_Z z) service.
Proof.
  intros T R. rewrite scan_state. unfold scan_body. unfold bind at 1. rewrite R.
  unfold bind at 1, lift at 1. unfold get_short_service_name. rewrite T.
  cbn [format_instance]. unfold bind at 1, modify at 1.
  now rewrite scan_rest_services.
Qed.

(** Once the device instance is read, the scan writes the record of the
    service under its type and that instance, and nothing else of the
    registry changes, however the scan ends: the record is there when
    the scan returns, when it is abandoned, and when it raises. *)
Theorem scan_registers_service b service publish st service_type z :
  get_service_type service = Ok service_type ->
  read_device_instance b service st = (st, Ok z) ->
  _services (fst (_scan_dbus_service b service publish st))
  = PyDict.set (_services st) (service_type ++ "/" ++ PyStr.str_of_Z z) service
  /\ PyDict.get (_services (fst (_scan_dbus_service b service publish st)))
       (service_type ++ "/" ++ PyStr.str_of_Z z)
     = Some service.
Proof.
  intros T R. rewrite (scan_services b service publish st service_type z T R).
  split; [reflexivity|apply PyDictFacts.get_set_same].
Qed.

(** A service without a usable [/DeviceInstance] is registered as
    instance 0 of its type. *)
Theorem scan_default_instance b service publish st service_type :
  get_service_type service = Ok service_type ->
  (exists n, bus_get_value b service "/DeviceInstance" = DBusError n
             /\ is_unknown_object_or_method n = true)
  \/ (exists raw, bus_get_value b service "/DeviceInstance" = Reply raw
                  /\ py_int (unwrap_dbus_value raw) = Refused TypeErr) ->
  PyDict.get (_services (fst (_scan_dbus_service b service publish st)))
    (service_type ++ "/0")
  = Some service.
Proof.
  intros T D.
  rewrite (scan_services b service publish st service_type 0%Z T
             (read_device_instance_default b service st D)).
  apply PyDictFacts.get_set_same.
Qed.

(** *** The appearance of a service whose scan fails *)

(** When the scan of a service that appears raises, the handler of the
    owner change raises the same exception and the new owner is not
    registered: the owner table is as before. *)
Theorem appearance_scan_raises b name oldowner newowner st st1 e :
  PyStr.startswith name "com.victronenergy." = true ->
  newowner <> "" ->
  _scan_dbus_service b name true st = (st1, Raise e) ->
  _dbus_name_owner_changed b name oldowner newowner st = (st1, Raise e)
  /\ _service_ids st1 = _service_ids st.
Proof.
  intros V N S. split.
  - unfold _dbus_name_owner_changed. rewrite V. cbn [negb].
    apply String.eqb_neq in N. rewrite N. cbn [negb].
    unfold bind. now rewrite S.
  - pose proof (scan_keeps b name true st) as K.
    rewrite S in K. apply K.
Qed.

(** *** The item listing *)

Lemma add_and_publish_step service service_type device_instance path v publish st :
  get_service_type service = Ok service_type ->
  let uid := service ++ normalize_path path in
  let topic := make_topic (_system_id st) service_type device_instance
                 (normalize_path path) in
  let st' := fst (add_and_publish service device_instance path v publish st) in
  snd (add_and_publish service device_instance path v publish st) = Ok tt
  /\ _system_id st' = _system_id st
  /\ (forall u t, PyDict.get (_topics st) u = Some t ->
                  PyDict.get (_topics st') u = Some t)
  /\ (forall u t, PyDict.get (_topics st') u = Some t ->
                  PyDict.get (_topics st) u = Some t \/ (u = uid /\ t = topic))
  /\ (is_blocked service_type (normalize_path path) = false ->
      exists t, PyDict.get (_topics st') uid = Some t).
Proof.
  intros T uid topic. unfold add_and_publish, bind, _add_item. fold uid.
  destruct (PyDict.get (_topics st) uid) as [r|] eqn:G.
  - assert (Q : forall s : state value,
               _topics s = _topics st -> _system_id s = _system_id st ->
               _system_id s = _system_id st
               /\ (forall u t, PyDict.get (_topics st) u = Some t ->
                               PyDict.get (_topics s) u = Some t)
               /\ (forall u t, PyDict.get (_topics s) u = Some t ->
                               PyDict.get (_topics st) u = Some t
                               \/ (u = uid /\ t = topic))
               /\ (is_blocked service_type (normalize_path path) = false ->
                   exists t, PyDict.get (_topics s) uid = Some t)).
    { intros s E1 E2. rewrite E1. repeat split; try tauto. intros _. now exists r. }
    destruct publish; cbn [fst snd modify ret]; (split; [reflexivity|]);
      apply Q; try reflexivity;
      unfold _publish; now destruct (negb (_socket_watch st)).
  - rewrite T. destruct (is_blocked service_type (normalize_path path)) eqn:B.
    + cbn. repeat split; try tauto. discriminate.
    + fold topic.
      set (st1 := set_values _ _).
      assert (Q : forall s : state value,
                 _topics s = PyDict.set (_topics st) uid topic ->
                 _system_id s = _system_id st ->
                 _system_id s = _system_id st
                 /\ (forall u t, PyDict.get (_topics st) u = Some t ->
                                 PyDict.get (_topics s) u = Some t)
                 /\ (forall u t, PyDict.get (_topics s) u = Some t ->
                                 PyDict.get (_topics st) u = Some t
                                 \/ (u = uid /\ t = topic))
                 /\ (false = false ->
                     exists t, PyDict.get (_topics s) uid = Some t)).
      { intros s E1 E2. rewrite E1. split; [exact E2|]. split; [|split].
        * intros u t H. rewrite PyDictFacts.get_set_other; [exact H|].
          intros <-. congruence.
        * intros u t H. destruct (string_dec uid u) as [<-|N].
          -- rewrite PyDictFacts.get_set_same in H. injection H as <-. now right.
          -- rewrite PyDictFacts.get_set_other in H by exact N. now left.
        * intros _. exists topic. apply PyDictFacts.get_set_same. }
      destruct publish; cbn [fst snd modify ret]; (split; [reflexivity|]);
        apply Q; try reflexivity;
        unfold _publish; now destruct (negb (_socket_watch st1)).
Qed.

Lemma listing_loop service service_type z publish
    (kvs : list (string * value)) st :
  get_service_type service = Ok service_type ->
  let body := fun kv : string * value =>
                add_and_publish service (InstInt z) (fst kv)
                  (unwrap_dbus_value (snd kv)) publish in
  let st' := fst (for_each body kvs st) in
  snd (for_each body kvs st) = Ok tt
  /\ _system_id st' = _system_id st
  /\ (forall u t, PyDict.get (_topics st) u = Some t ->
                  PyDict.get (_topics st') u = Some t)
  /\ (forall u t, PyDict.get (_topics st') u = Some t ->
        PyDict.get (_topics st) u = Some t
        \/ exists path, In path (map fst kvs)
                        /\ u = service ++ normalize_path path
                        /\ t = make_topic (_system_id st) service_type (InstInt z)
                                 (normalize_path path))
  /\ (forall path, In path (map fst kvs) ->
        is_blocked service_type (normalize_path path) = false ->
        exists t, PyDict.get (_topics st') (service ++ normalize_path path) = Some t).
Proof.
  intros T body. revert st. induction kvs as [|kv kvs IH]; intros st; cbn zeta.
  - cbn. repeat split; try tauto.
  - cbn [for_each]. unfold bind.
    destruct (add_and_publish_step service service_type (InstInt z) (fst kv)
                (unwrap_dbus_value (snd kv)) publish st T)
      as (R & S & K & N & A).
    fold (body kv) in R, S, K, N, A |- *.
    destruct (body kv st) as [st1 [[]|e]]; cbn [fst snd] in *; [|discriminate].
    destruct (IH st1) as (R' & S' & K' & N' & A').
    fold (for_each body kvs) in *.
    split; [exact R'|]. split; [congruence|]. split; [|split].
    + intros u t H. apply K'. now apply K.
    + intros u t H. apply N' in H as [H|(path & I & -> & ->)].
      * apply N in H as [H|[-> ->]]; [now left|].
        right. exists (fst kv). repeat split. now left.
      * right. exists path. rewrite S. repeat split. now right.
    + intros path [<-|I] B.
      * destruct (A B) as [t G]. exists t. now apply K'.
      * now apply A'.
Qed.

(** The scan of a service that answers with an item listing returns, and
    every path of the listing that is not blocked is mirrored after it.
    A path that was mirrored before keeps its topic, and a topic made by
    the scan is the one of the service's type, the device instance read
    at the start, and the path. *)
Theorem scan_mirrors_listing b service publish st service_type z raw kvs path v :
  get_service_type service = Ok service_type ->
  read_device_instance b service st = (st, Ok z) ->
  bus_get_value b service "/" = Reply raw ->
  dict_items (unwrap_dbus_value raw) = Some kvs ->
  In (path, v) kvs ->
  is_blocked service_type (normalize_path path) = false ->
  let uid := service ++ normalize_path path in
  let st' := fst (_scan_dbus_service b service publish st) in
  snd (_scan_dbus_service b service publish st) = Ok tt
  /\ exists topic,
       PyDict.get (_topics st') uid = Some topic
       /\ (forall t, PyDict.get (_topics st) uid = Some t -> topic = t)
       /\ (PyDict.get (_topics st) uid = None ->
           topic = make_topic (_system_id st) service_type (InstInt z)
                     (normalize_path path)).
Proof.
  intros T R L D I B uid st'. subst st'.
  assert (E : _scan_dbus_service b service publish st
              = for_each
                  (fun kv : string * value =>
                     add_and_publish service (InstInt z) (fst kv)
                       (unwrap_dbus_value (snd kv)) publish)
                  kvs
                  (set_services
                     (PyDict.set (_services st)
                        (service_type ++ "/" ++ PyStr.str_of_Z z) service) st)).
  { unfold _scan_dbus_service, try_except, scan_body. unfold bind at 1. rewrite R.
    unfold bind at 1, lift at 1. unfold get_short_service_name. rewrite T.
    cbn [format_instance]. unfold bind at 1, modify at 1.
    unfold bind at 1. unfold read_items, try_except, bind at 1, lift, _get_dbus_value.
    rewrite L. cbn [ret]. rewrite D.
    set (st1 := set_services _ st).
    pose proof (listing_loop service service_type z publish kvs st1 T) as (Q & _).
    destruct (for_each _ kvs st1) as [s2 [[]|e]]; [reflexivity|discriminate]. }
  rewrite E.
  set (st1 := set_services _ st).
  destruct (listing_loop service service_type z publish kvs st1 T)
    as (Q & S & K & N & A).
  split; [exact Q|].
  assert (Ip : In path (map fst kvs)).
  { change path with (fst (path, v)). now apply in_map. }
  destruct (A path Ip B) as [t G]. exists t. split; [exact G|]. split.
  - intros t0 G0. apply (K uid t0) in G0. unfold uid in G0. congruence.
  - intros G0. apply N in G as [G|(p & _ & U & ->)].
    + change (_topics st1) with (_topics st) in G. unfold uid in G0. congruence.
    + apply PyStrFacts.append_inj_l in U. now rewrite U.
Qed.

(** *** Start-up *)

Lemma init_loop b (names : list string) st st' :
  for_each
    (fun service =>
       if PyStr.startswith service "com.victronenergy." then
         bind (lift (outcome_of_reply (bus_get_name_owner b service)))
           (fun owner =>
              bind (modify (fun s =>
                      set_service_ids (PyDict.set (_service_ids s) owner service) s))
                (fun _ => _scan_dbus_service b service false))
       else ret tt)
    names st
  = (st', Ok tt) ->
  (forall owner, PyDict.has (_service_ids st) owner = true ->
                 PyDict.has (_service_ids st') owner = true)
  /\ (forall service,
        In service names ->
        PyStr.startswith service "com.victronenergy." = true ->
        exists owner,
          bus_get_name_owner b service = Reply owner
          /\ PyDict.has (_service_ids st') owner = true).
Proof.
  revert st. induction names as [|name names IH]; intros st; cbn [for_each].
  - intros [= <-]. split; [tauto|intros ? []].
  - unfold bind at 1.
    destruct (PyStr.startswith name "com.victronenergy.") eqn:V.
    + unfold bind at 1, lift at 1.
      destruct (bus_get_name_owner b name) as [owner|n] eqn:O;
        cbn [outcome_of_reply]; [|discriminate].
      unfold bind at 1, modify at 1.
      set (st1 := set_service_ids _ st).
      pose proof (scan_keeps b name false st1) as (_ & _ & K).
      destruct (_scan_dbus_service b name false st1) as [st2 [[]|e]];
        [|discriminate].
      cbn [fst] in K. intros E. destruct (IH st2 E) as [Keep All].
      assert (H1 : forall o, PyDict.has (_service_ids st) o = true ->
                             PyDict.has (_service_ids st2) o = true).
      { intros o H. rewrite K. subst st1. cbn [_service_ids set_service_ids].
        unfold PyDict.has in *. destruct (string_dec owner o) as [<-|N].
        - now rewrite PyDictFacts.get_set_same.
        - now rewrite PyDictFacts.get_set_other. }
      split.
      * intros o H. apply Keep. now apply H1.
      * intros service [<-|I] P; [|now apply All].
        exists owner. split; [exact O|]. apply Keep. rewrite K. subst st1.
        cbn [_service_ids set_service_ids]. unfold PyDict.has.
        now rewrite PyDictFacts.get_set_same.
    + cbn [ret]. intros E. destruct (IH st E) as [Keep All].
      split; [exact Keep|].
      intros service [<-|I] P; [congruence|now apply All].
Qed.

(** When [__init__] returns, the owner of every name under the vendor
    prefix that the bus listed is in the owner table. *)
Theorem init_registers_owners b system_id registrator st service :
  DbusMqtt_init b system_id registrator = (st, Ok tt) ->
  In service (bus_list_names b) ->
  PyStr.startswith service "com.victronenergy." = true ->
  exists owner,
    bus_get_name_owner b service = Reply owner
    /\ PyDict.has (_service_ids st) owner = true.
Proof.
  intros E I V. unfold DbusMqtt_init in E.
  now apply (init_loop b (bus_list_names b) _ st E).
Qed.

(** When the bus does not name the owner of a listed name under the
    vendor prefix, [__init__] raises the bus error, and the names listed
    after it are not looked at: the first such name decides. *)
Lemma init_owner_unknown b system_id registrator service rest n :
  bus_list_names b = service :: rest ->
  PyStr.startswith service "com.victronenergy." = true ->
  bus_get_name_owner b service = DBusError n ->
  DbusMqtt_init b system_id registrator
  = (initial_state system_id registrator, Raise (DBusException n)).
Proof.
  intros L V O. unfold DbusMqtt_init. rewrite L. cbn [for_each].
  unfold bind at 1. rewrite V. unfold bind at 1, lift at 1. now rewrite O.
Qed.

End Scans.

(** [scan_registers_service] at a second scan of the system service. *)
Lemma scan_registers_service_witness :
  get_service_type Demo.system_service = Ok "system"
  /\ read_device_instance Demo.listing_bus Demo.system_service Demo.started
     = (Demo.started, Ok 0%Z)
  /\ _services (fst (_scan_dbus_service Demo.listing_bus Demo.system_service true
                       Demo.started))
     = PyDict.set (_services Demo.started) ("system" ++ "/" ++ PyStr.str_of_Z 0)
         Demo.system_service.
Proof.
  split; [vm_compute; reflexivity|]. split; [vm_compute; reflexivity|].
  apply (proj1 (scan_registers_service Demo.listing_bus Demo.system_service true
                  Demo.started "system" 0%Z eq_refl eq_refl)).
Defined.

(** [scan_default_instance] at the system service, which has no
    [/DeviceInstance]. *)
Lemma scan_default_instance_witness :
  get_service_type Demo.system_service = Ok "system"
  /\ ((exists n,
         bus_get_value Demo.listing_bus Demo.system_service "/DeviceInstance"
         = DBusError n
         /\ is_unknown_object_or_method n = true)
      \/ (exists raw,
            bus_get_value Demo.listing_bus Demo.system_service "/DeviceInstance"
            = Reply raw
            /\ py_int (unwrap_dbus_value raw) = Refused TypeErr))
  /\ PyDict.get
       (_services (fst (_scan_dbus_service Demo.listing_bus Demo.system_service
                          false (initial_state "abc123" None))))
       ("system" ++ "/0")
     = Some Demo.system_service.
Proof.
  assert (D : (exists n,
                 bus_get_value Demo.listing_bus Demo.system_service "/DeviceInstance"
                 = DBusError n
                 /\ is_unknown_object_or_method n = true)
              \/ (exists raw,
                    bus_get_value Demo.listing_bus Demo.system_service
                      "/DeviceInstance" = Reply raw
                    /\ py_int (unwrap_dbus_value raw) = Refused TypeErr)).
  { left. exists "org.freedesktop.DBus.Error.UnknownObject".
    split; vm_compute; reflexivity. }
  split; [vm_compute; reflexivity|]. split; [exact D|].
  apply (scan_default_instance Demo.listing_bus Demo.system_service false
           (initial_state "abc123" None) "system"); [vm_compute; reflexivity|exact D].
Defined.

(** [appearance_scan_raises] at a service that appears on a bus that
    refuses every call. *)
Lemma appearance_scan_raises_witness :
  PyStr.startswith Demo.system_service "com.victronenergy." = true
  /\ ":1.7" <> ""
  /\ _scan_dbus_service Demo.denied_bus Demo.system_service true Demo.connected
     = (Demo.connected,
        Raise (DBusException "org.freedesktop.DBus.Error.AccessDenied"))
  /\ _dbus_name_owner_changed Demo.denied_bus Demo.system_service "" ":1.7"
       Demo.connected
     = (Demo.connected,
        Raise (DBusException "org.freedesktop.DBus.Error.AccessDenied"))
  /\ _service_ids Demo.connected = _service_ids Demo.connected.
Proof.
  assert (N : ":1.7" <> "") by discriminate.
  assert (S : _scan_dbus_service Demo.denied_bus Demo.system_service true
                Demo.connected
              = (Demo.connected,
                 Raise (DBusException "org.freedesktop.DBus.Error.AccessDenied")))
    by (vm_compute; reflexivity).
  split; [vm_compute; reflexivity|]. split; [exact N|]. split; [exact S|].
  apply (appearance_scan_raises Demo.denied_bus Demo.system_service "" ":1.7"
           Demo.connected Demo.connected
           (DBusException "org.freedesktop.DBus.Error.AccessDenied"));
    [vm_compute; reflexivity|exact N|exact S].
Defined.

(** [scan_mirrors_listing] at the first scan of the system service. *)
Lemma scan_mirrors_listing_witness :
  get_service_type Demo.system_service = Ok "system"
  /\ read_device_instance Demo.listing_bus Demo.system_service
       (initial_state "abc123" None)
     = (initial_state "abc123" None, Ok 0%Z)
  /\ bus_get_value Demo.listing_bus Demo.system_service "/"
     = Reply (Demo.VItems [("Serial", 4711%Z); ("Dc/Battery/Soc", 80%Z)])
  /\ dict_items
       (unwrap_dbus_value (Demo.VItems [("Serial", 4711%Z); ("Dc/Battery/Soc", 80%Z)]))
     = Some [("Serial", Demo.VInt 4711); ("Dc/Battery/Soc", Demo.VInt 80)]
  /\ In ("Dc/Battery/Soc", Demo.VInt 80)
        [("Serial", Demo.VInt 4711); ("Dc/Battery/Soc", Demo.VInt 80)]
  /\ is_blocked "system" (normalize_path "Dc/Battery/Soc") = false
  /\ snd (_scan_dbus_service Demo.listing_bus Demo.system_service false
            (initial_state "abc123" None))
     = Ok tt.
Proof.
  assert (I : In ("Dc/Battery/Soc", Demo.VInt 80)
                [("Serial", Demo.VInt 4711); ("Dc/Battery/Soc", Demo.VInt 80)])
    by (right; left; reflexivity).
  split; [vm_compute; reflexivity|]. split; [vm_compute; reflexivity|].
  split; [vm_compute; reflexivity|]. split; [vm_compute; reflexivity|].
  split; [exact I|]. split; [vm_compute; reflexivity|].
  apply (scan_mirrors_listing Demo.listing_bus Demo.system_service false
           (initial_state "abc123" None) "system" 0%Z
           (Demo.VItems [("Serial", 4711%Z); ("Dc/Battery/Soc", 80%Z)])
           [("Serial", Demo.VInt 4711); ("Dc/Battery/Soc", Demo.VInt 80)]
           "Dc/Battery/Soc" (Demo.VInt 80));
    try (vm_compute; reflexivity). exact I.
Defined.

(** [init_registers_owners] at the vebus service of the example bus. *)
Lemma init_registers_owners_witness :
  DbusMqtt_init Demo.listing_bus "abc123" None = (Demo.started, Ok tt)
  /\ In Demo.vebus_service (bus_list_names Demo.listing_bus)
  /\ PyStr.startswith Demo.vebus_service "com.victronenergy." = true
  /\ exists owner,
       bus_get_name_owner Demo.listing_bus Demo.vebus_service = Reply owner
       /\ PyDict.has (_service_ids Demo.started) owner = true.
Proof.
  assert (E : DbusMqtt_init Demo.listing_bus "abc123" None = (Demo.started, Ok tt))
    by (vm_compute; reflexivity).
  assert (I : In Demo.vebus_service (bus_list_names Demo.listing_bus))
    by (right; right; left; reflexivity).
  split; [exact E|]. split; [exact I|]. split; [vm_compute; reflexivity|].
  apply (init_registers_owners Demo.listing_bus "abc123" None Demo.started
           Demo.vebus_service E I).
  vm_compute; reflexivity.
Defined.

(* ================================================================== *)
(** ** Introspection *)
(* ================================================================== *)

Section Introspection.
Context {value : Type} `{PV : PyValue value}.
Implicit Types (st : state value) (v : value) (b : bus value).

Lemma for_each_returns {X} (body : X -> M value unit) x l st :
  snd (for_each body (x :: l) st) = Ok tt ->
  snd (body x st) = Ok tt
  /\ for_each body (x :: l) st = for_each body l (fst (body x st)).
Proof.
  cbn [for_each]. unfold bind.
  destruct (body x st) as [st1 [[]|e]]; cbn [fst snd]; [now split|discriminate].
Qed.

Lemma leaf_loop b service service_type device_instance path publish
    (interfaces : list (option string)) st :
  get_service_type service = Ok service_type ->
  let body := fun iface : option string =>
                if is_bus_item iface then
                  bind (lift (_get_dbus_value b service path))
                    (fun v => add_and_publish service device_instance path v publish)
                else ret tt in
  snd (for_each body interfaces st) = Ok tt ->
  (forall u t, PyDict.get (_topics st) u = Some t ->
               PyDict.get (_topics (fst (for_each body interfaces st))) u = Some t)
  /\ (existsb is_bus_item interfaces = true ->
      is_blocked service_type (normalize_path path) = false ->
      exists t,
        PyDict.get (_topics (fst (for_each body interfaces st)))
          (service ++ normalize_path path) = Some t).
Proof.
  intros T body. revert st.
  induction interfaces as [|iface interfaces IH]; intros st R.
  - cbn. split; [tauto|discriminate].
  - apply for_each_returns in R as R'. destruct R' as [R1 E]. rewrite E in R |- *.
    destruct (IH _ R) as [K' A'].
    assert (S : (forall u t, PyDict.get (_topics st) u = Some t ->
                             PyDict.get (_topics (fst (body iface st))) u = Some t)
                /\ (is_bus_item iface = true ->
                    is_blocked service_type (normalize_path path) = false ->
                    exists t, PyDict.get (_topics (fst (body iface st)))
                                (service ++ normalize_path path) = Some t)).
    { unfold body in R1 |- *. destruct (is_bus_item iface).
      - unfold bind, lift in R1 |- *.
        destruct (_get_dbus_value b service path) as [v|e]; [|discriminate].
        destruct (add_and_publish_step service service_type device_instance path v
                    publish st T) as (_ & _ & K & _ & A).
        split; [exact K|]. intros _. exact A.
      - cbn. split; [tauto|discriminate]. }
    destruct S as [K A]. split.
    + intros u t H. apply K'. now apply K.
    + cbn [existsb]. intros X B. apply orb_true_iff in X as [X|X].
      * destruct (A X B) as [t G]. exists t. now apply K'.
      * now apply A'.
Qed.

Lemma introspect_items b service service_type device_instance publish doc :
  get_service_type service = Ok service_type ->
  forall path st,
    snd (_introspect b service device_instance path publish doc st) = Ok tt ->
    (forall u t,
       PyDict.get (_topics st) u = Some t ->
       PyDict.get
         (_topics (fst (_introspect b service device_instance path publish doc st)))
         u = Some t)
    /\ (forall p,
          In p (bus_items path doc) ->
          is_blocked service_type (normalize_path p) = false ->
          exists t,
            PyDict.get
              (_topics (fst (_introspect b service device_instance path publish
                               doc st)))
              (service ++ normalize_path p) = Some t).
Proof.
  intros T.
  induction doc as [n| |interfaces nodes IH] using xml_reply_nested_ind;
    intros path st R.
  - discriminate.
  - discriminate.
  - destruct nodes as [|child nodes].
    + cbn [_introspect bus_items] in R |- *.
      destruct (leaf_loop b service service_type device_instance path publish
                  interfaces st T R) as [K A].
      split; [exact K|]. intros p I B.
      destruct (existsb is_bus_item interfaces) eqn:X; [|contradiction].
      destruct I as [<-|[]]. now apply A.
    + cbn [_introspect bus_items] in R |- *.
      revert st R IH. generalize (child :: nodes). clear child nodes.
      intros l. induction l as [|[name sub] l IHl]; intros st R IH.
      * cbn. split; [tauto|intros ? []].
      * apply for_each_returns in R as R'. destruct R' as [R1 E].
        rewrite E in R |- *. inversion IH as [|? ? Hsub Hrest]; subst.
        destruct (IHl _ R Hrest) as [K' A']. cbn [snd] in Hsub.
        assert (S : (forall u t,
                       PyDict.get (_topics st) u = Some t ->
                       PyDict.get
                         (_topics
                            (fst (match name with
                                  | Some nm =>
                                      _introspect b service device_instance
                                        (if PyStr.endswith path "/" then path ++ nm
                                         else path ++ "/" ++ nm) publish sub
                                  | None => ret tt
                                  end st))) u = Some t)
                    /\ (forall p,
                          In p (match name with
                                | Some nm =>
                                    bus_items (if PyStr.endswith path "/"
                                               then path ++ nm
                                               else path ++ "/" ++ nm) sub
                                | None => []
                                end) ->
                          is_blocked service_type (normalize_path p) = false ->
                          exists t,
                            PyDict.get
                              (_topics
                                 (fst (match name with
                                       | Some nm =>
                                           _introspect b service device_instance
                                             (if PyStr.endswith path "/"
                                              then path ++ nm
                                              else path ++ "/" ++ nm) publish sub
                                       | None => ret tt
                                       end st)))
                              (service ++ normalize_path p) = Some t)).
        { destruct name as [nm|].
          - now apply Hsub.
          - cbn. split; [tauto|intros ? []]. }
        destruct S as [K A]. split.
        -- intros u t H. apply K'. now apply K.
        -- intros p I B. cbn [flat_map] in I. apply in_app_or in I as [I|I].
           ++ destruct (A p I B) as [t G]. exists t. now apply K'.
           ++ now apply A'.
Qed.

(** When the introspection of a service returns, every path it found to
    be an item (a node without child nodes that has the
    [com.victronenergy.BusItem] interface) is mirrored, unless the path
    is blocked for the type of the service; and no entry that was in the
    mirror table before has gone or changed. *)
Theorem introspect_mirrors_items b service service_type device_instance publish
    path st :
  get_service_type service = Ok service_type ->
  snd (_introspect b service device_instance path publish
         (bus_introspect b service) st) = Ok tt ->
  let st' := fst (_introspect b service device_instance path publish
                    (bus_introspect b service) st) in
  (forall p,
     In p (bus_items path (bus_introspect b service)) ->
     is_blocked service_type (normalize_path p) = false ->
     exists t, PyDict.get (_topics st') (service ++ normalize_path p) = Some t)
  /\ (forall u t,
        PyDict.get (_topics st) u = Some t -> PyDict.get (_topics st') u = Some t).
Proof.
  intros T R st'.
  destruct (introspect_items b service service_type device_instance publish
              (bus_introspect b service) T path st R) as [K A].
  now split.
Qed.

End Introspection.

(** [introspect_mirrors_items] at a service that answers the
    introspection with a tree of two items. *)
Lemma introspect_mirrors_items_witness :
  get_service_type Demo.system_service = Ok "system"
  /\ snd (_introspect Demo.tree_bus Demo.system_service (InstInt 0) "/" true
            (bus_introspect Demo.tree_bus Demo.system_service)
            (initial_state "abc123" None))
     = Ok tt
  /\ bus_items "/" (bus_introspect Demo.tree_bus Demo.system_service)
     = ["/Dc/Soc"; "/Serial"]
  /\ is_blocked "system" (normalize_path "/Dc/Soc") = false
  /\ exists t,
       PyDict.get
         (_topics (fst (_introspect Demo.tree_bus Demo.system_service (InstInt 0)
                          "/" true
                          (bus_introspect Demo.tree_bus Demo.system_service)
                          (initial_state "abc123" None))))
         (Demo.system_service ++ normalize_path "/Dc/Soc")
       = Some t.
Proof.
  assert (L : bus_items "/" (bus_introspect Demo.tree_bus Demo.system_service)
              = ["/Dc/Soc"; "/Serial"]) by (vm_compute; reflexivity).
  split; [vm_compute; reflexivity|]. split; [vm_compute; reflexivity|].
  split; [exact L|]. split; [vm_compute; reflexivity|].
  apply (proj1 (introspect_mirrors_items Demo.tree_bus Demo.system_service "system"
                  (InstInt 0) true "/" (initial_state "abc123" None)
                  eq_refl eq_refl)).
  - rewrite L. left. reflexivity.
  - vm_compute; reflexivity.
Defined.

(* ================================================================== *)
(** ** The device instance in a topic *)
(* ================================================================== *)


(** A scan changes the state through [_add_item] with the device
    instance it read, and through [_publish]. *)
Section ScanAt.
Context {value : Type} `{PV : PyValue value}.
Variable P : state value -> Prop.
Variables (b : bus value) (service : string) (z : Z) (publish : bool).

Hypothesis add_item_ok :
  forall path v, preserves P (_add_item service (InstInt z) path v).
Hypothesis publish_ok : forall topic v st, P st -> P (_publish topic v st).





End ScanAt.

Section Instances.
Context {value : Type} `{PV : PyValue value}.
Implicit Types (st : state value) (v : value) (b : bus value).


Lemma add_item_system_id service device_instance path v st :
  _system_id (fst (_add_item service device_instance path v st)) = _system_id st.
Proof. now destruct (add_item_frame service device_instance path v st). Qed.







End Instances.




